(** * MegEngine: tensor operator dispatch and quantized dtypes

    A shallow embedding of
    - [imperative/python/megengine/core/tensor/dtype.py]
      (module [Dtype] below), and
    - [imperative/python/megengine/core/tensor/array_method.py]
      (module [ArrayMethod] below),
    together with the part of Python ([Py]), IEEE 754 arithmetic
    ([IEEE754]) and NumPy ([Numpy]) that the two files rely on, and a
    runtime on dtypes and shapes ([Shapes]) to run the dispatch layer
    on.  The contracts are stated in [QuantSpec] and [DispatchSpec] and
    proved in [DtypeFacts], [ArrayMethodFacts] and [ShapeFacts];
    [Concrete] applies the theorems to concrete inputs. *)

From Stdlib Require Import ZArith QArith Qabs Qround Ascii String List Lia Bool.
From Stdlib Require Import SpecFloat.
From stdpp Require Import base option list gmap strings sorting.

Local Open Scope string_scope.
Local Open Scope Z_scope.

(* ===================================================================== *)
(** * IEEE 754 binary floating point (on the Standard Library's [spec_float]) *)
(* ===================================================================== *)

Module IEEE754.

Record format := Format { prec : Z; emax : Z }.

Definition binary32 : format := Format 24 128.
Definition binary64 : format := Format 53 1024.

Definition div (f : format) := SFdiv (prec f) (emax f).
Definition mul (f : format) := SFmul (prec f) (emax f).
Definition add (f : format) := SFadd (prec f) (emax f).
Definition sub (f : format) := SFsub (prec f) (emax f).

(** The float of format [f] nearest to the integer [z]. *)
Definition of_Z (f : format) (z : Z) : spec_float :=
  binary_normalize (prec f) (emax f) z 0 false.

(** Conversion of a float of any format to format [f], rounding to
    nearest, ties to even. *)
Definition convert (f : format) (x : spec_float) : spec_float :=
  match x with
  | S754_finite s m e => binary_round (prec f) (emax f) s m e
  | _ => x
  end.

Definition is_nan (x : spec_float) : bool :=
  match x with S754_nan => true | _ => false end.

(** [m * 2^e] for [e < 0], rounded to the nearest integer, ties to even. *)
Definition round_half_even (m : positive) (e : Z) : Z :=
  let d := 2 ^ (- e) in
  let q := Z.pos m / d in
  let r := Z.pos m mod d in
  match (2 * r ?= d) with
  | Lt => q
  | Eq => if Z.even q then q else q + 1
  | Gt => q + 1
  end.

(** Round to an integral float (C [rint] under the default rounding
    mode); the sign of a zero result is the sign of the argument. *)
Definition rint (f : format) (x : spec_float) : spec_float :=
  match x with
  | S754_finite s m e =>
      if 0 <=? e then x
      else match round_half_even m e with
           | Z.pos p => binary_round (prec f) (emax f) s p 0
           | _ => S754_zero s
           end
  | _ => x
  end.

(** Truncation toward zero, [None] on NaN and the infinities. *)
Definition trunc (x : spec_float) : option Z :=
  match x with
  | S754_zero _ => Some 0
  | S754_finite s m e =>
      let a := if 0 <=? e then Z.pos m * 2 ^ e else Z.pos m / 2 ^ (- e) in
      Some (if s then - a else a)
  | _ => None
  end.

(** The exact value of a finite float. *)
Definition to_Q (x : spec_float) : option Q :=
  match x with
  | S754_zero _ => Some 0%Q
  | S754_finite s m e =>
      let a := if 0 <=? e then inject_Z (Z.pos m * 2 ^ e)
               else Qmake (Z.pos m) (Z.to_pos (2 ^ (- e))) in
      Some (if s then Qopp a else a)
  | _ => None
  end.

(** [maximum] and [minimum] as NumPy defines them: a NaN operand wins. *)
Definition maximum (x y : spec_float) : spec_float :=
  if is_nan x then x else if is_nan y then y
  else if SFltb x y then y else x.

Definition minimum (x y : spec_float) : spec_float :=
  if is_nan x then x else if is_nan y then y
  else if SFltb y x then y else x.

End IEEE754.

(* ===================================================================== *)
(** * Python: exceptions and fallible computations *)
(* ===================================================================== *)

Module Py.

(** Python objects as they occur as arguments of [str.format]. *)
#[warnings="-register-all"] Inductive value :=
| Int (z : Z)
| Str (s : string)
| Bool (b : bool)
| NoneV
| Enum (cls member : string)
| NamedTuple (cls : string) (fields : list value).

(** The exceptions raised by the embedded code.  A message is kept as
    the template and the arguments of [template.format(args)]. *)
Inductive exn :=
| ValueError (template : string) (args : list value)
| TypeError (template : string) (args : list value)
| AssertionError (msg : string)
| IndexError (msg : string)
| KeyError (key : string)
| OverflowError (msg : string)
| NotImplementedError.

(** Python numbers: [int] and [float] (a binary64). *)
Inductive number :=
| IntN (z : Z)
| FloatN (x : spec_float).

Inductive result (A : Type) :=
| Ok (a : A)
| Raise (e : exn).
Arguments Ok {A} a.
Arguments Raise {A} e.

#[export] Instance result_ret : MRet result := fun A a => Ok a.
#[export] Instance result_bind : MBind result := fun A B f c =>
  match c with
  | Ok a => f a
  | Raise e => Raise e
  end.

Definition is_ok {A} (r : result A) : bool :=
  match r with Ok _ => true | Raise _ => false end.

Definition fails {A} (r : result A) : Prop :=
  exists e, r = Raise e.

(** [assert c, msg] *)
Definition assert (c : bool) (msg : string) : result unit :=
  if c then Ok tt else Raise (AssertionError msg).

(** [int(n)] *)
Definition int_ (n : number) : result Z :=
  match n with
  | IntN z => Ok z
  | FloatN x =>
      match IEEE754.trunc x with
      | Some z => Ok z
      | None =>
          if IEEE754.is_nan x
          then Raise (ValueError "cannot convert float NaN to integer" [])
          else Raise (OverflowError "cannot convert float infinity to integer")
      end
  end.

(** The exact value of a number, [None] for a NaN and the infinities. *)
Definition number_value (n : number) : option Q :=
  match n with
  | IntN z => Some (inject_Z z)
  | FloatN x => IEEE754.to_Q x
  end.

(** [z != n] for an int [z]: Python compares an int and a float by their
    exact values; a NaN differs from every number. *)
Definition int_ne (z : Z) (n : number) : bool :=
  match number_value n with
  | Some q => negb (Qeq_bool (inject_Z z) q)
  | None => true
  end.

End Py.
Export Py.

(* ===================================================================== *)
(** * NumPy: dtypes and the array operations used by [dtype.py] *)
(* ===================================================================== *)

Module Numpy.
Import IEEE754.

(** The dictionary [{"name": ..., "scale": ..., "zero_point": ...}] kept
    under the key ["mgb_dtype"] of a dtype's metadata.  The key
    ["zero_point"] may be absent. *)
Record mgb_dtype := MgbDtype {
  md_name : string;
  md_scale : spec_float;
  md_zero_point : option Z
}.

(** [np.dtype(type_name, metadata={"mgb_dtype": ...})]; [metadata] is
    [None] for a dtype that carries no ["mgb_dtype"] entry.  The type
    name is taken to be one that NumPy understands. *)
Record dtype := Dtype {
  type_name : string;
  metadata : option mgb_dtype
}.

Inductive float_type := float32 | float64.

Definition format_of (t : float_type) : format :=
  match t with float32 => binary32 | float64 => binary64 end.

Definition float_type_name (t : float_type) : string :=
  match t with float32 => "float32" | float64 => "float64" end.

(** An array of floats: element type, shape, elements in row-major order. *)
Record float_array := FloatArray {
  f_type : float_type;
  f_shape : list Z;
  f_data : list spec_float
}.

(** [np.ndarray]: a float array, or an array of integers with its dtype. *)
Inductive ndarray :=
| NdFloat (a : float_array)
| NdInt (d : dtype) (shape : list Z) (data : list Z).

(** A Python object handed to a function that expects an [np.ndarray]. *)
Inductive object :=
| Ndarray (a : ndarray)
| Other (v : Py.value).

Definition dtype_of (a : ndarray) : dtype :=
  match a with
  | NdFloat a => Dtype (float_type_name (f_type a)) None
  | NdInt d _ _ => d
  end.

(** [arr / s] for a Python float [s]: the result has the float type of
    [arr]; an integer array is promoted to [float64]. *)
Definition true_divide (arr : ndarray) (s : spec_float) : float_array :=
  match arr with
  | NdFloat a =>
      let f := format_of (f_type a) in
      FloatArray (f_type a) (f_shape a)
        (map (fun x => div f x (convert f s)) (f_data a))
  | NdInt _ shape data =>
      FloatArray float64 shape
        (map (fun z => div binary64 (of_Z binary64 z) s) data)
  end.

(** [np.round(a)] *)
Definition round_ (a : float_array) : float_array :=
  FloatArray (f_type a) (f_shape a)
    (map (rint (format_of (f_type a))) (f_data a)).

(** [a + z] for a Python int [z] *)
Definition add_int (a : float_array) (z : Z) : float_array :=
  let f := format_of (f_type a) in
  FloatArray (f_type a) (f_shape a) (map (fun x => add f x (of_Z f z)) (f_data a)).

(** [a - z] for a Python int [z] *)
Definition subtract_int (a : float_array) (z : Z) : float_array :=
  let f := format_of (f_type a) in
  FloatArray (f_type a) (f_shape a) (map (fun x => sub f x (of_Z f z)) (f_data a)).

(** [a * s] for a Python float [s] *)
Definition multiply (a : float_array) (s : spec_float) : float_array :=
  let f := format_of (f_type a) in
  FloatArray (f_type a) (f_shape a) (map (fun x => mul f x (convert f s)) (f_data a)).

(** [a.clip(lo, hi)] for Python ints [lo], [hi]:
    [minimum(maximum(a, lo), hi)], where the bounds take the float type
    of the array (the promotion of NumPy 2, under which a Python int
    never widens an array). *)
Definition clip (a : float_array) (lo hi : Z) : float_array :=
  let f := format_of (f_type a) in
  FloatArray (f_type a) (f_shape a)
    (map (fun x => minimum (maximum x (of_Z f lo)) (of_Z f hi)) (f_data a)).

(** The least value and the number of values of an integer type. *)
Definition int_range (type_name : string) : option (Z * Z) :=
  if String.eqb type_name "int8" then Some (- 2 ^ 7, 2 ^ 8)
  else if String.eqb type_name "uint8" then Some (0, 2 ^ 8)
  else if String.eqb type_name "int16" then Some (- 2 ^ 15, 2 ^ 16)
  else if String.eqb type_name "uint16" then Some (0, 2 ^ 16)
  else if String.eqb type_name "int32" then Some (- 2 ^ 31, 2 ^ 32)
  else if String.eqb type_name "uint32" then Some (0, 2 ^ 32)
  else if String.eqb type_name "int64" then Some (- 2 ^ 63, 2 ^ 64)
  else if String.eqb type_name "uint64" then Some (0, 2 ^ 64)
  else None.

(** The integer that a conversion instruction of x86-64 ([cvttss2si],
    [cvttsd2si]) leaves in a signed register of [bits] bits: the float
    truncated toward zero when that fits the register, and the "integer
    indefinite" value [- 2 ^ (bits - 1)] for every other finite value,
    for an infinity and for a NaN. *)
Definition cvtt (bits : Z) (x : spec_float) : Z :=
  match trunc x with
  | Some z =>
      if (- 2 ^ (bits - 1) <=? z) && (z <? 2 ^ (bits - 1)) then z
      else - 2 ^ (bits - 1)
  | None => - 2 ^ (bits - 1)
  end.

(** The register of the conversion to an integer type: 32 bits where a
    signed 32-bit integer covers the type, 64 bits otherwise. *)
Definition register_bits (type_name : string) : Z :=
  if String.eqb type_name "uint32" || String.eqb type_name "int64"
     || String.eqb type_name "uint64"
  then 64 else 32.

(** Conversion to [uint64]: a float below [2^63], or a NaN, goes through
    the signed 64-bit conversion; a float from [2^63] on is converted
    less [2^63] and bit 63 of the result is flipped, which gives [0]
    from [2^64] on and for the positive infinity. *)
Definition cvtt_uint64 (x : spec_float) : Z :=
  match trunc x with
  | Some z =>
      if z <? 2 ^ 63 then cvtt 64 x
      else if z <? 2 ^ 64 then z else 0
  | None =>
      match x with
      | S754_infinity false => 0
      | _ => cvtt 64 x
      end
  end.

(** Conversion of a float to the integer type of [d], the C cast of
    [astype]: truncation toward zero for a value in the range of the
    type.  C leaves the conversion of a NaN, of an infinity and of a
    value outside the range undefined; this is what the casts give on
    x86-64, where the conversion instruction writes a signed register
    and the integer type keeps the low bits of it: a NaN becomes [0] as
    an [int8] and [- 2 ^ 31] as an [int32]. *)
Definition float_to_int (d : dtype) (x : spec_float) : Z :=
  match int_range (type_name d) with
  | Some (lo, n) =>
      let z := if String.eqb (type_name d) "uint64" then cvtt_uint64 x
               else cvtt (register_bits (type_name d)) x in
      lo + (z - lo) mod n
  | None =>
      match trunc x with
      | Some z => z
      | None => 0
      end
  end.

(** [a.astype(d)] for an integer dtype [d] *)
Definition astype (a : float_array) (d : dtype) : ndarray :=
  NdInt d (f_shape a) (map (float_to_int d) (f_data a)).

(** [arr.astype(np.float32)] *)
Definition astype_float32 (arr : ndarray) : float_array :=
  match arr with
  | NdFloat a => FloatArray float32 (f_shape a) (map (convert binary32) (f_data a))
  | NdInt _ shape data => FloatArray float32 shape (map (of_Z binary32) data)
  end.

End Numpy.

(* ===================================================================== *)
(** * [megengine/core/tensor/dtype.py] *)
(* ===================================================================== *)

Module Dtype.
Import IEEE754 Numpy.

(** [class QuantDtypeMeta(namedtuple(...))]; [cname] may be [None]. *)
Record QuantDtypeMeta := mkQuantDtypeMeta {
  name : string;
  cname : option string;
  np_dtype_str : string;
  qmin : Z;
  qmax : Z;
  is_unsigned : bool
}.

(** [QuantDtypeMeta.__new__] *)
Definition QuantDtypeMeta_new (name : string) (cname : option string)
    (np_dtype_str : string) (qmin qmax : Z) (is_unsigned : option bool)
    : result QuantDtypeMeta :=
  is_unsigned ←
    match is_unsigned with
    | None =>
        match np_dtype_str with
        | String c _ => Ok (Ascii.eqb c "u"%char)
        | EmptyString => Raise (IndexError "string index out of range")
        end
    | Some b => Ok b
    end;
  Ok (mkQuantDtypeMeta name cname np_dtype_str qmin qmax is_unsigned).

(** [repr(dtype_meta)], as an argument of [str.format] *)
Definition repr (m : QuantDtypeMeta) : Py.value :=
  NamedTuple "QuantDtypeMeta"
    [Str (name m);
     match cname m with Some c => Str c | None => NoneV end;
     Str (np_dtype_str m); Int (qmin m); Int (qmax m); Bool (is_unsigned m)].

Definition _builtin_quant_dtypes : gmap string QuantDtypeMeta :=
  list_to_map
    [("quint8", mkQuantDtypeMeta "quint8" (Some "Quantized8Asymm") "uint8" 0 255 true);
     ("qint8", mkQuantDtypeMeta "qint8" (Some "QuantizedS8") "int8" (-128) 127 false);
     ("qint8_narrow",
        mkQuantDtypeMeta "qint8_narrow" (Some "QuantizedS8") "int8" (-127) 127 false);
     ("quint4", mkQuantDtypeMeta "quint4" (Some "Quantized4Asymm") "uint8" 0 15 true);
     ("qint4", mkQuantDtypeMeta "qint4" (Some "QuantizedS4") "int8" (-8) 7 false);
     ("qint1", mkQuantDtypeMeta "qint1" (Some "QuantizedS1") "int8" 0 1 false);
     ("qint32",
        mkQuantDtypeMeta "qint32" (Some "QuantizedS32") "int32" (- 2 ^ 31) (2 ^ 31 - 1) false);
     ("quint2", mkQuantDtypeMeta "quint2" None "uint8" 0 3 true);
     ("qint2", mkQuantDtypeMeta "qint2" None "int8" (-2) 1 false)].

(** [_builtin_quant_dtypes[key]] *)
Definition builtin (key : string) : result QuantDtypeMeta :=
  match _builtin_quant_dtypes !! key with
  | Some m => Ok m
  | None => Raise (KeyError key)
  end.

Definition _check_zero_point (zp : Z) (dtype_meta : QuantDtypeMeta) : result unit :=
  let qmin := qmin dtype_meta in
  let qmax := qmax dtype_meta in
  if (zp <? qmin) || (zp >? qmax) then
    Raise (ValueError "zero_point should be within [{}, {}] for {}"
             [Int qmin; Int qmax; Str (name dtype_meta)])
  else Ok tt.

(** [scale] is a Python float, as its annotation has it, so that
    [float(scale)] is [scale]; [zp] is [None] or a number. *)
Definition create_quantized_dtype (dtype_meta : QuantDtypeMeta)
    (scale : spec_float) (zp : option number) : result dtype :=
  match cname dtype_meta with
  | None => Raise (ValueError "dtype {} without cname attr is not supported." [])
  | Some c =>
      if is_unsigned dtype_meta then
        match zp with
        | None => Raise (ValueError "zero_point should be an integer" [])
        | Some n =>
            i ← int_ n;
            if int_ne i n then Raise (ValueError "zero_point should be an integer" [])
            else
              zp ← int_ n;
              _ ← _check_zero_point zp dtype_meta;
              Ok (Dtype (np_dtype_str dtype_meta) (Some (MgbDtype c scale (Some zp))))
        end
      else
        Ok (Dtype (np_dtype_str dtype_meta) (Some (MgbDtype c scale None)))
  end.

Definition quint8 (scale : spec_float) (zero_point : option number) : result dtype :=
  m ← builtin "quint8"; create_quantized_dtype m scale zero_point.






(** Modelled from the spec: [is_quantize] of [_imperative_rt.common],
    which is not among the sources: whether a dtype is "a quantized
    type", one that carries the stamped metadata
    [{name, scale, zero_point?}]. *)
Definition is_quantize (d : dtype) : bool :=
  match metadata d with Some _ => true | None => false end.

(** [d.metadata["mgb_dtype"]] *)
Definition mgb_dtype_of (d : dtype) : result mgb_dtype :=
  match metadata d with
  | Some md => Ok md
  | None => Raise (TypeError "'NoneType' object is not subscriptable" [])
  end.

(** [arr_metadata["zero_point"]] *)
Definition zero_point_of (md : mgb_dtype) : result Z :=
  match md_zero_point md with
  | Some zp => Ok zp
  | None => Raise (KeyError "zero_point")
  end.

(** [not is_quantize(d) or d.metadata["mgb_dtype"]["name"] != dtype_meta.cname] *)
Definition mismatch (d : dtype) (dtype_meta : QuantDtypeMeta) : result bool :=
  if negb (is_quantize d) then Ok true
  else md ← mgb_dtype_of d;
       Ok (negb (bool_decide (Some (md_name md) = cname dtype_meta))).

Definition _convert_to_quantized_dtype (arr : object) (dtype : dtype)
    (dtype_meta : QuantDtypeMeta) : result ndarray :=
  match arr with
  | Other _ => Raise (ValueError "arr parameter should be instance of np.ndarray" [])
  | Ndarray arr =>
      bad ← mismatch dtype dtype_meta;
      if (bad : bool) then
        Raise (ValueError "dtype parameter should be a {} dtype" [repr dtype_meta])
      else
        arr_metadata ← mgb_dtype_of dtype;
        if is_unsigned dtype_meta then
          let scale := md_scale arr_metadata in
          zp ← zero_point_of arr_metadata;
          Ok (astype
                (clip (add_int (round_ (true_divide arr scale)) zp)
                      (qmin dtype_meta) (qmax dtype_meta))
                dtype)
        else
          let scale := md_scale arr_metadata in
          Ok (astype
                (clip (round_ (true_divide arr scale))
                      (qmin dtype_meta) (qmax dtype_meta))
                dtype)
  end.

Definition _convert_from_quantized_dtype (arr : object)
    (dtype_meta : QuantDtypeMeta) : result ndarray :=
  match arr with
  | Other _ => Raise (ValueError "arr parameter should be instance of np.ndarray" [])
  | Ndarray arr =>
      bad ← mismatch (dtype_of arr) dtype_meta;
      if (bad : bool) then
        Raise (ValueError "arr's dtype should be a {} dtype" [repr dtype_meta])
      else
        arr_metadata ← mgb_dtype_of (dtype_of arr);
        if is_unsigned dtype_meta then
          let scale := md_scale arr_metadata in
          zp ← zero_point_of arr_metadata;
          Ok (NdFloat (multiply (subtract_int (astype_float32 arr) zp) scale))
        else
          let scale := md_scale arr_metadata in
          Ok (NdFloat (multiply (astype_float32 arr) scale))
  end.

Definition convert_to_quint8 (arr : object) (q : dtype) : result ndarray :=
  m ← builtin "quint8"; _convert_to_quantized_dtype arr q m.

Definition convert_from_quint8 (arr : object) : result ndarray :=
  m ← builtin "quint8"; _convert_from_quantized_dtype arr m.











End Dtype.

(* ===================================================================== *)
(** * [megengine/core/tensor/array_method.py] *)
(* ===================================================================== *)

Module ArrayMethod.
Import Numpy.

(** [builtin.Elemwise.Mode], the members used by the file *)
Inductive ElwMode :=
| LT | LEQ | EQ | NOT | NEGATE | ABS | ROUND | FLOOR | CEIL
| ADD | SUB | MUL | TRUE_DIV | FLOOR_DIV | MOD | POW | SHL | SHR
| AND | OR | XOR.

Definition mode_name (m : ElwMode) : string :=
  match m with
  | LT => "LT" | LEQ => "LEQ" | EQ => "EQ" | NOT => "NOT"
  | NEGATE => "NEGATE" | ABS => "ABS" | ROUND => "ROUND"
  | FLOOR => "FLOOR" | CEIL => "CEIL" | ADD => "ADD" | SUB => "SUB"
  | MUL => "MUL" | TRUE_DIV => "TRUE_DIV" | FLOOR_DIV => "FLOOR_DIV"
  | MOD => "MOD" | POW => "POW" | SHL => "SHL" | SHR => "SHR"
  | AND => "AND" | OR => "OR" | XOR => "XOR"
  end.

(** A mode as an argument of [str.format] *)
Definition mode_value (m : ElwMode) : Py.value := Enum "Elemwise.Mode" (mode_name m).

(** The primitive operation descriptors built by the dispatch functions:
    [builtin.Elemwise(mode)], [builtin.Dot()] and
    [builtin.Reduce(mode=..., axis=..., keepdim=...)], where an argument
    that the call leaves out is [None]. *)
Inductive OpDef :=
| Elemwise (mode : ElwMode)
| Dot
| Reduce (mode : string) (axis : option Z) (keepdim : option bool).

(** The callbacks handed to [matmul_cpp] and [batched_matmul_cpp] *)
Inductive symbolic := symbolicMatrixMul | symbolicBatchedMatrixMul.

(** The arguments of [matmul_cpp] and [batched_matmul_cpp], in order *)
Record matmul_args (T : Type) := MatmulArgs {
  mm_inp1 : T;
  mm_inp2 : T;
  mm_dim1 : Z;
  mm_dim2 : Z;
  mm_transpose_a : bool;
  mm_transpose_b : bool;
  mm_compute_mode : string;
  mm_format : string;
  mm_benchmark_kernel : bool;
  mm_deterministic_kernel : bool;
  mm_strategy : Z;
  mm_symbolic : symbolic
}.
Arguments MatmulArgs {T}.
Arguments mm_inp1 {T}.
Arguments mm_inp2 {T}.

(** The abstract members of [ArrayMethodMixin] that the dispatch
    functions read: [dtype] and [_tuple_shape] ([None] when the shape is
    not known). *)
Class ArrayMethodMixin (T : Type) := {
  dtype : T -> Numpy.dtype;
  _tuple_shape : T -> option (list Z)
}.

(** The collaborators imported from [_imperative_rt.core2], from
    [_config] and from [builtin]: the primitive executor [apply], the
    native [astype_cpp], [matmul_cpp] and [batched_matmul_cpp], the
    configuration flags, the compute-mode resolver and the flags of
    [MatrixMul.Strategy]. *)
Class Runtime (T : Type) := {
  apply : OpDef -> list T -> result (list T);
  astype_cpp : T -> string -> result T;
  matmul_cpp : matmul_args T -> result T;
  batched_matmul_cpp : matmul_args T -> result T;
  _benchmark_kernel : bool;
  _deterministic_kernel : bool;
  __compute_mode : string;
  _get_actual_op_param : string -> string -> string;
  Strategy_HEURISTIC : Z;
  Strategy_PROFILE : Z;
  Strategy_REPRODUCIBLE : Z
}.

(** One call into the runtime *)
Inductive call (T : Type) :=
| CallApply (op : OpDef) (args : list T)
| CallAstype (t : T) (dtype : string)
| CallMatmul (a : matmul_args T)
| CallBatchedMatmul (a : matmul_args T).
Arguments CallApply {T}.
Arguments CallAstype {T}.
Arguments CallMatmul {T}.
Arguments CallBatchedMatmul {T}.

(** A computation of the dispatch layer: it returns or raises, and
    appends the runtime calls it makes to the trace. *)
Definition M (T A : Type) : Type := list (call T) -> result A * list (call T).

#[export] Instance M_ret {T} : MRet (M T) := fun A a tr => (Ok a, tr).
#[export] Instance M_bind {T} : MBind (M T) := fun A B f c tr =>
  match c tr with
  | (Ok a, tr') => f a tr'
  | (Raise e, tr') => (Raise e, tr')
  end.

Definition lift {T A} (r : result A) : M T A := fun tr => (r, tr).

Definition invoke {T A} (c : call T) (r : result A) : M T A :=
  fun tr => (r, (tr ++ [c])%list).

(** The outcome and the calls of a computation started on an empty trace *)
Definition run {T A} (c : M T A) : result A * list (call T) := c [].

(** [for x in l: acc = f(acc, x)] *)
Fixpoint for_each {T A B} (f : A -> B -> M T A) (l : list B) (acc : A) : M T A :=
  match l with
  | [] => mret acc
  | x :: l => acc ← f acc x; for_each f l acc
  end.

(** [(result,) = rs] *)
Definition unpack1 {A} (rs : list A) : result A :=
  match rs with
  | [r] => Ok r
  | [] => Raise (ValueError "not enough values to unpack (expected 1, got 0)" [])
  | _ => Raise (ValueError "too many values to unpack (expected 1)" [])
  end.

(** Modelled from the spec: [_normalize_axis] of [.utils], which is not
    among the sources: "normalize axes against current rank in
    descending order"; a negative axis counts from the last dimension. *)
Definition _normalize_axis (ndim : Z) (axis : list Z) (reverse : bool)
    : result (list Z) :=
  let convert x := if x <? 0 then ndim + x else x in
  Ok (if reverse then merge_sort (flip Z.le) (map convert axis)
      else merge_sort Z.le (map convert axis)).

(** The [axis] argument of a reduction *)
Inductive axis_arg :=
| AxisNone
| AxisIterable (axis : list Z)
| AxisInt (axis : Z).

Section Dispatch.
Context {T : Type} `{ArrayMethodMixin T} `{Runtime T}.

Definition apply_ (op : OpDef) (args : list T) : M T (list T) :=
  invoke (CallApply op args) (apply op args).

Definition astype (self : T) (dtype : string) : M T T :=
  invoke (CallAstype self dtype) (astype_cpp self dtype).

Definition _elwise_apply (args : list T) (mode : ElwMode) : M T T :=
  let op := Elemwise mode in
  rs ← apply_ op args;
  lift (unpack1 rs).

Definition _elwise (args : list T) (mode : ElwMode) : M T T :=
  _elwise_apply args mode.

(** [ArrayMethodMixin.ndim] *)
Definition ndim (self : T) : result Z :=
  match _tuple_shape self with
  | None => Raise (ValueError "unkown ndim" [])
  | Some shape => Ok (Z.of_nat (length shape))
  end.

Definition _matmul (inp1 inp2 : T) (transpose_a transpose_b : bool)
    (compute_mode format : string) : M T T :=
  dim1 ← lift (ndim inp1);
  dim2 ← lift (ndim inp2);
  _ ← lift (assert ((dim1 >? 0) && (dim2 >? 0)) EmptyString);
  let maxdim := if dim1 >? dim2 then dim1 else dim2 in
  let compute_mode := _get_actual_op_param compute_mode __compute_mode in
  let strategy := 0 in
  let strategy :=
    if _benchmark_kernel then Z.lor strategy Strategy_PROFILE
    else Z.lor strategy Strategy_HEURISTIC in
  let strategy :=
    if _deterministic_kernel then Z.lor strategy Strategy_REPRODUCIBLE
    else strategy in
  if (dim1 =? 1) && (dim2 =? 1) then
    rs ← apply_ Dot [inp1; inp2];
    lift (unpack1 rs)
  else if (maxdim <=? 2) || ((dim2 <=? 2) && negb transpose_a) then
    let a := MatmulArgs inp1 inp2 dim1 dim2 transpose_a transpose_b
               compute_mode format _benchmark_kernel _deterministic_kernel
               strategy symbolicMatrixMul in
    invoke (CallMatmul a) (matmul_cpp a)
  else
    let a := MatmulArgs inp1 inp2 dim1 dim2 transpose_a transpose_b
               compute_mode format _benchmark_kernel _deterministic_kernel
               strategy symbolicBatchedMatrixMul in
    invoke (CallBatchedMatmul a) (batched_matmul_cpp a).

Definition _unary_elwise (mode : ElwMode) (self : T) : M T T :=
  _elwise [self] mode.

Definition _binary_elwise (mode : ElwMode) (rev : bool) (self value : T) : M T T :=
  if negb rev then _elwise [self; value] mode
  else _elwise [value; self] mode.

(** [x.dtype != np.bool_] *)
Definition not_bool (x : T) : bool :=
  negb (String.eqb (type_name (dtype x)) "bool").

Definition _logical_unary_elwise (mode : ElwMode) (self : T) : M T T :=
  if not_bool self then
    lift (Raise (TypeError "{} requires a bool tensor" [mode_value mode]))
  else _elwise [self] mode.

Definition _logical_binary_elwise (mode : ElwMode) (rev : bool) (self value : T)
    : M T T :=
  if negb rev then
    if not_bool self || not_bool value then
      lift (Raise (TypeError "{} requires 2 bool tensors" [mode_value mode]))
    else _elwise [self; value] mode
  else
    if not_bool self || not_bool value then
      lift (Raise (TypeError "{} requires 2 bool tensors" [mode_value mode]))
    else _elwise [value; self] mode.

Definition _reduce (mode : string) (self : T) (axis : axis_arg) (keepdims : bool)
    : M T T :=
  let data := self in
  match axis with
  | AxisNone =>
      _ ← lift (assert (negb keepdims) "can not set axis=None and keepdims=True");
      rs ← apply_ (Reduce mode None None) [data];
      lift (unpack1 rs)
  | AxisIterable axis =>
      n ← lift (ndim self);
      axis ← lift (_normalize_axis n axis true);
      for_each
        (fun data ai =>
           let op := Reduce mode (Some ai) (Some keepdims) in
           rs ← apply_ op [data];
           lift (unpack1 rs))
        axis data
  | AxisInt axis =>
      let op := Reduce mode (Some axis) (Some keepdims) in
      rs ← apply_ op [data];
      lift (unpack1 rs)
  end.

(** The methods of [ArrayMethodMixin] *)
Definition __lt__ (self value : T) : M T T :=
  r ← _elwise [self; value] LT; astype r "bool".
Definition __le__ (self value : T) : M T T :=
  r ← _elwise [self; value] LEQ; astype r "bool".
Definition __gt__ (self value : T) : M T T :=
  r ← _elwise [value; self] LT; astype r "bool".
Definition __ge__ (self value : T) : M T T :=
  r ← _elwise [value; self] LEQ; astype r "bool".
Definition __eq__ (self value : T) : M T T :=
  r ← _elwise [self; value] EQ; astype r "bool".
Definition __ne__ (self value : T) : M T T :=
  r ← _elwise [self; value] EQ; b ← astype r "bool"; _elwise [b] NOT.

Definition __invert__ : T -> M T T := _logical_unary_elwise NOT.
Definition __and__ : T -> T -> M T T := _logical_binary_elwise AND false.
Definition __or__ : T -> T -> M T T := _logical_binary_elwise OR false.
Definition __xor__ : T -> T -> M T T := _logical_binary_elwise XOR false.
Definition __rand__ : T -> T -> M T T := _logical_binary_elwise AND true.
Definition __ror__ : T -> T -> M T T := _logical_binary_elwise OR true.
Definition __rxor__ : T -> T -> M T T := _logical_binary_elwise XOR true.

Definition __matmul__ (self other : T) : M T T :=
  _matmul self other false false "default" "default".
Definition __rmatmul__ (self other : T) : M T T :=
  _matmul other self false false "default" "default".

Definition sum (self : T) (axis : axis_arg) (keepdims : bool) : M T T :=
  _reduce "sum" self axis keepdims.
Definition prod (self : T) (axis : axis_arg) (keepdims : bool) : M T T :=
  _reduce "product" self axis keepdims.
Definition min (self : T) (axis : axis_arg) (keepdims : bool) : M T T :=
  _reduce "min" self axis keepdims.
Definition max (self : T) (axis : axis_arg) (keepdims : bool) : M T T :=
  _reduce "max" self axis keepdims.
Definition mean (self : T) (axis : axis_arg) (keepdims : bool) : M T T :=
  _reduce "mean" self axis keepdims.

End Dispatch.

End ArrayMethod.

(* ===================================================================== *)
(** * A runtime that tracks dtypes and shapes *)
(* ===================================================================== *)

Module Shapes.
Import Numpy ArrayMethod.

(** A tensor known by its dtype and, when it is known, its shape. *)
Record tensor := Tensor {
  t_dtype : Numpy.dtype;
  t_shape : option (list Z)
}.

#[export] Instance tensor_mixin : ArrayMethodMixin tensor :=
  {| dtype := t_dtype; _tuple_shape := t_shape |}.

(** Modelled from the spec: the effect of a single-axis reduction on a
    shape.  The primitive is not among the sources; the spec has a
    reduction "collapsing one or more axes of a tensor to a single value
    per remaining index combination", and the primitive "accepts
    negative axis".  The collapsed axis is dropped, or kept with extent
    1 under [keepdim]. *)
Definition reduce_shape (axis : Z) (keepdim : bool) (shape : list Z)
    : result (list Z) :=
  let n := Z.of_nat (length shape) in
  let i := if axis <? 0 then axis + n else axis in
  if (0 <=? i) && (i <? n) then
    Ok (if keepdim then <[Z.to_nat i := 1]> shape else delete (Z.to_nat i) shape)
  else Raise (ValueError "axis {} is out of range" [Int axis]).

(** Modelled from the spec: the primitive executor, on dtypes and
    shapes.  A single-axis reduction acts on the shape as [reduce_shape]
    has it and leaves an unknown shape unknown; a reduction over all
    elements and a dot product give "a scalar-like result"; an
    elementwise primitive gives a tensor of the dtype and shape of its
    first operand. *)
Definition shape_apply (op : OpDef) (args : list tensor) : result (list tensor) :=
  match op, args with
  | Reduce _ (Some axis) (Some keepdim), [t] =>
      match t_shape t with
      | Some shape =>
          shape' ← reduce_shape axis keepdim shape;
          Ok [Tensor (t_dtype t) (Some shape')]
      | None => Ok [Tensor (t_dtype t) None]
      end
  | Reduce _ _ _, [t] => Ok [Tensor (t_dtype t) (Some [])]
  | Elemwise _, t :: _ => Ok [Tensor (t_dtype t) (t_shape t)]
  | Dot, [t; _] => Ok [Tensor (t_dtype t) (Some [])]
  | _, _ => Raise (TypeError "wrong number of operands" [])
  end.

(** The runtime on dtypes and shapes: the shape of a matrix product is
    not tracked; the flags of [MatrixMul.Strategy] are powers of two. *)
#[export] Instance shape_runtime : Runtime tensor :=
  {| apply := shape_apply;
     astype_cpp t d := Ok (Tensor (Dtype d None) (t_shape t));
     matmul_cpp a := Ok (Tensor (t_dtype (mm_inp1 a)) None);
     batched_matmul_cpp a := Ok (Tensor (t_dtype (mm_inp1 a)) None);
     _benchmark_kernel := false;
     _deterministic_kernel := true;
     __compute_mode := "default";
     _get_actual_op_param given default := given;
     Strategy_HEURISTIC := 1;
     Strategy_PROFILE := 2;
     Strategy_REPRODUCIBLE := 4 |}.

(** The extents of [shape], counted from index [i], whose index is not
    in [axes]. *)
Fixpoint drop_axes_from (i : Z) (shape : list Z) (axes : list Z) : list Z :=
  match shape with
  | [] => []
  | d :: shape =>
      if bool_decide (i ∈ axes) then drop_axes_from (i + 1) shape axes
      else d :: drop_axes_from (i + 1) shape axes
  end.

Definition drop_axes (shape : list Z) (axes : list Z) : list Z :=
  drop_axes_from 0 shape axes.

Definition float_tensor (shape : list Z) : tensor :=
  Tensor (Dtype "float32" None) (Some shape).

Definition bool_tensor (shape : list Z) : tensor :=
  Tensor (Dtype "bool" None) (Some shape).

(** A tensor whose shape is not known *)
Definition unknown_shape_tensor : tensor :=
  Tensor (Dtype "float32" None) None.

End Shapes.

(* ===================================================================== *)
(** * The quantization contract, as the specification words it *)
(* ===================================================================== *)

Module QuantSpec.
Import IEEE754 Numpy Dtype.

#[export] Instance spec_float_eq_dec : EqDecision spec_float.
Proof. solve_decision. Defined.
#[export] Instance mgb_dtype_eq_dec : EqDecision mgb_dtype.
Proof. solve_decision. Defined.
#[export] Instance dtype_eq_dec : EqDecision dtype.
Proof. solve_decision. Defined.
#[export] Instance float_type_eq_dec : EqDecision float_type.
Proof. solve_decision. Defined.
#[export] Instance float_array_eq_dec : EqDecision float_array.
Proof. solve_decision. Defined.
#[export] Instance ndarray_eq_dec : EqDecision ndarray.
Proof. solve_decision. Defined.

(** A quantized type [q] matches the descriptor [m]: it is stamped with
    the descriptor's external-format name, with [scale] and, for an
    unsigned descriptor, with the zero-point [zp]. *)
Definition matches (q : dtype) (m : QuantDtypeMeta) (scale : spec_float) (zp : Z)
    : Prop :=
  exists md,
    metadata q = Some md /\
    cname m = Some (md_name md) /\
    md_scale md = scale /\
    (is_unsigned m = true -> md_zero_point md = Some zp).

(** "[round(value/scale) + zero_point] (unsigned) or [round(value/scale)]
    (signed), clips to [[qmin,qmax]], casts to the quantized type", in
    the arithmetic of the float type [t] of the array *)
Definition quantize (t : float_type) (m : QuantDtypeMeta) (q : dtype)
    (scale : spec_float) (zp : Z) (value : spec_float) : Z :=
  let f := format_of t in
  let r := rint f (div f value (convert f scale)) in
  let r := if is_unsigned m then add f r (of_Z f zp) else r in
  let clipped := minimum (maximum r (of_Z f (qmin m))) (of_Z f (qmax m)) in
  float_to_int q clipped.

(** "[(value - zero_point) * scale] (unsigned) or [value * scale]
    (signed), producing float": a [float32] *)
Definition dequantize (m : QuantDtypeMeta) (scale : spec_float) (zp : Z)
    (value : Z) : spec_float :=
  let f := binary32 in
  if is_unsigned m then mul f (sub f (of_Z f value) (of_Z f zp)) (convert f scale)
  else mul f (of_Z f value) (convert f scale).

(** The exact value of the number [n] is the integer [z]. *)
Definition integral (n : number) (z : Z) : Prop :=
  exists v, number_value n = Some v /\ Qeq v (inject_Z z).

(** The zero-point argument is [None], is not integral, or lies outside
    [[qmin, qmax]]. *)
Definition bad_zero_point (m : QuantDtypeMeta) (zp : option number) : Prop :=
  zp = None \/
  (exists n, zp = Some n /\ forall z, ~ integral n z) \/
  (exists n z, zp = Some n /\ integral n z /\ (z < qmin m \/ qmax m < z)).

(** The Python literals [0.1] and [1.0], and [x] in the float type [t] *)
Definition float_0_1 : spec_float := div binary64 (of_Z binary64 1) (of_Z binary64 10).
Definition float_1_0 : spec_float := of_Z binary64 1.

(** The catalogue entries of [quint8], [qint8] and [qint8_narrow], and
    the type [quint8(0.1, 128)] *)
Definition quint8_meta : QuantDtypeMeta :=
  mkQuantDtypeMeta "quint8" (Some "Quantized8Asymm") "uint8" 0 255 true.
Definition qint8_meta : QuantDtypeMeta :=
  mkQuantDtypeMeta "qint8" (Some "QuantizedS8") "int8" (-128) 127 false.
Definition qint8_narrow_meta : QuantDtypeMeta :=
  mkQuantDtypeMeta "qint8_narrow" (Some "QuantizedS8") "int8" (-127) 127 false.
Definition quint8_0_1_128 : dtype :=
  Dtype "uint8" (Some (MgbDtype "Quantized8Asymm" float_0_1 (Some 128))).

(** The float [x] converted to the float type [t] *)
Definition in_type (t : float_type) (x : spec_float) : spec_float :=
  convert (format_of t) x.

(** The one-element array of type [t] that holds [x] *)
Definition array_of (t : float_type) (x : spec_float) : ndarray :=
  NdFloat (FloatArray t [1] [x]).

(** The one-element array of the quantized type [q] that holds [z] *)
Definition quantized_of (q : dtype) (z : Z) : ndarray := NdInt q [1] [z].

(** The integers [k] with [0 <= k + 128 <= 255] *)
Definition quint8_codes : list Z := map (fun n => Z.of_nat n - 128) (seq 0 256).

(** [r] is the array [a]. *)
Definition yields (r : result ndarray) (a : ndarray) : bool :=
  match r with
  | Ok b => bool_decide (b = a)
  | Raise _ => false
  end.

(** [scale * k] computed in the float type [t] *)
Definition scaled (t : float_type) (scale : spec_float) (k : Z) : spec_float :=
  let f := format_of t in mul f (convert f scale) (of_Z f k).

(** [convert_from_quint8(convert_to_quint8(arr, q))] *)
Definition roundtrip_quint8 (arr : ndarray) (q : dtype) : result ndarray :=
  x ← convert_to_quint8 (Ndarray arr) q;
  convert_from_quint8 (Ndarray x).

(** [|x - y| <= tol / 2] on the exact values of three finite floats *)
Definition within_half (x y tol : spec_float) : Prop :=
  exists a b c,
    to_Q x = Some a /\ to_Q y = Some b /\ to_Q tol = Some c /\
    Qle (Qabs (a - b)) (c / 2).

(** The exact values of two finite floats are equal. *)
Definition same_value (x y : spec_float) : Prop :=
  exists a b, to_Q x = Some a /\ to_Q y = Some b /\ Qeq a b.

(** The round trip of [scale * k] through [q], for [scale = 0.1]: the
    code is [k + 128] from either float type, the code comes back as
    the [float32] product, and an array that holds the [float32]
    product comes back unchanged. *)
Definition roundtrip_check (q : dtype) (k : Z) : bool :=
  yields (convert_to_quint8 (Ndarray (array_of float32 (scaled float32 float_0_1 k))) q)
         (quantized_of q (k + 128)) &&
  yields (convert_to_quint8 (Ndarray (array_of float64 (scaled float64 float_0_1 k))) q)
         (quantized_of q (k + 128)) &&
  yields (convert_from_quint8 (Ndarray (quantized_of q (k + 128))))
         (array_of float32 (scaled float32 float_0_1 k)) &&
  yields (roundtrip_quint8 (array_of float32 (scaled float32 float_0_1 k)) q)
         (array_of float32 (scaled float32 float_0_1 k)).

End QuantSpec.

(* ===================================================================== *)
(** * The dispatch contract, as the specification words it *)
(* ===================================================================== *)

Module DispatchSpec.
Import Numpy ArrayMethod.

(** The three paths of the matmul dispatch *)
Inductive path := DotPath | PlainPath | BatchedPath.

(** "[d1 == 1 and d2 == 1] -> dot-product primitive;
    [max(d1,d2) <= 2], OR ([d2 <= 2] and no transpose on the first
    operand) -> plain matrix-multiply path; otherwise -> batched
    matrix-multiply path" *)
Definition select_path (d1 d2 : Z) (transpose_a : bool) : path :=
  if decide (d1 = 1 /\ d2 = 1) then DotPath
  else if decide (Z.max d1 d2 <= 2 \/ (d2 <= 2 /\ transpose_a = false))
       then PlainPath
       else BatchedPath.

(** The path that a runtime call belongs to *)
Definition path_of {T} (c : call T) : option path :=
  match c with
  | CallApply Dot _ => Some DotPath
  | CallMatmul _ => Some PlainPath
  | CallBatchedMatmul _ => Some BatchedPath
  | _ => None
  end.

(** The primitive of a runtime call *)
Definition op_of {T} (c : call T) : option OpDef :=
  match c with
  | CallApply op _ => Some op
  | _ => None
  end.

(** The dtype of [x] is boolean. *)
Definition is_bool {T} `{ArrayMethodMixin T} (x : T) : Prop :=
  type_name (dtype x) = "bool".

Section Contract.
Context {T : Type} `{ArrayMethodMixin T} `{Runtime T}.

(** The outcome of one primitive invocation that is to give one tensor:
    [(result,) = apply(op, *args)] *)
Definition apply1 (op : OpDef) (args : list T) : result T :=
  rs ← apply op args; unpack1 rs.

(** The single-axis reduction of [mode] over the axis [ai] *)
Definition reduce_op (mode : string) (keepdims : bool) (ai : Z) : OpDef :=
  Reduce mode (Some ai) (Some keepdims).

(** [reduce_chain mode keepdims data axes calls r]: one single-axis
    reduction per axis of [axes], from left to right, each applied to
    the result of the one before it and the first to [data]; [calls] are
    the invocations made and [r] is the last result, or the error of the
    first invocation that fails, after which no other is made. *)
Inductive reduce_chain (mode : string) (keepdims : bool)
    : T -> list Z -> list (call T) -> result T -> Prop :=
| chain_done (data : T) :
    reduce_chain mode keepdims data [] [] (Ok data)
| chain_step (data : T) (ai : Z) (axes : list Z) (data' : T)
    (calls : list (call T)) (r : result T) :
    apply1 (reduce_op mode keepdims ai) [data] = Ok data' ->
    reduce_chain mode keepdims data' axes calls r ->
    reduce_chain mode keepdims data (ai :: axes)
      (CallApply (reduce_op mode keepdims ai) [data] :: calls) r
| chain_stop (data : T) (ai : Z) (axes : list Z) (e : exn) :
    apply1 (reduce_op mode keepdims ai) [data] = Raise e ->
    reduce_chain mode keepdims data (ai :: axes)
      [CallApply (reduce_op mode keepdims ai) [data]] (Raise e).

(** The reductions of [ArrayMethodMixin], with their modes *)
Definition reductions : list ((T -> axis_arg -> bool -> M T T) * string) :=
  [(sum, "sum"); (prod, "product"); (min, "min"); (max, "max"); (mean, "mean")].

(** The logical binary operators, with their modes; the flag is set for
    the reflected forms. *)
Definition logical_binary_operators : list ((T -> T -> M T T) * ElwMode * bool) :=
  [(__and__, AND, false); (__or__, OR, false); (__xor__, XOR, false);
   (__rand__, AND, true); (__ror__, OR, true); (__rxor__, XOR, true)].

End Contract.

(** An axis normalised against the rank [n] *)
Definition normalized (n : Z) (axis : Z) : Z :=
  if axis <? 0 then n + axis else axis.

End DispatchSpec.

(* ===================================================================== *)
(** * [dtype.py]: the bit width read off a dtype name *)
(* ===================================================================== *)

Module DtypeBits.

(** The character class [\d] on the characters of a dtype name, which
    are ASCII: the digits [0] to [9]. *)
Definition is_digit (c : ascii) : bool :=
  let n := nat_of_ascii c in (48 <=? n)%nat && (n <=? 57)%nat.

(** [re.findall(r"\d+", s)], with the run of digits read so far: the
    maximal runs of digits of [s], from left to right. *)
Fixpoint findall_digits (run : string) (s : string) : list string :=
  match s with
  | EmptyString =>
      match run with
      | EmptyString => []
      | _ => [run]
      end
  | String c s =>
      if is_digit c then findall_digits (run ++ String c EmptyString) s
      else match run with
           | EmptyString => findall_digits EmptyString s
           | _ => run :: findall_digits EmptyString s
           end
  end.

(** [int(s)] for a string of digits, with the value read so far *)
Fixpoint int_of_digits (acc : Z) (s : string) : Z :=
  match s with
  | EmptyString => acc
  | String c s => int_of_digits (10 * acc + (Z.of_nat (nat_of_ascii c) - 48)) s
  end.

Definition special_cases : gmap string Z := {[ "bool" := 1 ]}.

Definition get_dtype_bit (dtype_name : string) : result Z :=
  match special_cases !! dtype_name with
  | Some bits => Ok bits
  | None =>
      let numbers := findall_digits EmptyString dtype_name in
      _ ← assert (Z.of_nat (length numbers) =? 1)
            "Unsupport dtype name with more than one number.";
      match numbers with
      | n :: _ => Ok (int_of_digits 0 n)
      | [] => Raise (IndexError "list index out of range")
      end
  end.

(** Every character of [s] satisfies [p]. *)
Fixpoint all_chars (p : ascii -> bool) (s : string) : bool :=
  match s with
  | EmptyString => true
  | String c s => p c && all_chars p s
  end.

(** [s] is a non-empty string of digits. *)
Definition digits (s : string) : Prop :=
  s <> EmptyString /\ all_chars is_digit s = true.

(** [s] holds no digit. *)
Definition digit_free (s : string) : Prop :=
  all_chars (fun c => negb (is_digit c)) s = true.

End DtypeBits.

(* ===================================================================== *)
(** * What the conversions of [dtype.py] accept and keep *)
(* ===================================================================== *)

Module ConversionSpec.
Import IEEE754 Numpy Dtype QuantSpec.

(** [arr.shape] *)
Definition shape_of (arr : ndarray) : list Z :=
  match arr with
  | NdFloat a => f_shape a
  | NdInt _ shape _ => shape
  end.

(** The number of elements that [arr] holds *)
Definition size_of (arr : ndarray) : nat :=
  match arr with
  | NdFloat a => length (f_data a)
  | NdInt _ _ data => length data
  end.

(** The descriptor [m] accepts the type [q]: [q] is stamped with the
    external-format name of [m], and with a zero-point if [m] is
    unsigned. *)
Definition accepts (m : QuantDtypeMeta) (q : dtype) : Prop :=
  exists md,
    metadata q = Some md /\
    cname m = Some (md_name md) /\
    (is_unsigned m = true -> is_Some (md_zero_point md)).










End ConversionSpec.

(* ===================================================================== *)
(** * The named quantized types, the comparisons, and kept dimensions *)
(* ===================================================================== *)

Module NamedSpec.
Import IEEE754 Numpy Dtype ArrayMethod Shapes.



(** The comparisons that are written on the operands in their order,
    with their modes *)
Definition comparisons {T} `{ArrayMethodMixin T} `{Runtime T}
    : list ((T -> T -> M T T) * ElwMode) :=
  [(__lt__, LT); (__le__, LEQ); (__eq__, EQ)].

(** The extents of [shape], counted from index [i], with [1] in the
    place of those whose index is in [axes] *)
Fixpoint unit_axes_from (i : Z) (shape : list Z) (axes : list Z) : list Z :=
  match shape with
  | [] => []
  | d :: shape =>
      (if bool_decide (i ∈ axes) then 1 else d) :: unit_axes_from (i + 1) shape axes
  end.

Definition unit_axes (shape : list Z) (axes : list Z) : list Z :=
  unit_axes_from 0 shape axes.

End NamedSpec.

(* ===================================================================== *)
(** * [array_method.py]: arithmetic, in-place and container methods *)
(* ===================================================================== *)

Module Methods.
Import IEEE754 Numpy ArrayMethod.

(** The index of [self[index]]: [Ellipsis], an int, or the tuple of the
    arguments of [item] *)
Inductive index :=
| Ellipsis
| IntIndex (i : Z)
| ArgsIndex (args : list Py.value).

(** [self.shape]: a tuple, or a tensor when the shape is symbolic *)
Inductive shape_value (T : Type) :=
| TupleShape (s : list Z)
| TensorShape (t : T).
Arguments TupleShape {T}.
Arguments TensorShape {T}.

(** What a binary operator returns: a value or [NotImplemented] *)
Inductive returned (T : Type) :=
| Value (t : T)
| NotImplemented.
Arguments Value {T}.
Arguments NotImplemented {T}.

(** [self.size]: a Python int or float, or a tensor *)
Inductive size_value (T : Type) :=
| SizeInt (z : Z)
| SizeFloat (x : spec_float)
| SizeTensor (t : T).
Arguments SizeInt {T}.
Arguments SizeFloat {T}.
Arguments SizeTensor {T}.

(** The abstract members [_reset], [shape] and [numpy] of
    [ArrayMethodMixin]; [shape] is a property without effect. *)
Class Abstract (T : Type) := {
  _reset : T -> T -> result unit;
  shape : T -> shape_value T;
  numpy : T -> result ndarray
}.

(** [getitem_cpp] and [setitem_cpp] of [_imperative_rt.core2] *)
Class Indexing (T : Type) := {
  getitem_cpp : T -> index -> result T;
  setitem_cpp : T -> index -> T -> result T
}.

(** What a method does to the world around it: a call into the runtime,
    an indexing call, [self._reset(other)], which replaces the content
    of [self], or [self.numpy()] *)
Inductive event (T : Type) :=
| Call (c : call T)
| CallGetitem (self : T) (i : index)
| CallSetitem (self : T) (i : index) (value : T)
| CallReset (self other : T)
| CallNumpy (self : T).
Arguments Call {T}.
Arguments CallGetitem {T}.
Arguments CallSetitem {T}.
Arguments CallReset {T}.
Arguments CallNumpy {T}.

(** A computation of a method: it returns or raises, and appends what it
    does to the trace. *)
Definition E (T A : Type) : Type := list (event T) -> result A * list (event T).

#[export] Instance E_ret {T} : MRet (E T) := fun A a tr => (Ok a, tr).
#[export] Instance E_bind {T} : MBind (E T) := fun A B f c tr =>
  match c tr with
  | (Ok a, tr') => f a tr'
  | (Raise e, tr') => (Raise e, tr')
  end.

Definition pure_ {T A} (r : result A) : E T A := fun tr => (r, tr).

Definition emit {T A} (ev : event T) (r : result A) : E T A :=
  fun tr => (r, (tr ++ [ev])%list).

(** A computation of the dispatch layer, as a computation of a method *)
Definition of_M {T A} (c : M T A) : E T A :=
  fun tr => (fst (run c), (tr ++ map Call (snd (run c)))%list).

(** The outcome and the trace of a computation started on an empty trace *)
Definition exec {T A} (c : E T A) : result A * list (event T) := c [].

(** [range(n)] *)
Definition range (n : Z) : list Z := map Z.of_nat (seq 0 (Z.to_nat n)).

(** The value of a 64-bit two's complement integer after wrap-around *)
Definition wrap64 (z : Z) : Z := (z + 2 ^ 63) mod 2 ^ 64 - 2 ^ 63.

(** [np.prod(shape).item()] for a tuple of ints: the product in
    [int64], which wraps around; the product of the empty tuple is the
    float [1.0]. *)
Definition np_prod_item {T} (s : list Z) : size_value T :=
  match s with
  | [] => SizeFloat (of_Z binary64 1)
  | _ => SizeInt (wrap64 (foldr Z.mul 1 s))
  end.

(** [a.item()] for an array: the one element as a Python number *)
Definition ndarray_item (a : ndarray) : result number :=
  match a with
  | NdFloat a =>
      match f_data a with
      | [x] => Ok (FloatN (convert binary64 x))
      | _ => Raise (ValueError "can only convert an array of size 1 to a Python scalar" [])
      end
  | NdInt _ _ data =>
      match data with
      | [z] => Ok (IntN z)
      | _ => Raise (ValueError "can only convert an array of size 1 to a Python scalar" [])
      end
  end.

Section Mixin.
Context {T : Type} `{ArrayMethodMixin T} `{Runtime T} `{Abstract T} `{Indexing T}.

(** The arithmetic operators of [ArrayMethodMixin] *)
Definition __neg__ : T -> M T T := _unary_elwise NEGATE.
Definition __pos__ (self : T) : M T T := mret self.
Definition __abs__ : T -> M T T := _unary_elwise ABS.
Definition __round__ : T -> M T T := _unary_elwise ROUND.
Definition __floor__ : T -> M T T := _unary_elwise FLOOR.
Definition __ceil__ : T -> M T T := _unary_elwise CEIL.

Definition __add__ : T -> T -> M T T := _binary_elwise ADD false.
Definition __sub__ : T -> T -> M T T := _binary_elwise SUB false.
Definition __mul__ : T -> T -> M T T := _binary_elwise MUL false.
Definition __truediv__ : T -> T -> M T T := _binary_elwise TRUE_DIV false.
Definition __floordiv__ : T -> T -> M T T := _binary_elwise FLOOR_DIV false.
Definition __mod__ : T -> T -> M T T := _binary_elwise MOD false.
Definition __pow__ : T -> T -> M T T := _binary_elwise POW false.
Definition __lshift__ : T -> T -> M T T := _binary_elwise SHL false.
Definition __rshift__ : T -> T -> M T T := _binary_elwise SHR false.

Definition __radd__ : T -> T -> M T T := _binary_elwise ADD true.
Definition __rsub__ : T -> T -> M T T := _binary_elwise SUB true.
Definition __rmul__ : T -> T -> M T T := _binary_elwise MUL true.
Definition __rtruediv__ : T -> T -> M T T := _binary_elwise TRUE_DIV true.
Definition __rfloordiv__ : T -> T -> M T T := _binary_elwise FLOOR_DIV true.
Definition __rmod__ : T -> T -> M T T := _binary_elwise MOD true.
Definition __rpow__ : T -> T -> M T T := _binary_elwise POW true.
Definition __rlshift__ : T -> T -> M T T := _binary_elwise SHL true.
Definition __rrshift__ : T -> T -> M T T := _binary_elwise SHR true.

(** [_todo], which stands for [__trunc__] and [__contains__] *)
Definition _todo {A} : E T A := pure_ (Raise NotImplementedError).

(** [self._reset(other)] *)
Definition reset (self other : T) : E T unit :=
  emit (CallReset self other) (_reset self other).

(** [_inplace(f)] *)
Definition _inplace (f : T -> T -> E T (returned T)) (self value : T) : E T T :=
  result ← f self value;
  match result with
  | NotImplemented => pure_ (Raise NotImplementedError)
  | Value result =>
      _ ← reset self result;
      mret self
  end.

(** An operator of the dispatch layer as the argument of [_inplace]: it
    returns the tensor that the runtime gave, never [NotImplemented]. *)
Definition operator (f : T -> T -> M T T) (self value : T) : E T (returned T) :=
  r ← of_M (f self value); mret (Value r).

Definition __iadd__ : T -> T -> E T T := _inplace (operator __add__).
Definition __isub__ : T -> T -> E T T := _inplace (operator __sub__).
Definition __imul__ : T -> T -> E T T := _inplace (operator __mul__).
Definition __imatmul__ : T -> T -> E T T := _inplace (operator __matmul__).
Definition __itruediv__ : T -> T -> E T T := _inplace (operator __truediv__).
Definition __ifloordiv__ : T -> T -> E T T := _inplace (operator __floordiv__).
Definition __imod__ : T -> T -> E T T := _inplace (operator __mod__).
Definition __ipow__ : T -> T -> E T T := _inplace (operator __pow__).
Definition __ilshift__ : T -> T -> E T T := _inplace (operator __lshift__).
Definition __irshift__ : T -> T -> E T T := _inplace (operator __rshift__).
Definition __iand__ : T -> T -> E T T := _inplace (operator __and__).
Definition __ior__ : T -> T -> E T T := _inplace (operator __or__).
Definition __ixor__ : T -> T -> E T T := _inplace (operator __xor__).

Definition __len__ (self : T) : result Z :=
  let shape := _tuple_shape self in
  match shape with
  | Some (d :: _) => Ok d
  | Some [] | None => Raise (TypeError "ndim is 0" [])
  end.

(** [len(self)], which refuses a negative [__len__] *)
Definition len (self : T) : result Z :=
  n ← __len__ self;
  if n <? 0 then Raise (ValueError "__len__() should return >= 0" []) else Ok n.

Definition __getitem__ (self : T) (index : index) : E T T :=
  emit (CallGetitem self index) (getitem_cpp self index).

(** [for i in indices: yield self[i]], run to its end *)
Fixpoint yield_items (self : T) (indices : list Z) : E T (list T) :=
  match indices with
  | [] => mret []
  | i :: indices =>
      x ← __getitem__ self (IntIndex i);
      xs ← yield_items self indices;
      mret (x :: xs)
  end.

(** [__iter__], as the list of the values that the generator yields
    when it is run to its end *)
Definition __iter__ (self : T) : E T (list T) :=
  n ← pure_ (len self);
  yield_items self (range n).

(** [value] is a tensor here. *)
Definition __setitem__ (self : T) (index : index) (value : T) : E T unit :=
  value ←
    match index with
    | Ellipsis => mret value
    | _ => emit (CallSetitem self index value) (setitem_cpp self index value)
    end;
  reset self value.

(** [ArrayMethodMixin.size]; [shape.prod()] is the reduction [prod]
    with its default arguments. *)
Definition size (self : T) : E T (size_value T) :=
  let shape_ := shape self in
  match shape_ with
  | TupleShape _ =>
      match shape self with
      | TupleShape s => mret (np_prod_item s)
      | TensorShape t => r ← of_M (prod t AxisNone false); mret (SizeTensor r)
      end
  | TensorShape shape_ => r ← of_M (prod shape_ AxisNone false); mret (SizeTensor r)
  end.

(** [self.item()]; [self.size] is read a second time for the
    comparison with [1] when the first read gave an int. *)
Definition item_ (self : T) : E T number :=
  s ← size self;
  _ ← match s with
      | SizeInt _ =>
          s' ← size self;
          match s' with
          | SizeInt z => pure_ (assert (z =? 1) EmptyString)
          | _ => mret tt
          end
      | _ => mret tt
      end;
  a ← emit (CallNumpy self) (numpy self);
  pure_ (ndarray_item a).

(** [item], with its positional arguments *)
Definition item (self : T) (args : list Py.value) : E T number :=
  match args with
  | [] => item_ self
  | _ => x ← __getitem__ self (ArgsIndex args); item_ x
  end.

(** The arithmetic binary operators, with their modes; the flag is set
    for the reflected forms. *)
Definition binary_operators : list ((T -> T -> M T T) * ElwMode * bool) :=
  [(__add__, ADD, false); (__sub__, SUB, false); (__mul__, MUL, false);
   (__truediv__, TRUE_DIV, false); (__floordiv__, FLOOR_DIV, false);
   (__mod__, MOD, false); (__pow__, POW, false); (__lshift__, SHL, false);
   (__rshift__, SHR, false);
   (__radd__, ADD, true); (__rsub__, SUB, true); (__rmul__, MUL, true);
   (__rtruediv__, TRUE_DIV, true); (__rfloordiv__, FLOOR_DIV, true);
   (__rmod__, MOD, true); (__rpow__, POW, true); (__rlshift__, SHL, true);
   (__rrshift__, SHR, true)].

(** The arithmetic unary operators that invoke a primitive, with their
    modes *)
Definition unary_operators : list ((T -> M T T) * ElwMode) :=
  [(__neg__, NEGATE); (__abs__, ABS); (__round__, ROUND); (__floor__, FLOOR);
   (__ceil__, CEIL)].

(** The in-place operators, each with the operator it is made from *)
Definition inplace_operators : list ((T -> T -> E T T) * (T -> T -> M T T)) :=
  [(__iadd__, __add__); (__isub__, __sub__); (__imul__, __mul__);
   (__imatmul__, __matmul__); (__itruediv__, __truediv__);
   (__ifloordiv__, __floordiv__); (__imod__, __mod__); (__ipow__, __pow__);
   (__ilshift__, __lshift__); (__irshift__, __rshift__);
   (__iand__, __and__); (__ior__, __or__); (__ixor__, __xor__)].

(** The strategy that [_matmul] hands on: [PROFILE] or [HEURISTIC],
    together with [REPRODUCIBLE] for deterministic kernels *)
Definition strategy_flags : Z :=
  Z.lor (if _benchmark_kernel then Strategy_PROFILE else Strategy_HEURISTIC)
        (if _deterministic_kernel then Strategy_REPRODUCIBLE else 0).

(** The arguments that [_matmul] hands on with the callback [s], for
    operands of ranks [d1] and [d2] *)
Definition matmul_call (inp1 inp2 : T) (d1 d2 : Z) (transpose_a transpose_b : bool)
    (compute_mode format : string) (s : symbolic) : matmul_args T :=
  MatmulArgs inp1 inp2 d1 d2 transpose_a transpose_b
    (_get_actual_op_param compute_mode __compute_mode) format
    _benchmark_kernel _deterministic_kernel strategy_flags s.

(** [r] followed by [k] on its value *)
Definition and_then {A B} (r : result A) (k : A -> result B) : result B :=
  match r with
  | Ok a => k a
  | Raise e => Raise e
  end.

End Mixin.

End Methods.

(* ===================================================================== *)
(** * The container methods on the runtime that tracks dtypes and shapes *)
(* ===================================================================== *)

Module ShapeMethods.
Import IEEE754 Numpy ArrayMethod Shapes Methods.

(** Modelled from the spec: the collaborators of the in-place and the
    container methods, on dtypes and shapes.  "A way to rebind its value
    in place" always succeeds; [shape] is the tuple when it is known and
    a tensor otherwise; "host-materialization" gives an array of zeros
    of the shape; the indexing primitive gives the "index-0 slice", the
    tensor without its first extent, for an int within the first extent;
    the set-item primitive gives "the updated full-tensor value", of the
    dtype and shape of the receiver. *)
#[export] Instance tensor_abstract : Abstract tensor :=
  {| _reset self other := Ok tt;
     shape t :=
       match t_shape t with
       | Some s => TupleShape s
       | None => TensorShape (Tensor (Dtype "int32" None) None)
       end;
     numpy t :=
       match t_shape t with
       | Some s =>
           Ok (NdFloat (FloatArray float32 s
                          (repeat (S754_zero false) (Z.to_nat (foldr Z.mul 1 s)))))
       | None => Raise (ValueError "unkown shape" [])
       end |}.

#[export] Instance tensor_indexing : Indexing tensor :=
  {| getitem_cpp t i :=
       match i, t_shape t with
       | IntIndex i, Some (d :: s) =>
           if (0 <=? i) && (i <? d) then Ok (Tensor (t_dtype t) (Some s))
           else Raise (IndexError "index out of range")
       | _, _ => Raise (IndexError "too many indices for tensor")
       end;
     setitem_cpp t i value := Ok (Tensor (t_dtype t) (t_shape t)) |}.

End ShapeMethods.

(* ===================================================================== *)
(** * [array_method.py]: the rank-normalising matmul programs *)
(* ===================================================================== *)

Module MatmulGraph.
Import ArrayMethod.

(** One entry [[axis, begin, end, step, idx]] of [builtin.Subtensor]'s
    [items]: the axis and which of the four parameters are given. *)
Record subtensor_item := Item {
  item_axis : Z;
  item_begin : bool;
  item_end : bool;
  item_step : bool;
  item_idx : bool
}.

(** The primitive operation descriptors that the two programs build *)
Inductive Op :=
| Subtensor (items : list subtensor_item)
| AddAxis (axis : list Z)
| RemoveAxis (axis : list Z)
| GetVarShape
| Reshape
| Concat (axis : Z) (comp_node : string)
| Reduce (mode : string) (axis : Z)
| Broadcast
| MatrixMul (transposeA transposeB : bool) (compute_mode format : string)
    (strategy : Z)
| BatchedMatrixMul (transposeA transposeB : bool) (compute_mode format : string)
    (strategy : Z).

Section Builders.
Context {V : Type}.

(** The two arguments that [subgraph] hands to a program body: [f]
    applies a primitive to variables of the graph and [c] makes a
    constant of a dtype. *)
Variable f : Op -> list V -> V.
Variable c : Z -> string -> V.

(** The body [extentedMatrixMulOp] of [_get_extentedMatrixMulOp], with
    the arguments of the enclosing function that it uses. *)
Definition extentedMatrixMulOp (device : string) (dim1 dim2 : Z)
    (transpose_a transpose_b : bool) (compute_mode format : string)
    (strategy : Z) (inputs : list V) : result (list V * list bool) :=
  _ ← assert (Z.of_nat (length inputs) =? 2) EmptyString;
  match inputs with
  | [inp1; inp2] =>
      let _dim1 := dim1 in
      let _dim2 := dim2 in
      let build_shape_head shape idx :=
        f (Subtensor [Item 0 false true false false]) [shape; c idx "int32"] in
      let build_shape_tail shape idx :=
        f (Subtensor [Item 0 true false false false]) [shape; c idx "int32"] in
      let remove_row := false in
      let remove_col := false in
      let '(_dim1, remove_row) :=
        if _dim1 =? 1 then (2, true) else (_dim1, remove_row) in
      let '(_dim2, remove_col) :=
        if _dim2 =? 1 then (2, true) else (_dim2, remove_col) in
      let inp1 := if remove_row then f (AddAxis [0]) [inp1] else inp1 in
      let inp2 := if remove_col then f (AddAxis [1]) [inp2] else inp2 in
      let shape1 := f GetVarShape [inp1] in
      let shape2 := f GetVarShape [inp2] in
      let inp1 :=
        if _dim1 >? 2 then
          f Reshape
            [inp1;
             f (Concat 0 device)
               [f (Reduce "product" 0) [build_shape_head shape1 (-1)];
                build_shape_tail shape1 (-1)]]
        else inp1 in
      let inp2 :=
        if _dim2 >? 2 then
          f Reshape
            [inp2;
             f (Concat 0 device)
               [f (Reduce "product" 0) [build_shape_head shape2 (-1)];
                build_shape_tail shape2 (-1)]]
        else inp2 in
      let op := MatrixMul transpose_a transpose_b compute_mode format strategy in
      let result := f op [inp1; inp2] in
      let result_shape := f GetVarShape [result] in
      let result :=
        if _dim1 >? 2 then
          f Reshape
            [result;
             f (Concat 0 device)
               [build_shape_head shape1 (-1); build_shape_tail result_shape (-1)]]
        else result in
      let result :=
        if _dim2 >? 2 then
          f Reshape
            [result;
             f (Concat 0 device)
               [build_shape_head shape2 (-1); build_shape_tail result_shape (-1)]]
        else result in
      let maxdim := if _dim1 >? _dim2 then _dim1 else _dim2 in
      let result :=
        if remove_row then f (RemoveAxis [maxdim - 2]) [result] else result in
      let result :=
        if remove_col then f (RemoveAxis [maxdim - 1]) [result] else result in
      Ok ([result], [true])
  | _ => Raise (ValueError "not enough values to unpack" [])
  end.

(** The body [extentedBatchedMatrixMulOp] of
    [_get_extentedBatchedMatrixMulOp] *)
Definition extentedBatchedMatrixMulOp (device : string) (dim1 dim2 : Z)
    (transpose_a transpose_b : bool) (compute_mode format : string)
    (strategy : Z) (inputs : list V) : result (list V * list bool) :=
  _ ← assert (Z.of_nat (length inputs) =? 2) EmptyString;
  match inputs with
  | [inp1; inp2] =>
      let _dim1 := dim1 in
      let _dim2 := dim2 in
      let build_shape_head shape idx :=
        f (Subtensor [Item 0 false true false false]) [shape; c idx "int32"] in
      let build_shape_tail shape idx :=
        f (Subtensor [Item 0 true false false false]) [shape; c idx "int32"] in
      let remove_row := false in
      let remove_col := false in
      let '(_dim1, remove_row) :=
        if _dim1 =? 1 then (2, true) else (_dim1, remove_row) in
      let '(_dim2, remove_col) :=
        if _dim2 =? 1 then (2, true) else (_dim2, remove_col) in
      let inp1 := if remove_row then f (AddAxis [0]) [inp1] else inp1 in
      let inp2 := if remove_col then f (AddAxis [1]) [inp2] else inp2 in
      let shape1 := f GetVarShape [inp1] in
      let shape2 := f GetVarShape [inp2] in
      let maxdim := if _dim1 >? _dim2 then _dim1 else _dim2 in
      (* [batch_shape] is bound by exactly one of the three branches *)
      let '(shape2, inp2, batch_shape) :=
        if _dim1 >? _dim2 then
          let shape2 :=
            f (Concat 0 device) [build_shape_head shape1 (- _dim2); shape2] in
          let inp2 := f Broadcast [inp2; shape2] in
          (shape2, inp2, Some (build_shape_head shape1 (-2)))
        else (shape2, inp2, None) in
      let '(shape1, inp1, batch_shape) :=
        if _dim2 >? _dim1 then
          let shape1 :=
            f (Concat 0 device) [build_shape_head shape2 (- _dim1); shape1] in
          let inp1 := f Broadcast [inp1; shape1] in
          (shape1, inp1, Some (build_shape_head shape2 (-2)))
        else (shape1, inp1, batch_shape) in
      let batch_shape :=
        if _dim1 =? _dim2 then Some (build_shape_head shape1 (-2))
        else batch_shape in
      match batch_shape with
      | None => Raise (ValueError "batch_shape referenced before assignment" [])
      | Some batch_shape =>
          let '(inp1, inp2) :=
            if maxdim >? 3 then
              (f Reshape
                 [inp1;
                  f (Concat 0 device)
                    [f (Reduce "product" 0) [batch_shape];
                     build_shape_tail shape1 (-2)]],
               f Reshape
                 [inp2;
                  f (Concat 0 device)
                    [f (Reduce "product" 0) [batch_shape];
                     build_shape_tail shape2 (-2)]])
            else (inp1, inp2) in
          let op :=
            BatchedMatrixMul transpose_a transpose_b compute_mode format strategy in
          let result := f op [inp1; inp2] in
          let result :=
            if maxdim >? 3 then
              f Reshape
                [result;
                 f (Concat 0 device)
                   [batch_shape;
                    build_shape_tail (f GetVarShape [result]) (-2)]]
            else result in
          let result :=
            if remove_row then f (RemoveAxis [maxdim - 2]) [result] else result in
          let result :=
            if remove_col then f (RemoveAxis [maxdim - 1]) [result] else result in
          Ok ([result], [true])
      end
  | _ => Raise (ValueError "not enough values to unpack" [])
  end.

(** The program that stands behind a callback of [_matmul] *)
Definition program (s : symbolic) :=
  match s with
  | symbolicMatrixMul => extentedMatrixMulOp
  | symbolicBatchedMatrixMul => extentedBatchedMatrixMulOp
  end.

End Builders.

End MatmulGraph.

(* ===================================================================== *)
(** * The primitives of the matmul programs, on shapes *)
(* ===================================================================== *)

Module ShapeGraph.
Import MatmulGraph Shapes.

(** A variable of a graph: a tensor, of which the shape is kept; a
    vector of integers (the value of a shape); an integer constant; or
    the result of a primitive applied to operands it does not accept. *)
Inductive var :=
| TensorVar (shape : list Z)
| ShapeVar (v : list Z)
| ConstVar (z : Z)
| Invalid.

Definition product (v : list Z) : Z := foldr Z.mul 1 v.

(** The number of elements that the Python slice [v[:idx]] keeps and
    [v[idx:]] drops: a negative index counts from the end. *)
Definition slice_point (v : list Z) (idx : Z) : nat :=
  Z.to_nat (if idx <? 0 then Z.of_nat (length v) + idx else idx).

(** [(rows, columns)] of a matrix of extents [a0], [a1], transposed or not *)
Definition oriented (transposed : bool) (a0 a1 : Z) : Z * Z :=
  if transposed then (a1, a0) else (a0, a1).

(** The extents [(m, n)] of the product of the matrices of extents
    [(a0, a1)] and [(b0, b1)], transposed as the flags say, whose inner
    extents have to agree *)
Definition matrix_product (ta tb : bool) (a0 a1 b0 b1 : Z) : option (Z * Z) :=
  let '(m, k) := oriented ta a0 a1 in
  let '(k', n) := oriented tb b0 b1 in
  if k =? k' then Some (m, n) else None.

(** Extents from the last one backwards: [s] can be broadcast to [t]. *)
Fixpoint compatible (s t : list Z) : bool :=
  match s, t with
  | [], _ => true
  | d :: s, e :: t => ((d =? e) || (d =? 1)) && compatible s t
  | _ :: _, [] => false
  end.

Definition broadcastable (s t : list Z) : bool := compatible (rev s) (rev t).

(** Modelled from the spec: the primitives of [builtin], which are not
    among the sources, on shapes.  The source has [Subtensor] with the
    end given as [shape[:idx]] and with the begin given as
    [shape[idx:]]; the spec has "shape-slicing, concatenation, and
    product-reduction primitives", a reshape that collapses and
    re-expands dimensions (the number of elements is kept), a broadcast
    "to match the other's leading" shape, the insertion and removal of
    "a unit axis", and the 2-D and batched 3-D matrix products. *)
Definition apply_shape (op : Op) (args : list var) : var :=
  match op, args with
  | GetVarShape, [TensorVar s] => ShapeVar s
  | Subtensor [Item 0 false true false false], [ShapeVar v; ConstVar idx] =>
      ShapeVar (take (slice_point v idx) v)
  | Subtensor [Item 0 true false false false], [ShapeVar v; ConstVar idx] =>
      ShapeVar (drop (slice_point v idx) v)
  | Reduce "product" 0, [ShapeVar v] => ShapeVar [product v]
  | Concat 0 _, [ShapeVar v; ShapeVar w] => ShapeVar (v ++ w)
  | Reshape, [TensorVar s; ShapeVar t] =>
      if product s =? product t then TensorVar t else Invalid
  | AddAxis [k], [TensorVar s] =>
      if (0 <=? k) && (k <=? Z.of_nat (length s))
      then TensorVar (take (Z.to_nat k) s ++ 1 :: drop (Z.to_nat k) s)
      else Invalid
  | RemoveAxis [k], [TensorVar s] =>
      if (0 <=? k) && bool_decide (s !! Z.to_nat k = Some 1)
      then TensorVar (delete (Z.to_nat k) s)
      else Invalid
  | Broadcast, [TensorVar s; ShapeVar t] =>
      if broadcastable s t then TensorVar t else Invalid
  | MatrixMul ta tb _ _ _, [TensorVar [a0; a1]; TensorVar [b0; b1]] =>
      match matrix_product ta tb a0 a1 b0 b1 with
      | Some (m, n) => TensorVar [m; n]
      | None => Invalid
      end
  | BatchedMatrixMul ta tb _ _ _, [TensorVar [b; a0; a1]; TensorVar [b'; b0; b1]] =>
      match matrix_product ta tb a0 a1 b0 b1 with
      | Some (m, n) => if b =? b' then TensorVar [b; m; n] else Invalid
      | None => Invalid
      end
  | _, _ => Invalid
  end.

(** [c(value, dtype)] *)
Definition constant (z : Z) (dtype : string) : var := ConstVar z.

(** Modelled from the spec: [subgraph] of [.utils] and the application
    of the program that it compiles, which are not among the sources:
    "invocation applies it to live operand tensors and returns result
    tensor(s)".  Here the body of the program of the callback [s] is run
    on the shapes of two operands of ranks [dim1] and [dim2], and its
    one output is unpacked, as [symbolicMatrixMul] and
    [symbolicBatchedMatrixMul] do. *)
Definition run_program (s : ArrayMethod.symbolic) (dim1 dim2 : Z)
    (transpose_a transpose_b : bool) (shape1 shape2 : list Z) : result var :=
  r ← program apply_shape constant s "cpu0" dim1 dim2 transpose_a transpose_b
        "default" "default" 0 [TensorVar shape1; TensorVar shape2];
  ArrayMethod.unpack1 (fst r).

(** The program that [_matmul] has the runtime use for operands of the
    shapes [shape1] and [shape2], run on the two shapes: the callback
    and the ranks are those of the call that [_matmul] makes; the dot
    path has no program. *)
Definition dispatched (transpose_a transpose_b : bool) (shape1 shape2 : list Z)
    : option (result var) :=
  let inp1 := Shapes.float_tensor shape1 in
  let inp2 := Shapes.float_tensor shape2 in
  match snd (ArrayMethod.run
               (ArrayMethod._matmul inp1 inp2 transpose_a transpose_b
                  "default" "default")) with
  | [ArrayMethod.CallMatmul a] | [ArrayMethod.CallBatchedMatmul a] =>
      Some (run_program (ArrayMethod.mm_symbolic _ a)
              (ArrayMethod.mm_dim1 _ a) (ArrayMethod.mm_dim2 _ a)
              (ArrayMethod.mm_transpose_a _ a) (ArrayMethod.mm_transpose_b _ a)
              shape1 shape2)
  | _ => None
  end.

End ShapeGraph.

(* ===================================================================== *)
(** * The element-wise contract of the conversions, on exact values *)
(* ===================================================================== *)

Module ElementSpec.
Import Numpy Dtype.

(** The significand bits and the exponent bound of the float types *)
Definition significand_bits (t : float_type) : Z :=
  match t with float32 => 24 | float64 => 53 end.

Definition exponent_bound (t : float_type) : Z :=
  match t with float32 => 128 | float64 => 1024 end.

(** A Python float, and a Python int, as a float of the type [t] *)
Definition of_float (t : float_type) (x : spec_float) : spec_float :=
  match x with
  | S754_finite s m e => binary_round (significand_bits t) (exponent_bound t) s m e
  | _ => x
  end.

Definition of_int (t : float_type) (z : Z) : spec_float :=
  binary_normalize (significand_bits t) (exponent_bound t) z 0 false.

(** The integer nearest to a rational, the even one of two that are
    equally near *)
Definition nearest_even (v : Q) : Z :=
  let n := Qfloor v in
  match Qcompare (v - inject_Z n) (1 # 2) with
  | Lt => n
  | Eq => if Z.even n then n else n + 1
  | Gt => n + 1
  end.

(** "round": the float of the integer nearest to the exact value of
    [x]; a float that is an integer by its exponent, an infinity and a
    NaN stay, and a zero result has the sign of [x]. *)
Definition rounded (t : float_type) (x : spec_float) : spec_float :=
  match x with
  | S754_finite s _ e =>
      if e <? 0 then
        match IEEE754.to_Q x with
        | Some v =>
            let n := nearest_even v in
            if n =? 0 then S754_zero s else of_int t n
        | None => x
        end
      else x
  | _ => x
  end.

(** "clips to [[lo, hi]]", by the order of the floats; a NaN is below
    and above nothing, and stays *)
Definition clipped (lo hi x : spec_float) : spec_float :=
  if SFltb x lo then lo else if SFltb hi x then hi else x.

(** The bounds of a clip are numbers in order: [hi] is not below [lo]. *)
Definition ordered (lo hi : spec_float) : bool :=
  match SFcompare hi lo with
  | Some Gt | Some Eq => true
  | _ => false
  end.

(** The least and the greatest value of the integer types *)
Definition integer_types : list (string * (Z * Z)) :=
  [("int8", (-128, 127));
   ("uint8", (0, 255));
   ("int16", (-32768, 32767));
   ("uint16", (0, 65535));
   ("int32", (-2147483648, 2147483647));
   ("uint32", (0, 4294967295));
   ("int64", (-9223372036854775808, 9223372036854775807));
   ("uint64", (0, 18446744073709551615))].

Definition bounds_of (type_name : string) : option (Z * Z) :=
  snd <$> find (fun p => String.eqb (fst p) type_name) integer_types.

(** A rational without its fraction *)
Definition toward_zero (v : Q) : Z :=
  if Qle_bool 0 v then Qfloor v else Qceiling v.

(** "casts to the quantized type": [code] is the exact value of [x]
    without its fraction, when that is a value of the integer type.
    Nothing is said of a NaN, of an infinity and of a value outside the
    type, which C leaves undefined. *)
Definition cast_of (type_name : string) (x : spec_float) (code : Z) : Prop :=
  forall (v : Q) (least greatest : Z),
    IEEE754.to_Q x = Some v ->
    bounds_of type_name = Some (least, greatest) ->
    least <= toward_zero v <= greatest ->
    code = toward_zero v.

(** The float that is cast: "[round(value/scale) + zero_point]
    (unsigned) or [round(value/scale)] (signed), clipped to
    [[qmin, qmax]]", in the arithmetic of the float type [t] of the
    array *)
Definition quantized_float (t : float_type) (m : QuantDtypeMeta)
    (scale : spec_float) (zp : Z) (value : spec_float) : spec_float :=
  let p := significand_bits t in
  let emax := exponent_bound t in
  let r := rounded t (SFdiv p emax value (of_float t scale)) in
  let r := if is_unsigned m then SFadd p emax r (of_int t zp) else r in
  clipped (of_int t (qmin m)) (of_int t (qmax m)) r.

(** [code] is the quantization of [value]. *)
Definition quantized (t : float_type) (m : QuantDtypeMeta) (q : dtype)
    (scale : spec_float) (zp : Z) (value : spec_float) (code : Z) : Prop :=
  cast_of (type_name q) (quantized_float t m scale zp value) code.

(** "[(value - zero_point) * scale] (unsigned) or [value * scale]
    (signed)", in [float32] *)
Definition dequantized (m : QuantDtypeMeta) (scale : spec_float) (zp : Z)
    (code : Z) : spec_float :=
  let x := of_int float32 code in
  let x := if is_unsigned m then SFsub 24 128 x (of_int float32 zp) else x in
  SFmul 24 128 x (of_float float32 scale).

(** The bounds of the descriptor [m] are floats of the type [t] in
    order. *)
Definition bounds_ordered (t : float_type) (m : QuantDtypeMeta) : bool :=
  ordered (of_int t (qmin m)) (of_int t (qmax m)).


End ElementSpec.

(* ===================================================================== *)
(** * Properties of [dtype.py] *)
(* ===================================================================== *)

Module DtypeFacts.
Import IEEE754 Numpy Dtype QuantSpec.

(** The literal [0.1], the correctly rounded binary64 quotient of 1 by
    10, is [0x1999999999999A * 2^-56]; converted to binary32 it is
    [0xCCCCCD * 2^-27]. *)
Example float_0_1_bits :
  float_0_1 = S754_finite false 7205759403792794 (-56) /\
  in_type float32 float_0_1 = S754_finite false 13421773 (-27).
Proof. split; reflexivity. Qed.

(** [np.round] rounds halves to even: [2.5] to [2.0], [3.5] to [4.0],
    and [-0.25] to [-0.0]. *)
Example rint_half_even :
  rint binary64 (div binary64 (of_Z binary64 5) (of_Z binary64 2)) = of_Z binary64 2 /\
  rint binary64 (div binary64 (of_Z binary64 7) (of_Z binary64 2)) = of_Z binary64 4 /\
  rint binary64 (div binary64 (of_Z binary64 (-1)) (of_Z binary64 4)) = S754_zero true.
Proof. repeat split; reflexivity. Qed.

Example builtin_lookups :
  builtin "quint8" = Ok quint8_meta /\
  builtin "qint8" = Ok qint8_meta /\
  builtin "qint8_narrow" = Ok qint8_narrow_meta /\
  builtin "qint16" = Raise (KeyError "qint16").
Proof. repeat split; reflexivity. Qed.

Example quint8_0_1_128_created :
  quint8 float_0_1 (Some (IntN 128)) = Ok quint8_0_1_128 /\
  quint8 float_0_1 (Some (FloatN (of_Z binary64 128))) = Ok quint8_0_1_128 /\
  quint8 float_0_1 (Some (FloatN float_0_1)) =
    Raise (ValueError "zero_point should be an integer" []) /\
  quint8 float_0_1 (Some (FloatN S754_nan)) =
    Raise (ValueError "cannot convert float NaN to integer" []) /\
  quint8 float_0_1 None = Raise (ValueError "zero_point should be an integer" []).
Proof. repeat split; reflexivity. Qed.

Lemma mismatch_matches q m scale zp :
  matches q m scale zp -> mismatch q m = Ok false.
Proof.
  intros (md & Hmd & Hc & _ & _).
  unfold mismatch, is_quantize, mgb_dtype_of. rewrite Hmd. simpl.
  rewrite Hc, bool_decide_true by reflexivity. reflexivity.
Qed.

Lemma to_quantized_per_element (m : QuantDtypeMeta) (q : dtype)
    (scale : spec_float) (zp : Z) (a : float_array) :
  matches q m scale zp ->
  _convert_to_quantized_dtype (Ndarray (NdFloat a)) q m =
  Ok (NdInt q (f_shape a) (map (quantize (f_type a) m q scale zp) (f_data a))).
Proof.
  intros Hm. pose proof (mismatch_matches _ _ _ _ Hm) as Hmis.
  destruct Hm as (md & Hmd & Hc & Hs & Hz).
  unfold _convert_to_quantized_dtype. rewrite Hmis. simpl.
  unfold mgb_dtype_of. rewrite Hmd. simpl.
  unfold quantize. destruct (is_unsigned m) eqn:Hu.
  - unfold zero_point_of. rewrite (Hz eq_refl). simpl.
    unfold astype, clip, add_int, round_, true_divide. simpl.
    rewrite !map_map, Hs. reflexivity.
  - unfold astype, clip, round_, true_divide. simpl.
    rewrite !map_map, Hs. reflexivity.
Qed.

Lemma from_quantized_per_element (m : QuantDtypeMeta) (q : dtype)
    (scale : spec_float) (zp : Z) (shape data : list Z) :
  matches q m scale zp ->
  _convert_from_quantized_dtype (Ndarray (NdInt q shape data)) m =
  Ok (NdFloat (FloatArray float32 shape (map (dequantize m scale zp) data))).
Proof.
  intros Hm. pose proof (mismatch_matches _ _ _ _ Hm) as Hmis.
  destruct Hm as (md & Hmd & Hc & Hs & Hz).
  unfold _convert_from_quantized_dtype. simpl.
  rewrite Hmis. simpl. unfold mgb_dtype_of. rewrite Hmd. simpl.
  unfold dequantize. destruct (is_unsigned m) eqn:Hu.
  - unfold zero_point_of. rewrite (Hz eq_refl). simpl.
    unfold multiply, subtract_int, astype_float32. simpl.
    rewrite !map_map, Hs. reflexivity.
  - unfold multiply, astype_float32. simpl.
    rewrite !map_map, Hs. reflexivity.
Qed.

(** [int(n) == n] holds exactly when the value of [n] is an integer,
    and [int(n)] is then that integer. *)
Lemma trunc_exact (x : spec_float) (z : Z) :
  (exists v, to_Q x = Some v /\ Qeq v (inject_Z z)) -> trunc x = Some z.
Proof.
  intros (v & Hv & Hq). destruct x as [s | s | | s m e]; simpl in *; try discriminate.
  - injection Hv as <-. unfold Qeq in Hq. simpl in Hq. f_equal. lia.
  - injection Hv as <-. f_equal. destruct (0 <=? e) eqn:He.
    + destruct s; unfold Qeq in Hq; simpl in Hq; lia.
    + assert (Hd : 0 < 2 ^ (- e)) by (apply Z.pow_pos_nonneg; lia).
      assert (Hp : Z.pos (Z.to_pos (2 ^ (- e))) = 2 ^ (- e)) by (apply Z2Pos.id; lia).
      destruct s; unfold Qeq in Hq; simpl in Hq; rewrite Hp in Hq.
      * assert (Hm : Z.pos m = (- z) * 2 ^ (- e)) by lia.
        rewrite Hm, Z.div_mul by lia. lia.
      * assert (Hm : Z.pos m = z * 2 ^ (- e)) by lia.
        rewrite Hm, Z.div_mul by lia. reflexivity.
Qed.

Lemma int_integral (n : number) (z : Z) :
  integral n z -> int_ n = Ok z /\ int_ne z n = false.
Proof.
  intros (v & Hv & Hq). split.
  - destruct n as [i | x]; simpl in *.
    + injection Hv as <-. unfold Qeq in Hq. simpl in Hq. f_equal. lia.
    + rewrite (trunc_exact x z) by eauto. reflexivity.
  - unfold int_ne. rewrite Hv. apply negb_false_iff, Qeq_bool_iff.
    symmetry. exact Hq.
Qed.

Lemma int_ne_integral (n : number) (i : Z) :
  int_ne i n = false -> integral n i.
Proof.
  unfold int_ne, integral. destruct (number_value n) as [v |]; [| discriminate].
  intros Hq. apply negb_false_iff, Qeq_bool_iff in Hq.
  exists v. split; [reflexivity | symmetry; exact Hq].
Qed.

Lemma integral_unique (n : number) (z z' : Z) :
  integral n z -> integral n z' -> z = z'.
Proof.
  intros (v & Hv & Hq) (v' & Hv' & Hq'). rewrite Hv in Hv'. injection Hv' as <-.
  rewrite Hq in Hq'. unfold Qeq in Hq'. simpl in Hq'. lia.
Qed.

Lemma check_zero_point_ok (z : Z) (m : QuantDtypeMeta) :
  qmin m <= z <= qmax m -> _check_zero_point z m = Ok tt.
Proof.
  intros Hz. unfold _check_zero_point.
  destruct (z <? qmin m) eqn:H1; [lia |].
  destruct (z >? qmax m) eqn:H2; [lia |]. reflexivity.
Qed.

Lemma check_zero_point_range (z : Z) (m : QuantDtypeMeta) :
  z < qmin m \/ qmax m < z ->
  _check_zero_point z m =
  Raise (ValueError "zero_point should be within [{}, {}] for {}"
           [Int (qmin m); Int (qmax m); Str (name m)]).
Proof.
  intros Hz. unfold _check_zero_point.
  destruct (z <? qmin m) eqn:H1; [reflexivity |].
  destruct (z >? qmax m) eqn:H2; [reflexivity | lia].
Qed.

(** What [create_quantized_dtype] does for an unsigned descriptor that
    has an external-format name, by the shape of the zero-point. *)
Lemma create_unsigned_cases (m : QuantDtypeMeta) (c : string)
    (scale : spec_float) (zp : option number) :
  cname m = Some c -> is_unsigned m = true ->
  (bad_zero_point m zp /\ fails (create_quantized_dtype m scale zp)) \/
  (exists n z, zp = Some n /\ integral n z /\ qmin m <= z <= qmax m /\
     create_quantized_dtype m scale zp =
     Ok (Dtype (np_dtype_str m) (Some (MgbDtype c scale (Some z))))).
Proof.
  intros Hc Hu. unfold create_quantized_dtype. rewrite Hc, Hu.
  destruct zp as [n |].
  2: { left. split; [left; reflexivity | eexists; reflexivity]. }
  destruct (int_ n) as [i | e] eqn:Hi; simpl.
  2: { left. split; [| eexists; reflexivity].
       right; left. exists n. split; [reflexivity |].
       intros z Hz. apply int_integral in Hz. destruct Hz as [Hz _]. congruence. }
  destruct (int_ne i n) eqn:Hne.
  { left. split; [| eexists; reflexivity].
    right; left. exists n. split; [reflexivity |].
    intros z Hz. apply int_integral in Hz. destruct Hz as [Hz Hz'].
    rewrite Hi in Hz. injection Hz as ->. congruence. }
  apply int_ne_integral in Hne.
  destruct (Z_lt_dec i (qmin m)) as [Hlo | Hlo];
    [| destruct (Z_lt_dec (qmax m) i) as [Hhi | Hhi]].
  - left. split.
    + right; right. exists n, i. auto.
    + rewrite check_zero_point_range by auto. eexists; reflexivity.
  - left. split.
    + right; right. exists n, i. auto.
    + rewrite check_zero_point_range by auto. eexists; reflexivity.
  - right. exists n, i. rewrite check_zero_point_ok by lia. simpl.
    repeat split; auto; lia.
Qed.

Lemma not_bad_zero_point (m : QuantDtypeMeta) (n : number) (z : Z) :
  integral n z -> qmin m <= z <= qmax m -> ~ bad_zero_point m (Some n).
Proof.
  intros Hi Hr [Hb | [(n' & Hn & Hb) | (n' & z' & Hn & Hi' & Hb)]].
  - discriminate.
  - injection Hn as <-. exact (Hb z Hi).
  - injection Hn as <-. rewrite (integral_unique _ _ _ Hi' Hi) in Hb. lia.
Qed.

(** C4: [create_quantized_dtype] fails for every descriptor whose
    external-format name is [None] (such as [quint2] and [qint2]); for
    an unsigned descriptor these and a zero-point that is [None], is
    not integral or lies outside [[qmin, qmax]] are the only failures
    ([quint8] with zero-point [-1] fails with the range error), and
    otherwise it returns the dtype stamped with [{name, scale, zero_point}]. *)
Theorem create_quantized_dtype_failures (m : QuantDtypeMeta)
    (scale : spec_float) (zp : option number) :
  (cname m = None -> fails (create_quantized_dtype m scale zp)) /\
  (forall (key : string) (m2 : QuantDtypeMeta),
     key = "quint2" \/ key = "qint2" -> builtin key = Ok m2 ->
     fails (create_quantized_dtype m2 scale zp)) /\
  (is_unsigned m = true ->
   (fails (create_quantized_dtype m scale zp) <->
    cname m = None \/ bad_zero_point m zp)) /\
  (forall c : string, cname m = Some c -> is_unsigned m = true ->
     (fails (create_quantized_dtype m scale zp) <-> bad_zero_point m zp) /\
     (~ bad_zero_point m zp ->
      exists n z, zp = Some n /\ integral n z /\ qmin m <= z <= qmax m /\
        create_quantized_dtype m scale zp =
        Ok (Dtype (np_dtype_str m) (Some (MgbDtype c scale (Some z)))))) /\
  quint8 scale (Some (IntN (-1))) =
  Raise (ValueError "zero_point should be within [{}, {}] for {}"
           [Int 0; Int 255; Str "quint8"]).
Proof.
  assert (Hnone : forall m' : QuantDtypeMeta,
             cname m' = None -> fails (create_quantized_dtype m' scale zp)).
  { intros m' Hc. unfold create_quantized_dtype. rewrite Hc. eexists; reflexivity. }
  assert (Hsome : forall c : string, cname m = Some c -> is_unsigned m = true ->
             (fails (create_quantized_dtype m scale zp) <-> bad_zero_point m zp) /\
             (~ bad_zero_point m zp ->
              exists n z, zp = Some n /\ integral n z /\ qmin m <= z <= qmax m /\
                create_quantized_dtype m scale zp =
                Ok (Dtype (np_dtype_str m) (Some (MgbDtype c scale (Some z)))))).
  { intros c Hc Hu.
    destruct (create_unsigned_cases m c scale zp Hc Hu)
      as [[Hbad Hf] | (n & z & -> & Hi & Hr & Hok)].
    - split; [tauto |]. intros Hnb. contradiction.
    - pose proof (not_bad_zero_point m n z Hi Hr) as Hnb. split.
      + split; [| tauto]. intros [e He]. rewrite Hok in He. discriminate.
      + intros _. exists n, z. auto. }
  split; [apply Hnone |]. split; [| split; [| split]].
  - intros key m2 [-> | ->] Hk; vm_compute in Hk; injection Hk as <-;
      apply Hnone; reflexivity.
  - intros Hu. destruct (cname m) as [c |] eqn:Hc.
    + destruct (Hsome c eq_refl Hu) as [Hiff _]. rewrite Hiff.
      split; [auto | intros [Hn | Hb]; [discriminate | exact Hb]].
    + split; [auto | intros _; apply Hnone; exact Hc].
  - exact Hsome.
  - reflexivity.
Qed.

Lemma create_signed (m : QuantDtypeMeta) (c : string)
    (scale : spec_float) (zp : option number) :
  cname m = Some c -> is_unsigned m = false ->
  create_quantized_dtype m scale zp =
  Ok (Dtype (np_dtype_str m) (Some (MgbDtype c scale None))).
Proof.
  intros Hc Hu. unfold create_quantized_dtype. rewrite Hc, Hu. reflexivity.
Qed.

(** C3, as stated, fails: [create_quantized_dtype] accepts the signed
    descriptor [qint8] with the zero-point [5], and returns the dtype
    it returns without a zero-point. *)
Lemma signed_zero_point_accepted :
  builtin "qint8" = Ok qint8_meta /\
  is_unsigned qint8_meta = false /\
  create_quantized_dtype qint8_meta float_0_1 (Some (IntN 5)) =
    Ok (Dtype "int8" (Some (MgbDtype "QuantizedS8" float_0_1 None))) /\
  ~ (forall (m : QuantDtypeMeta) (scale : spec_float) (n : number),
       is_unsigned m = false ->
       fails (create_quantized_dtype m scale (Some n))).
Proof.
  split; [reflexivity |]. split; [reflexivity |]. split; [reflexivity |].
  intros Hall.
  destruct (Hall qint8_meta float_0_1 (IntN 5) eq_refl) as [e He].
  discriminate.
Qed.

(** C3, amended: for a signed descriptor that has an external-format
    name, [create_quantized_dtype] succeeds whatever the zero-point
    argument is, [None] or not: the argument is ignored and the dtype is
    stamped with [{name, scale}] only; a signed descriptor without an
    external-format name is rejected. *)
Theorem signed_zero_point_ignored (m : QuantDtypeMeta) (scale : spec_float)
    (zp : option number) :
  is_unsigned m = false ->
  (forall c : string, cname m = Some c ->
     create_quantized_dtype m scale zp =
     Ok (Dtype (np_dtype_str m) (Some (MgbDtype c scale None)))) /\
  (cname m = None -> fails (create_quantized_dtype m scale zp)).
Proof.
  intros Hu. split.
  - intros c Hc. apply create_signed; assumption.
  - intros Hc. unfold create_quantized_dtype. rewrite Hc. eexists; reflexivity.
Qed.

Lemma yields_true (r : result ndarray) (a : ndarray) :
  yields r a = true -> r = Ok a.
Proof.
  destruct r as [b | e]; simpl; [| discriminate].
  intros Hb. apply bool_decide_eq_true in Hb. congruence.
Qed.

Lemma in_quint8_codes (k : Z) : 0 <= k + 128 <= 255 -> In k quint8_codes.
Proof.
  intros Hk. unfold quint8_codes. apply in_map_iff.
  exists (Z.to_nat (k + 128)). split; [lia |]. apply in_seq. lia.
Qed.


(** C5, as stated, fails: with [quint8], [scale = 0.1] and
    [zero_point = 128], the value [scale * 9] (so [k = 9], in range) does
    not come back exactly.  The float64 product [0.1 * 9] is quantized
    to [137] and dequantized to the float32 product [9 * 0.1], whose
    value differs from the value of the input, and from the float32
    nearest to the input as well. *)
Lemma scaled_roundtrip_inexact :
  let q := quint8_0_1_128 in
  let x := scaled float64 float_0_1 9 in
  let y := scaled float32 float_0_1 9 in
  quint8 float_0_1 (Some (IntN 128)) = Ok q /\
  qmin quint8_meta <= 9 + 128 <= qmax quint8_meta /\
  convert_to_quint8 (Ndarray (array_of float64 x)) q = Ok (quantized_of q 137) /\
  roundtrip_quint8 (array_of float64 x) q = Ok (array_of float32 y) /\
  roundtrip_quint8 (array_of float32 (in_type float32 x)) q = Ok (array_of float32 y) /\
  x = S754_finite false 8106479329266893 (-53) /\
  in_type float32 x = S754_finite false 15099494 (-24) /\
  y = S754_finite false 15099495 (-24) /\
  ~ same_value y x /\
  ~ same_value y (in_type float32 x).
Proof.
  cbv zeta. split; [reflexivity |]. split; [simpl; lia |].
  do 6 (split; [vm_compute; reflexivity |]).
  split; intros (a & b & Ha & Hb & Hab); vm_compute in Ha, Hb;
    injection Ha as <-; injection Hb as <-; vm_compute in Hab; discriminate.
Qed.

(** C5, amended: with [quint8], [scale = 0.1] and [zero_point = 128],
    converting [1.0] (in a float32 or a float64 array) to quint8 and
    back yields the float32 [1.0], a value within [scale/2] of [1.0];
    and for every integer [k] with [qmin <= k + zero_point <= qmax] the
    value [scale * k] is quantized to [k + zero_point], which is
    dequantized to the float32 product of [scale] and [k]: an array
    that holds this float32 product round-trips exactly. *)
Theorem quint8_roundtrip :
  exists q : dtype,
    quint8 float_0_1 (Some (IntN 128)) = Ok q /\
    (forall t : float_type,
       roundtrip_quint8 (array_of t (in_type t float_1_0)) q =
       Ok (array_of float32 (in_type float32 float_1_0))) /\
    within_half (in_type float32 float_1_0) float_1_0 float_0_1 /\
    (forall k : Z, 0 <= k + 128 <= 255 ->
       (forall t : float_type,
          convert_to_quint8 (Ndarray (array_of t (scaled t float_0_1 k))) q =
          Ok (quantized_of q (k + 128))) /\
       convert_from_quint8 (Ndarray (quantized_of q (k + 128))) =
       Ok (array_of float32 (scaled float32 float_0_1 k)) /\
       roundtrip_quint8 (array_of float32 (scaled float32 float_0_1 k)) q =
       Ok (array_of float32 (scaled float32 float_0_1 k))).
Proof.
  eexists. split; [reflexivity |]. split; [| split].
  - intros []; vm_compute; reflexivity.
  - eexists. eexists. eexists.
    split; [reflexivity |]. split; [reflexivity |]. split; [reflexivity |].
    vm_compute. discriminate.
  - intros k Hk.
    assert (Hall : forallb (roundtrip_check quint8_0_1_128) quint8_codes = true)
      by (vm_compute; reflexivity).
    rewrite forallb_forall in Hall.
    specialize (Hall k (in_quint8_codes k Hk)). unfold roundtrip_check in Hall.
    apply andb_true_iff in Hall. destruct Hall as [Hall H4].
    apply andb_true_iff in Hall. destruct Hall as [Hall H3].
    apply andb_true_iff in Hall. destruct Hall as [H1 H2].
    apply yields_true in H1, H2, H3, H4.
    split; [intros []; assumption |]. split; assumption.
Qed.

End DtypeFacts.

(* ===================================================================== *)
(** * Properties of [array_method.py] *)
(* ===================================================================== *)

Module ArrayMethodFacts.
Import Numpy ArrayMethod DispatchSpec.

Section Generic.
Context {T : Type} `{ArrayMethodMixin T} `{Runtime T}.

(** The first statement of a computation is a lifted result that is
    known by the equation [H]. *)
Ltac step_lift H := unfold mbind at 1, M_bind at 1, lift at 1; rewrite H.

(** One invocation of [apply] whose result is unpacked *)
Lemma apply_unpack (op : OpDef) (args : list T) (tr : list (call T)) :
  (rs ← apply_ op args; lift (unpack1 rs)) tr =
  (apply1 op args, (tr ++ [CallApply op args])%list).
Proof.
  unfold mbind, M_bind, apply_, invoke, lift, apply1.
  destruct (apply op args) as [rs | e]; reflexivity.
Qed.

Lemma elwise_run (args : list T) (mode : ElwMode) (tr : list (call T)) :
  _elwise args mode tr =
  (apply1 (Elemwise mode) args, (tr ++ [CallApply (Elemwise mode) args])%list).
Proof. unfold _elwise, _elwise_apply. apply apply_unpack. Qed.

Lemma not_bool_false (x : T) : not_bool x = false <-> is_bool x.
Proof.
  unfold not_bool, is_bool. rewrite negb_false_iff. apply String.eqb_eq.
Qed.

Lemma not_bool_true (x : T) : not_bool x = true <-> ~ is_bool x.
Proof.
  unfold not_bool, is_bool. rewrite negb_true_iff. apply String.eqb_neq.
Qed.

Lemma select_path_decides (d1 d2 : Z) (transpose_a : bool) :
  select_path d1 d2 transpose_a =
  if (d1 =? 1) && (d2 =? 1) then DotPath
  else if ((if d1 >? d2 then d1 else d2) <=? 2) || ((d2 <=? 2) && negb transpose_a)
       then PlainPath
       else BatchedPath.
Proof.
  unfold select_path.
  destruct (d1 =? 1) eqn:E1, (d2 =? 1) eqn:E2; simpl;
    try (destruct (decide (d1 = 1 /\ d2 = 1)) as [[? ?] | ?]; [lia |]);
    try (destruct (decide (d1 = 1 /\ d2 = 1)) as [? | ?]; [reflexivity | lia]).
  all: destruct (d1 >? d2) eqn:E3;
       destruct (_ <=? 2) eqn:E4; destruct (d2 <=? 2) eqn:E5;
       destruct transpose_a; simpl;
       destruct (decide _) as [D | D]; try reflexivity; exfalso;
       try (apply D; lia);
       try (destruct D as [D | [D D']]; try discriminate; lia).
Qed.

(** The table of the specification: among ranks of at least one, the
    plain path is taken for the rank pairs [(2,2)], [(1,2)], [(2,1)]
    and, when the first operand is not transposed, [(N,1)] and [(N,2)]
    with [N >= 3]. *)
Lemma select_path_plain (d1 d2 : Z) (transpose_a : bool) :
  1 <= d1 -> 1 <= d2 ->
  (select_path d1 d2 transpose_a = PlainPath <->
   (d1 = 2 /\ d2 = 2) \/ (d1 = 1 /\ d2 = 2) \/ (d1 = 2 /\ d2 = 1) \/
   (3 <= d1 /\ (d2 = 1 \/ d2 = 2) /\ transpose_a = false)).
Proof.
  intros H1 H2. unfold select_path.
  destruct (decide (d1 = 1 /\ d2 = 1)) as [Hdot | Hdot];
    [| destruct (decide (Z.max d1 d2 <= 2 \/ (d2 <= 2 /\ transpose_a = false)))
         as [Hpl | Hpl]].
  - split; [discriminate | lia].
  - split; [intros _ | reflexivity].
    destruct Hpl as [Hpl | [Hpl Hta]]; [lia |].
    destruct (Z_le_dec 3 d1); [right; right; right; split; [lia | split; [lia | exact Hta]] | lia].
  - split; [discriminate |]. intros Hc. exfalso. apply Hpl.
    destruct Hc as [? | [? | [? | (? & ? & ?)]]]; [left; lia .. | right; split; [lia | assumption]].
Qed.

(** C1: the path that [_matmul] dispatches to is a function of the two
    ranks and of [transpose_a]: for operands of ranks [d1, d2 >= 1] it
    makes one runtime call, to the dot-product primitive iff
    [d1 = 1] and [d2 = 1], to the plain matrix multiply iff it is not
    the dot case and [max(d1,d2) <= 2] or ([d2 <= 2] and [transpose_a]
    is false), and to the batched matrix multiply in every other case. *)
Theorem matmul_dispatch_path (inp1 inp2 : T) (transpose_a transpose_b : bool)
    (compute_mode format : string) (d1 d2 : Z) :
  ndim inp1 = Ok d1 -> ndim inp2 = Ok d2 -> 1 <= d1 -> 1 <= d2 ->
  exists c : call T,
    snd (run (_matmul inp1 inp2 transpose_a transpose_b compute_mode format)) = [c] /\
    path_of c = Some (select_path d1 d2 transpose_a) /\
    (path_of c = Some DotPath <-> d1 = 1 /\ d2 = 1) /\
    (path_of c = Some PlainPath <->
       ~ (d1 = 1 /\ d2 = 1) /\
       (Z.max d1 d2 <= 2 \/ (d2 <= 2 /\ transpose_a = false))) /\
    (path_of c = Some BatchedPath <->
       ~ (d1 = 1 /\ d2 = 1) /\
       ~ (Z.max d1 d2 <= 2 \/ (d2 <= 2 /\ transpose_a = false))).
Proof.
  intros Hd1 Hd2 H1 H2.
  assert (Hsel : exists c : call T,
             snd (run (_matmul inp1 inp2 transpose_a transpose_b compute_mode format))
             = [c] /\ path_of c = Some (select_path d1 d2 transpose_a)).
  { rewrite select_path_decides. unfold run, _matmul.
    step_lift Hd1. step_lift Hd2.
    unfold mbind at 1, M_bind at 1, lift at 1.
    replace ((d1 >? 0) && (d2 >? 0)) with true
      by (symmetry; apply andb_true_iff; split; apply Z.gtb_lt; lia).
    cbn [assert].
    destruct ((d1 =? 1) && (d2 =? 1)) eqn:Edot.
    - rewrite apply_unpack. eexists. split; reflexivity.
    - destruct (_ || _) eqn:Eplain; eexists; split; reflexivity. }
  destruct Hsel as (c & Hc & Hp). exists c. split; [exact Hc |].
  split; [exact Hp |]. rewrite Hp. unfold select_path.
  destruct (decide (d1 = 1 /\ d2 = 1)) as [Hdot | Hdot];
    [| destruct (decide (Z.max d1 d2 <= 2 \/ (d2 <= 2 /\ transpose_a = false)))
         as [Hpl | Hpl]];
    (split; [| split]); split; try tauto; try discriminate;
    try (intros [? ?]; tauto).
Qed.

(** C7: [a > b] is the computation [b < a] and [a >= b] is the
    computation [b <= a]: the less-than (less-or-equal) elementwise
    primitive on the swapped operands, whose result is cast to bool. *)
Theorem greater_is_swapped_less (a b : T) :
  __gt__ a b = __lt__ b a /\
  __ge__ a b = __le__ b a /\
  run (__gt__ a b) =
    match apply1 (Elemwise LT) [b; a] with
    | Ok r => (astype_cpp r "bool",
               [CallApply (Elemwise LT) [b; a]; CallAstype r "bool"])
    | Raise e => (Raise e, [CallApply (Elemwise LT) [b; a]])
    end /\
  run (__ge__ a b) =
    match apply1 (Elemwise LEQ) [b; a] with
    | Ok r => (astype_cpp r "bool",
               [CallApply (Elemwise LEQ) [b; a]; CallAstype r "bool"])
    | Raise e => (Raise e, [CallApply (Elemwise LEQ) [b; a]])
    end.
Proof.
  split; [reflexivity |]. split; [reflexivity |].
  split; unfold run, __gt__, __ge__;
    unfold mbind at 1, M_bind at 1; rewrite elwise_run;
    destruct (apply1 _ _) as [r | e]; reflexivity.
Qed.

Lemma logical_binary_run (mode : ElwMode) (rev : bool) (self value : T) :
  run (_logical_binary_elwise mode rev self value) =
  if not_bool self || not_bool value then
    (Raise (TypeError "{} requires 2 bool tensors" [mode_value mode]), [])
  else
    let args := if rev then [value; self] else [self; value] in
    (apply1 (Elemwise mode) args, [CallApply (Elemwise mode) args]).
Proof.
  unfold run, _logical_binary_elwise.
  destruct rev; simpl; destruct (not_bool self || not_bool value);
    try reflexivity; apply elwise_run.
Qed.

Lemma logical_unary_run (mode : ElwMode) (self : T) :
  run (_logical_unary_elwise mode self) =
  if not_bool self then
    (Raise (TypeError "{} requires a bool tensor" [mode_value mode]), [])
  else (apply1 (Elemwise mode) [self], [CallApply (Elemwise mode) [self]]).
Proof.
  unfold run, _logical_unary_elwise.
  destruct (not_bool self); [reflexivity | apply elwise_run].
Qed.

(** C8: each logical binary operator ([&], [|], [^]) and each reflected
    form raises the type error that names its mode, and invokes nothing,
    when the dtype of either operand is not boolean; when both are
    boolean it makes exactly one call, to the elementwise primitive of
    its mode (with the operands swapped in the reflected form).  The
    logical unary operator raises the type error that names its mode
    when the dtype of the receiver is not boolean. *)
Theorem logical_operators_require_bool (self value : T) :
  (forall (f : T -> T -> M T T) (mode : ElwMode) (rev : bool),
     In (f, mode, rev) logical_binary_operators ->
     (~ is_bool self \/ ~ is_bool value ->
      run (f self value) =
      (Raise (TypeError "{} requires 2 bool tensors" [mode_value mode]), [])) /\
     (is_bool self -> is_bool value ->
      let args := if rev then [value; self] else [self; value] in
      run (f self value) =
      (apply1 (Elemwise mode) args, [CallApply (Elemwise mode) args]))) /\
  (~ is_bool self ->
   run (__invert__ self) =
   (Raise (TypeError "{} requires a bool tensor" [mode_value NOT]), [])) /\
  (is_bool self ->
   run (__invert__ self) =
   (apply1 (Elemwise NOT) [self], [CallApply (Elemwise NOT) [self]])).
Proof.
  split; [| split].
  - intros f mode rev Hin.
    assert (Hf : f = _logical_binary_elwise mode rev).
    { unfold logical_binary_operators in Hin. simpl in Hin.
      repeat (destruct Hin as [Hin | Hin]; [injection Hin as <- <- <-; reflexivity |]).
      contradiction. }
    subst f. rewrite logical_binary_run. split.
    + intros [Hb | Hb]; apply not_bool_true in Hb; rewrite Hb;
        [reflexivity | rewrite orb_true_r; reflexivity].
    + intros Hs Hv. apply not_bool_false in Hs, Hv. rewrite Hs, Hv. reflexivity.
  - intros Hb. apply not_bool_true in Hb.
    unfold __invert__. rewrite logical_unary_run, Hb. reflexivity.
  - intros Hb. apply not_bool_false in Hb.
    unfold __invert__. rewrite logical_unary_run, Hb. reflexivity.
Qed.

Lemma for_each_reduce_chain (mode : string) (keepdims : bool) (axes : list Z) :
  forall (data : T) (tr : list (call T)),
  exists (calls : list (call T)) (r : result T),
    for_each
      (fun data ai =>
         let op := Reduce mode (Some ai) (Some keepdims) in
         rs ← apply_ op [data]; lift (unpack1 rs))
      axes data tr = (r, (tr ++ calls)%list) /\
    reduce_chain mode keepdims data axes calls r.
Proof.
  induction axes as [| ai axes IH]; intros data tr.
  - exists [], (Ok data). split; [| constructor].
    simpl. unfold mret, M_ret. rewrite app_nil_r. reflexivity.
  - cbn [for_each]. unfold mbind at 1, M_bind at 1. cbv zeta in IH |- *.
    rewrite apply_unpack.
    destruct (apply1 (Reduce mode (Some ai) (Some keepdims)) [data]) as [data' | e] eqn:Ha.
    + destruct (IH data' (tr ++ [CallApply (Reduce mode (Some ai) (Some keepdims)) [data]])%list)
        as (calls & r & Hrun & Hchain).
      exists (CallApply (reduce_op mode keepdims ai) [data] :: calls), r. split.
      * rewrite Hrun, <- app_assoc. reflexivity.
      * eapply chain_step; eassumption.
    + exists [CallApply (reduce_op mode keepdims ai) [data]], (Raise e).
      split; [reflexivity | apply chain_stop; assumption].
Qed.

(** What a chain of reductions invokes: the single-axis reductions over
    a prefix of the axes, in order, and over all of them when it
    returns. *)
Lemma reduce_chain_ops (mode : string) (keepdims : bool) (data : T)
    (axes : list Z) (calls : list (call T)) (r : result T) :
  reduce_chain mode keepdims data axes calls r ->
  exists k : nat,
    map op_of calls = map Some (take k (map (reduce_op mode keepdims) axes)) /\
    (is_ok r = true -> k = length axes).
Proof.
  induction 1 as [data | data ai axes data' calls r Ha Hc (k & IHk & IHr) | data ai axes e Ha].
  - exists 0%nat. split; [reflexivity | intros _; reflexivity].
  - exists (S k). split; [simpl; f_equal; exact IHk |].
    intros Hr. simpl. f_equal. auto.
  - exists 1%nat. split; [reflexivity | discriminate].
Qed.

Lemma normalize_axis_sorted (n : Z) (axes : list Z) :
  exists sorted : list Z,
    _normalize_axis n axes true = Ok sorted /\
    Sorted (flip Z.le) sorted /\
    sorted ≡ₚ map (normalized n) axes.
Proof.
  eexists. split; [reflexivity |]. split.
  - apply Sorted_merge_sort. intros x y. unfold flip. lia.
  - rewrite merge_sort_Permutation. reflexivity.
Qed.

Lemma reductions_reduce (f : T -> axis_arg -> bool -> M T T) (mode : string) :
  In (f, mode) reductions -> f = _reduce mode.
Proof.
  unfold reductions. simpl. intros Hin.
  repeat (destruct Hin as [Hin | Hin]; [injection Hin as <- <-; reflexivity |]).
  contradiction.
Qed.

Lemma reduce_iterable_eq (mode : string) (self : T) (axes sorted : list Z)
    (keepdims : bool) (n : Z) (tr : list (call T)) :
  ndim self = Ok n ->
  _normalize_axis n axes true = Ok sorted ->
  _reduce mode self (AxisIterable axes) keepdims tr =
  for_each
    (fun data ai =>
       let op := Reduce mode (Some ai) (Some keepdims) in
       rs ← apply_ op [data]; lift (unpack1 rs))
    sorted self tr.
Proof.
  intros Hn Hs. unfold _reduce. step_lift Hn. step_lift Hs. reflexivity.
Qed.

Lemma reduce_iterable_run (mode : string) (self : T) (axes : list Z)
    (keepdims : bool) (n : Z) :
  ndim self = Ok n ->
  exists sorted : list Z,
    _normalize_axis n axes true = Ok sorted /\
    Sorted (flip Z.le) sorted /\
    sorted ≡ₚ map (normalized n) axes /\
    reduce_chain mode keepdims self sorted
      (snd (run (_reduce mode self (AxisIterable axes) keepdims)))
      (fst (run (_reduce mode self (AxisIterable axes) keepdims))).
Proof.
  intros Hn. destruct (normalize_axis_sorted n axes) as (sorted & Hs & Hsorted & Hperm).
  exists sorted. split; [exact Hs |]. split; [exact Hsorted |]. split; [exact Hperm |].
  unfold run. rewrite (reduce_iterable_eq mode self axes sorted keepdims n [] Hn Hs).
  destruct (for_each_reduce_chain mode keepdims sorted self []) as (calls & r & Hrun & Hc).
  rewrite Hrun. exact Hc.
Qed.

(** The part of C6 that holds of every runtime *)
Lemma reduce_dispatch_generic (f : T -> axis_arg -> bool -> M T T) (mode : string)
    (self : T) (keepdims : bool) :
  In (f, mode) reductions ->
  run (f self AxisNone true) =
    (Raise (AssertionError "can not set axis=None and keepdims=True"), []) /\
  run (f self AxisNone false) =
    (apply1 (Reduce mode None None) [self], [CallApply (Reduce mode None None) [self]]) /\
  (forall (axes : list Z) (n : Z),
     ndim self = Ok n ->
     exists sorted : list Z,
       _normalize_axis n axes true = Ok sorted /\
       Sorted (flip Z.le) sorted /\
       sorted ≡ₚ map (normalized n) axes /\
       reduce_chain mode keepdims self sorted
         (snd (run (f self (AxisIterable axes) keepdims)))
         (fst (run (f self (AxisIterable axes) keepdims))) /\
       (is_ok (fst (run (f self (AxisIterable axes) keepdims))) = true ->
        map op_of (snd (run (f self (AxisIterable axes) keepdims))) =
        map Some (map (reduce_op mode keepdims) sorted))) /\
  (forall axis : Z,
     run (f self (AxisInt axis) keepdims) =
     (apply1 (reduce_op mode keepdims axis) [self],
      [CallApply (reduce_op mode keepdims axis) [self]])).
Proof.
  intros Hin. apply reductions_reduce in Hin. subst f.
  split; [reflexivity |]. split; [| split].
  - unfold run, _reduce. unfold mbind at 1, M_bind at 1, lift at 1.
    cbn [negb assert]. apply apply_unpack.
  - intros axes n Hn.
    destruct (reduce_iterable_run mode self axes keepdims n Hn)
      as (sorted & Hs & Hsorted & Hperm & Hc).
    exists sorted. repeat (split; [assumption |]).
    intros Hok. destruct (reduce_chain_ops _ _ _ _ _ _ Hc) as (k & Hops & Hk).
    rewrite Hops, (Hk Hok), <- (length_map (reduce_op mode keepdims)), firstn_all.
    reflexivity.
  - intros axis. unfold run, _reduce. apply apply_unpack.
Qed.

(** C10, amended: for every tensor whose shape is known, every
    reduction called with an empty iterable of axes returns the tensor
    itself and invokes no primitive, whatever [keepdims] is; on a
    tensor whose shape is not known the call raises the error of
    [ndim]. *)
Theorem reduce_empty_axes (f : T -> axis_arg -> bool -> M T T) (mode : string)
    (self : T) (keepdims : bool) :
  In (f, mode) reductions ->
  (forall shape : list Z,
     _tuple_shape self = Some shape ->
     run (f self (AxisIterable []) keepdims) = (Ok self, [])) /\
  (_tuple_shape self = None ->
   run (f self (AxisIterable []) keepdims) =
   (Raise (ValueError "unkown ndim" []), [])).
Proof.
  intros Hin. apply reductions_reduce in Hin. subst f.
  split; [intros shape Hshape | intros Hshape];
    unfold run, _reduce, ndim; rewrite Hshape; reflexivity.
Qed.

End Generic.

End ArrayMethodFacts.

(* ===================================================================== *)
(** * Reductions over several axes, on shapes *)
(* ===================================================================== *)

Module ShapeFacts.
Import Numpy ArrayMethod DispatchSpec Shapes ArrayMethodFacts.

Lemma drop_axes_from_below (shape : list Z) :
  forall (i : Z) (axes : list Z),
    Forall (fun x => x < i) axes -> drop_axes_from i shape axes = shape.
Proof.
  induction shape as [| d shape IH]; intros i axes Hlt; simpl; [reflexivity |].
  rewrite bool_decide_false.
  - f_equal. apply IH. eapply Forall_impl; [exact Hlt |]. simpl. intros; lia.
  - intros Hin. rewrite Forall_forall in Hlt. specialize (Hlt i Hin). lia.
Qed.

Lemma drop_axes_from_ext (shape : list Z) :
  forall (i : Z) (axes axes' : list Z),
    (forall x, x ∈ axes <-> x ∈ axes') ->
    drop_axes_from i shape axes = drop_axes_from i shape axes'.
Proof.
  induction shape as [| d shape IH]; intros i axes axes' Hext; simpl; [reflexivity |].
  rewrite (IH (i + 1) axes axes' Hext).
  destruct (decide (i ∈ axes)) as [Hin | Hin].
  - rewrite (bool_decide_true (i ∈ axes)) by assumption.
    rewrite (bool_decide_true (i ∈ axes')) by (apply (proj1 (Hext i)); assumption).
    reflexivity.
  - rewrite (bool_decide_false (i ∈ axes)) by assumption.
    rewrite (bool_decide_false (i ∈ axes'))
      by (intros Hc; apply Hin, (proj2 (Hext i)); assumption).
    reflexivity.
Qed.

(** Dropping the axis [a] first and the axes below [a] afterwards drops
    the axes that these indices name in the shape one started from. *)
Lemma drop_axes_from_delete (shape : list Z) :
  forall (i a : Z) (axes : list Z),
    Forall (fun x => x < a) axes ->
    i <= a < i + Z.of_nat (length shape) ->
    drop_axes_from i (delete (Z.to_nat (a - i)) shape) axes =
    drop_axes_from i shape (a :: axes).
Proof.
  induction shape as [| d shape IH]; intros i a axes Hlt Ha; simpl in Ha; [lia |].
  destruct (decide (a = i)) as [-> | Hne].
  - replace (Z.to_nat (i - i)) with 0%nat by lia. simpl.
    rewrite bool_decide_true by (apply elem_of_cons; left; reflexivity).
    rewrite drop_axes_from_below by exact Hlt.
    rewrite drop_axes_from_below; [reflexivity |].
    constructor; [lia |]. eapply Forall_impl; [exact Hlt |]. simpl. intros; lia.
  - replace (Z.to_nat (a - i)) with (S (Z.to_nat (a - (i + 1)))) by lia. simpl.
    rewrite (IH (i + 1) a axes Hlt) by lia.
    destruct (decide (i ∈ axes)) as [Hin | Hin].
    + rewrite (bool_decide_true (i ∈ axes)) by assumption.
      rewrite (bool_decide_true (i ∈ a :: axes))
        by (apply elem_of_cons; right; assumption).
      reflexivity.
    + rewrite (bool_decide_false (i ∈ axes)) by assumption.
      rewrite (bool_decide_false (i ∈ a :: axes)); [reflexivity |].
      intros Hc. apply elem_of_cons in Hc. destruct Hc as [Hc | Hc]; [lia | contradiction].
Qed.

Lemma apply1_reduce_shape (mode : string) (dt : Numpy.dtype) (shape : list Z) (a : Z) :
  0 <= a < Z.of_nat (length shape) ->
  apply1 (Reduce mode (Some a) (Some false)) [Tensor dt (Some shape)] =
  Ok (Tensor dt (Some (delete (Z.to_nat a) shape))).
Proof.
  intros Ha. unfold apply1. simpl. unfold reduce_shape.
  destruct (a <? 0) eqn:E0; [lia |].
  destruct (0 <=? a) eqn:E1; [| lia].
  destruct (a <? Z.of_nat (length shape)) eqn:E2; [| lia].
  reflexivity.
Qed.

(** Reducing over strictly descending axes, one at a time, drops from
    the shape the extents at these indices. *)
Lemma for_each_reduce_shape (mode : string) (dt : Numpy.dtype) (axes : list Z) :
  forall (shape : list Z) (tr : list (call tensor)),
    StronglySorted (fun x y => y < x) axes ->
    Forall (fun a => 0 <= a < Z.of_nat (length shape)) axes ->
    fst (for_each
           (fun data ai =>
              let op := Reduce mode (Some ai) (Some false) in
              rs ← apply_ op [data]; lift (unpack1 rs))
           axes (Tensor dt (Some shape)) tr) =
    Ok (Tensor dt (Some (drop_axes shape axes))).
Proof.
  induction axes as [| a axes IH]; intros shape tr Hsorted Hrange.
  - simpl. unfold drop_axes. rewrite drop_axes_from_below by constructor. reflexivity.
  - apply StronglySorted_inv in Hsorted. destruct Hsorted as [Hsorted Hlt].
    apply Forall_cons in Hrange. destruct Hrange as [Ha Hrange].
    cbn [for_each]. unfold mbind at 1, M_bind at 1. cbv zeta in IH |- *.
    rewrite apply_unpack, apply1_reduce_shape by exact Ha.
    rewrite IH; [| exact Hsorted |].
    + unfold drop_axes.
      rewrite <- (drop_axes_from_delete shape 0 a axes) by (try exact Hlt; lia).
      replace (a - 0) with a by lia. reflexivity.
    + assert (Hlen : length (delete (Z.to_nat a) shape) = (length shape - 1)%nat).
      { apply length_delete. apply lookup_lt_is_Some. lia. }
      rewrite Hlen. rewrite Forall_forall in Hrange, Hlt. apply Forall_forall.
      intros x Hx. specialize (Hrange x Hx). specialize (Hlt x Hx). lia.
Qed.

Lemma sorted_nodup_strict (l : list Z) :
  Sorted (flip Z.le) l -> NoDup l -> StronglySorted (fun x y => y < x) l.
Proof.
  intros Hs Hn. apply Sorted_StronglySorted in Hs.
  2: { intros x y z. unfold flip. lia. }
  induction Hs as [| a l Hs IH Hle]; [constructor |].
  apply NoDup_cons in Hn. destruct Hn as [Hnotin Hn].
  constructor; [apply IH; exact Hn |].
  rewrite Forall_forall in Hle. apply Forall_forall. intros x Hx.
  specialize (Hle x Hx). unfold flip in Hle.
  assert (x <> a) by (intros ->; contradiction). lia.
Qed.

(** The part of C6 on shapes: with axes that are in range and name
    different dimensions, the reduction over an iterable of axes, one
    axis at a time in descending order, returns the tensor whose shape
    is the given shape without the extents at the normalised axes: each
    axis index has been applied to the dimension it names in the
    operand of the call. *)
Lemma reduce_axes_shape (mode : string) (dt : Numpy.dtype) (shape : list Z)
    (axes : list Z) :
  let n := Z.of_nat (length shape) in
  Forall (fun a => - n <= a < n) axes ->
  NoDup (map (normalized n) axes) ->
  fst (run (_reduce mode (Tensor dt (Some shape)) (AxisIterable axes) false)) =
  Ok (Tensor dt (Some (drop_axes shape (map (normalized n) axes)))).
Proof.
  intros n Hrange Hnodup.
  destruct (normalize_axis_sorted n axes) as (sorted & Hs & Hsorted & Hperm).
  unfold run.
  rewrite (reduce_iterable_eq mode (Tensor dt (Some shape)) axes sorted false n [])
    by (reflexivity || exact Hs).
  rewrite for_each_reduce_shape.
  - unfold drop_axes. do 3 f_equal. apply drop_axes_from_ext.
    intros x. rewrite Hperm. reflexivity.
  - apply sorted_nodup_strict; [exact Hsorted |]. rewrite Hperm. exact Hnodup.
  - rewrite Hperm. apply Forall_fmap. eapply Forall_impl; [exact Hrange |].
    simpl. intros a Ha. unfold normalized. fold n. destruct (a <? 0) eqn:E; lia.
Qed.

(** [x.sum(axis=(1, -1))] on a tensor of shape [(2, 3, 4, 5)]: the axes
    are normalised to [3] and [1], and reduced in this order. *)
Example sum_axes_1_minus_1 :
  run (sum (float_tensor [2; 3; 4; 5]) (AxisIterable [1; -1]) false) =
  (Ok (float_tensor [2; 4]),
   [CallApply (Reduce "sum" (Some 3) (Some false)) [float_tensor [2; 3; 4; 5]];
    CallApply (Reduce "sum" (Some 1) (Some false)) [float_tensor [2; 3; 4]]]).
Proof. reflexivity. Qed.

(** In ascending order the second index would name another dimension:
    after the axis [1] is dropped, the shape is [(2, 4, 5)] and the
    axis [3] is out of range. *)
Example ascending_order_invalidates :
  (t ← apply1 (Reduce "sum" (Some 1) (Some false)) [float_tensor [2; 3; 4; 5]];
   apply1 (Reduce "sum" (Some 3) (Some false)) [t]) =
  Raise (ValueError "axis {} is out of range" [Int 3]).
Proof. reflexivity. Qed.

(** C6: every reduction ([sum], [prod], [min], [max], [mean]) called
    with [axis=None] and [keepdims=True] fails, with the assertion's
    usage error and without a call; with [axis=None] and
    [keepdims=False] it makes one primitive call, a reduction over all
    elements; with an iterable of axes it normalises the axes against
    the rank of the tensor into descending order and makes one
    single-axis reduction call per axis, in that order, each on the
    result of the call before it; with a single axis, negative or not,
    it makes exactly one reduction call, on that axis as it is given.
    The last part states why the order is descending: on shapes, with
    axes that are in range and distinct, every call collapses the
    dimension that its axis names in the tensor one started from. *)
Theorem reduce_dispatch :
  (forall (T : Type) (mixin : ArrayMethodMixin T) (rt : Runtime T)
          (f : T -> axis_arg -> bool -> M T T) (mode : string)
          (self : T) (keepdims : bool),
     In (f, mode) reductions ->
     run (f self AxisNone true) =
       (Raise (AssertionError "can not set axis=None and keepdims=True"), []) /\
     run (f self AxisNone false) =
       (apply1 (Reduce mode None None) [self],
        [CallApply (Reduce mode None None) [self]]) /\
     (forall (axes : list Z) (n : Z),
        ndim self = Ok n ->
        exists sorted : list Z,
          _normalize_axis n axes true = Ok sorted /\
          Sorted (flip Z.le) sorted /\
          sorted ≡ₚ map (normalized n) axes /\
          reduce_chain mode keepdims self sorted
            (snd (run (f self (AxisIterable axes) keepdims)))
            (fst (run (f self (AxisIterable axes) keepdims))) /\
          (is_ok (fst (run (f self (AxisIterable axes) keepdims))) = true ->
           map op_of (snd (run (f self (AxisIterable axes) keepdims))) =
           map Some (map (reduce_op mode keepdims) sorted))) /\
     (forall axis : Z,
        run (f self (AxisInt axis) keepdims) =
        (apply1 (reduce_op mode keepdims axis) [self],
         [CallApply (reduce_op mode keepdims axis) [self]]))) /\
  (forall (mode : string) (dt : Numpy.dtype) (shape : list Z) (axes : list Z),
     let n := Z.of_nat (length shape) in
     Forall (fun a => - n <= a < n) axes ->
     NoDup (map (normalized n) axes) ->
     fst (run (_reduce mode (Tensor dt (Some shape)) (AxisIterable axes) false)) =
     Ok (Tensor dt (Some (drop_axes shape (map (normalized n) axes))))).
Proof.
  split.
  - intros T mixin rt f mode self keepdims Hin.
    exact (reduce_dispatch_generic f mode self keepdims Hin).
  - intros mode dt shape axes. exact (reduce_axes_shape mode dt shape axes).
Qed.

(** C10, as stated, fails: on a tensor whose shape is not known, [sum]
    with the empty tuple of axes raises the error of [ndim] instead of
    returning the tensor. *)
Lemma reduce_empty_axes_unknown_shape :
  run (sum unknown_shape_tensor (AxisIterable []) false) =
    (Raise (ValueError "unkown ndim" []), []) /\
  ~ (forall (T : Type) (mixin : ArrayMethodMixin T) (rt : Runtime T)
            (f : T -> axis_arg -> bool -> M T T) (mode : string)
            (self : T) (keepdims : bool),
       In (f, mode) reductions ->
       run (f self (AxisIterable []) keepdims) = (Ok self, [])).
Proof.
  split; [reflexivity |]. intros Hall.
  specialize (Hall tensor _ _ sum "sum" unknown_shape_tensor false).
  assert (Hin : In (sum, "sum") (@reductions tensor _ _)) by (left; reflexivity).
  specialize (Hall Hin). discriminate.
Qed.

End ShapeFacts.

(* ===================================================================== *)
(** * The theorems at concrete inputs *)
(* ===================================================================== *)

Module Concrete.
Import IEEE754 Numpy Dtype QuantSpec DtypeFacts.
Import ArrayMethod DispatchSpec Shapes ArrayMethodFacts ShapeFacts.

(** [qint8] is signed: a zero-point is ignored. *)
Lemma signed_zero_point_ignored_qint8 :
  is_unsigned qint8_meta = false /\
  create_quantized_dtype qint8_meta float_0_1 (Some (IntN 5)) =
  Ok (Dtype "int8" (Some (MgbDtype "QuantizedS8" float_0_1 None))).
Proof.
  split; [reflexivity |].
  exact (proj1 (signed_zero_point_ignored qint8_meta float_0_1 (Some (IntN 5)) eq_refl)
           "QuantizedS8" eq_refl).
Defined.

Lemma integral_128 : integral (IntN 128) 128.
Proof. exists (inject_Z 128). split; reflexivity. Defined.

(** [quint8] accepts the zero-point [128]; [quint2] has no
    external-format name and is rejected. *)
Lemma create_quantized_dtype_failures_quint8 :
  (exists (n : number) (z : Z),
     Some (IntN 128) = Some n /\ integral n z /\
     qmin quint8_meta <= z <= qmax quint8_meta /\
     create_quantized_dtype quint8_meta float_0_1 (Some (IntN 128)) =
     Ok (Dtype (np_dtype_str quint8_meta)
           (Some (MgbDtype "Quantized8Asymm" float_0_1 (Some z))))) /\
  fails (create_quantized_dtype
           (mkQuantDtypeMeta "quint2" None "uint8" 0 3 true) float_0_1 (Some (IntN 1))).
Proof.
  split.
  - destruct (create_quantized_dtype_failures quint8_meta float_0_1 (Some (IntN 128)))
      as (_ & _ & _ & Hu & _).
    destruct (Hu "Quantized8Asymm" eq_refl eq_refl) as [_ Hok].
    apply Hok. apply (not_bad_zero_point quint8_meta (IntN 128) 128).
    + exact integral_128.
    + simpl. lia.
  - destruct (create_quantized_dtype_failures
                (mkQuantDtypeMeta "quint2" None "uint8" 0 3 true) float_0_1 (Some (IntN 1)))
      as (Hnone & _).
    exact (Hnone eq_refl).
Defined.

(** The round trip of [0.1 * 3] *)
Lemma quint8_roundtrip_3 :
  0 <= 3 + 128 <= 255 /\
  exists q : Numpy.dtype,
    quint8 float_0_1 (Some (IntN 128)) = Ok q /\
    convert_from_quint8 (Ndarray (quantized_of q (3 + 128))) =
    Ok (array_of float32 (scaled float32 float_0_1 3)) /\
    roundtrip_quint8 (array_of float32 (scaled float32 float_0_1 3)) q =
    Ok (array_of float32 (scaled float32 float_0_1 3)).
Proof.
  assert (Hk : 0 <= 3 + 128 <= 255) by lia.
  split; [exact Hk |].
  destruct quint8_roundtrip as (q & Hq & _ & _ & Hall).
  exists q. split; [exact Hq |].
  destruct (Hall 3 Hk) as (_ & Hfrom & Hrt). split; assumption.
Defined.


(** A rank-4 by rank-2 product without transposition takes the plain path. *)
Lemma matmul_dispatch_path_4_2 :
  exists c : call tensor,
    snd (run (_matmul (float_tensor [2; 3; 4; 5]) (float_tensor [5; 2])
                false false "default" "default")) = [c] /\
    path_of c = Some PlainPath.
Proof.
  assert (H1 : ndim (float_tensor [2; 3; 4; 5]) = Ok 4) by reflexivity.
  assert (H2 : ndim (float_tensor [5; 2]) = Ok 2) by reflexivity.
  destruct (matmul_dispatch_path (float_tensor [2; 3; 4; 5]) (float_tensor [5; 2])
              false false "default" "default" 4 2 H1 H2)
    as (c & Hc & Hp & _); [lia | lia |].
  exists c. split; [exact Hc | exact Hp].
Defined.

(** [&] on a float tensor and a bool tensor raises; on two bool tensors
    it makes one call. *)
Lemma logical_operators_require_bool_and :
  run (__and__ (float_tensor [2]) (bool_tensor [2])) =
    (Raise (TypeError "{} requires 2 bool tensors" [mode_value AND]), []) /\
  run (__and__ (bool_tensor [2]) (bool_tensor [2])) =
    (Ok (bool_tensor [2]),
     [CallApply (Elemwise AND) [bool_tensor [2]; bool_tensor [2]]]).
Proof.
  assert (Hin : In (__and__, AND, false) (@logical_binary_operators tensor _ _))
    by (left; reflexivity).
  split.
  - destruct (logical_operators_require_bool (float_tensor [2]) (bool_tensor [2]))
      as (Hbin & _).
    apply (proj1 (Hbin __and__ AND false Hin)).
    left. unfold is_bool. simpl. discriminate.
  - destruct (logical_operators_require_bool (bool_tensor [2]) (bool_tensor [2]))
      as (Hbin & _).
    exact (proj2 (Hbin __and__ AND false Hin) eq_refl eq_refl).
Defined.

(** [sum] over the axes [(1, -1)] of a tensor of shape [(2, 3, 4, 5)] *)
Lemma reduce_dispatch_sum :
  fst (run (_reduce "sum" (float_tensor [2; 3; 4; 5]) (AxisIterable [1; -1]) false)) =
  Ok (float_tensor [2; 4]) /\
  run (sum (float_tensor [2; 3; 4; 5]) AxisNone true) =
  (Raise (AssertionError "can not set axis=None and keepdims=True"), []).
Proof.
  destruct reduce_dispatch as [Hgen Hshape]. split.
  - apply (Hshape "sum" (Dtype "float32" None) [2; 3; 4; 5] [1; -1]).
    + repeat constructor; simpl; lia.
    + simpl. apply NoDup_cons. split; [| apply NoDup_singleton].
      intros Hc. apply list_elem_of_singleton in Hc. discriminate.
  - assert (Hin : In (sum, "sum") (@reductions tensor _ _)) by (left; reflexivity).
    exact (proj1 (Hgen tensor _ _ sum "sum" (float_tensor [2; 3; 4; 5]) false Hin)).
Defined.

(** [sum] over no axis of a tensor of known shape *)
Lemma reduce_empty_axes_sum :
  run (sum (float_tensor [2; 3]) (AxisIterable []) true) = (Ok (float_tensor [2; 3]), []).
Proof.
  assert (Hin : In (sum, "sum") (@reductions tensor _ _)) by (left; reflexivity).
  exact (proj1 (reduce_empty_axes sum "sum" (float_tensor [2; 3]) true Hin)
           [2; 3] eq_refl).
Defined.

End Concrete.

(* ===================================================================== *)
(** * Properties of [get_dtype_bit] *)
(* ===================================================================== *)

Module DtypeBitsFacts.
Import DtypeBits.

#[local] Arguments String.append : simpl nomatch.

Lemma append_assoc (a b c : string) : (a ++ b) ++ c = a ++ (b ++ c).
Proof. induction a as [|x a IH]; simpl; [reflexivity | now rewrite IH]. Qed.

Lemma append_nil_r (a : string) : a ++ EmptyString = a.
Proof. induction a as [|x a IH]; simpl; [reflexivity | now rewrite IH]. Qed.

(** A string of digits extends the run that is being read. *)
Lemma findall_digits_run (ds : string) :
  forall (run s : string),
    all_chars is_digit ds = true ->
    findall_digits run (ds ++ s) = findall_digits (run ++ ds) s.
Proof.
  induction ds as [|c ds IH]; intros run s Hd; simpl in *.
  - now rewrite append_nil_r.
  - apply andb_prop in Hd as [Hc Hd]. rewrite Hc. rewrite IH by assumption.
    now rewrite append_assoc.
Qed.

(** Characters that are not digits are skipped when no run is open. *)
Lemma findall_digits_skip (p : string) :
  forall s : string,
    digit_free p ->
    findall_digits EmptyString (p ++ s) = findall_digits EmptyString s.
Proof.
  unfold digit_free.
  induction p as [|c p IH]; intros s Hp; simpl in *; [reflexivity|].
  apply andb_prop in Hp as [Hc Hp].
  apply negb_true_iff in Hc. rewrite Hc. now apply IH.
Qed.

(** A character that is not a digit closes the open run. *)
Lemma findall_digits_close (run : string) (c : ascii) (s : string) :
  run <> EmptyString -> is_digit c = false ->
  findall_digits run (String c s) = run :: findall_digits EmptyString s.
Proof.
  intros Hrun Hc. simpl. rewrite Hc. destruct run; [contradiction | reflexivity].
Qed.

(** An open run is always reported. *)
Lemma findall_digits_open (s : string) :
  forall run : string,
    run <> EmptyString ->
    exists r rest, findall_digits run s = r :: rest.
Proof.
  induction s as [|c s IH]; intros run Hrun; simpl.
  - destruct run; [contradiction | eauto].
  - destruct (is_digit c).
    + apply IH. destruct run; discriminate.
    + destruct run; [contradiction | eauto].
Qed.

Lemma digit_free_end (q : string) :
  forall run : string,
    run <> EmptyString -> digit_free q -> findall_digits run q = [run].
Proof.
  intros run Hrun Hq. destruct q as [|c q].
  - simpl. destruct run; [contradiction | reflexivity].
  - unfold digit_free in Hq. simpl in Hq. apply andb_prop in Hq as [Hc Hq].
    apply negb_true_iff in Hc.
    rewrite findall_digits_close by assumption.
    rewrite <- (append_nil_r q), findall_digits_skip by exact Hq. reflexivity.
Qed.

Lemma int_of_digits_nonneg (s : string) :
  forall acc : Z,
    0 <= acc -> all_chars is_digit s = true -> 0 <= int_of_digits acc s.
Proof.
  induction s as [|c s IH]; intros acc Hacc Hs; simpl in *; [assumption|].
  apply andb_prop in Hs as [Hc Hs]. apply IH; [|assumption].
  unfold is_digit in Hc. apply andb_prop in Hc as [H1 H2].
  apply Nat.leb_le in H1. lia.
Qed.

Lemma special_cases_lookup (s : string) :
  special_cases !! s = if String.eqb s "bool" then Some 1 else None.
Proof.
  unfold special_cases. destruct (String.eqb_spec s "bool") as [->|Hne].
  - apply lookup_singleton_eq.
  - apply lookup_singleton_ne. congruence.
Qed.

(** A name that is looked up in [special_cases] holds no digit. *)
Lemma special_case_digit_free (s : string) (bits : Z) :
  special_cases !! s = Some bits -> s = "bool" /\ bits = 1 /\ digit_free s.
Proof.
  rewrite special_cases_lookup. destruct (String.eqb_spec s "bool") as [->|]; [|discriminate].
  intros [= <-]. repeat split.
Qed.

Lemma digit_free_app (p q : string) :
  digit_free p -> digit_free q -> digit_free (p ++ q).
Proof.
  unfold digit_free. induction p as [|c p IH]; simpl; [auto|].
  intros [Hc Hp]%andb_prop Hq. rewrite Hc. simpl. auto.
Qed.

(** A string with a digit in it is not digit-free. *)
Lemma digits_not_free (p ds q : string) :
  digits ds -> ~ digit_free (p ++ ds ++ q).
Proof.
  intros [Hne Hd]. unfold digit_free.
  induction p as [|c p IH]; simpl.
  - destruct ds as [|d ds]; [contradiction|]. simpl in *.
    apply andb_prop in Hd as [Hd _]. rewrite Hd. simpl. discriminate.
  - intros [_ H]%andb_prop. auto.
Qed.

(** [get_dtype_bit] on a name with exactly one run of digits: the value
    of the run, whatever stands before and after it. *)
Theorem get_dtype_bit_single_run (p ds q : string) :
  digit_free p -> digits ds -> digit_free q ->
  get_dtype_bit (p ++ ds ++ q) = Ok (int_of_digits 0 ds) /\
  0 <= int_of_digits 0 ds.
Proof.
  intros Hp Hds Hq. split.
  - unfold get_dtype_bit.
    destruct (special_cases !! (p ++ ds ++ q)) as [bits|] eqn:Hs.
    + apply special_case_digit_free in Hs as (_ & _ & Hfree).
      now apply digits_not_free in Hfree.
    + destruct Hds as [Hne Hd].
      rewrite findall_digits_skip by assumption.
      rewrite findall_digits_run by assumption. simpl.
      rewrite digit_free_end by (assumption || (destruct ds; [contradiction | discriminate])).
      reflexivity.
  - destruct Hds as [_ Hd]. now apply int_of_digits_nonneg.
Qed.

Lemma get_dtype_bit_float32 :
  (digit_free "float" /\ digits "32" /\ digit_free EmptyString) /\
  get_dtype_bit "float32" = Ok 32 /\ 0 <= 32.
Proof.
  assert (H1 : digit_free "float") by reflexivity.
  assert (H2 : digits "32") by (split; [discriminate | reflexivity]).
  assert (H3 : digit_free EmptyString) by reflexivity.
  split; [auto|]. exact (get_dtype_bit_single_run "float" "32" EmptyString H1 H2 H3).
Defined.

(** [get_dtype_bit] gives a result only for [bool] and for a name with
    exactly one run of digits: a name without a digit, other than
    [bool], and a name with two runs of digits or more fail the
    assertion. *)
Theorem get_dtype_bit_failures :
  get_dtype_bit "bool" = Ok 1 /\
  (forall s : string,
     digit_free s -> s <> "bool" ->
     get_dtype_bit s =
     Raise (AssertionError "Unsupport dtype name with more than one number.")) /\
  (forall (p ds1 : string) (c : ascii) (m ds2 rest : string),
     digit_free p -> digits ds1 -> is_digit c = false -> digit_free m ->
     digits ds2 ->
     get_dtype_bit (p ++ ds1 ++ String c m ++ ds2 ++ rest) =
     Raise (AssertionError "Unsupport dtype name with more than one number.")).
Proof.
  split; [reflexivity|]. split.
  - intros s Hs Hne. unfold get_dtype_bit.
    rewrite special_cases_lookup.
    destruct (String.eqb_spec s "bool"); [contradiction|].
    rewrite <- (append_nil_r s), findall_digits_skip by assumption. reflexivity.
  - intros p ds1 c m ds2 rest Hp Hd1 Hc Hm Hd2. unfold get_dtype_bit.
    destruct (special_cases !! _) as [bits|] eqn:Hs.
    + apply special_case_digit_free in Hs as (_ & _ & Hfree).
      now apply digits_not_free in Hfree.
    + destruct Hd1 as [Hne1 Hd1]. destruct Hd2 as [Hne2 Hd2].
      rewrite findall_digits_skip by assumption.
      rewrite findall_digits_run by assumption.
      change (EmptyString ++ ds1) with ds1.
      change (String c m ++ ds2 ++ rest) with (String c (m ++ ds2 ++ rest)).
      rewrite findall_digits_close
        by (assumption || (destruct ds1; [contradiction | discriminate])).
      rewrite findall_digits_skip by assumption.
      rewrite findall_digits_run by assumption.
      change (EmptyString ++ ds2) with ds2.
      destruct (findall_digits_open rest ds2) as (r & l & ->);
        [destruct ds2; [contradiction | discriminate]|].
      replace (Z.of_nat (length (ds1 :: r :: l)) =? 1) with false
        by (symmetry; apply Z.eqb_neq; cbn [length]; lia).
      reflexivity.
Qed.

End DtypeBitsFacts.

(* ===================================================================== *)
(** * Properties of the conversions of [dtype.py] *)
(* ===================================================================== *)

Module ConversionFacts.
Import IEEE754 Numpy Dtype QuantSpec ConversionSpec.

Lemma mismatch_cases (q : dtype) (m : QuantDtypeMeta) :
  mismatch q m =
  Ok (match metadata q with
      | Some md => negb (bool_decide (Some (md_name md) = cname m))
      | None => true
      end).
Proof.
  unfold mismatch, is_quantize, mgb_dtype_of. destruct (metadata q); reflexivity.
Qed.

Lemma accepts_matches (m : QuantDtypeMeta) (q : dtype) :
  accepts m q <-> exists scale zp, matches q m scale zp.
Proof.
  split.
  - intros (md & Hmd & Hc & Hz).
    exists (md_scale md), (default 0 (md_zero_point md)), md.
    split; [exact Hmd|]. split; [exact Hc|]. split; [reflexivity|].
    intros Hu. destruct (Hz Hu) as [z ->]. reflexivity.
  - intros (scale & zp & md & Hmd & Hc & _ & Hz).
    exists md. split; [exact Hmd|]. split; [exact Hc|].
    intros Hu. rewrite (Hz Hu). eauto.
Qed.

(** The three outcomes of the checks that both conversions make on the
    type [q] of the codes *)
Lemma checks_cases (m : QuantDtypeMeta) (q : dtype) :
  (accepts m q) \/
  (mismatch q m = Ok true) \/
  (mismatch q m = Ok false /\ is_unsigned m = true /\
   exists md, metadata q = Some md /\ md_zero_point md = None).
Proof.
  rewrite mismatch_cases. destruct (metadata q) as [md|] eqn:Hmd; [|auto].
  destruct (decide (Some (md_name md) = cname m)) as [Hc|Hc].
  - rewrite bool_decide_true by assumption.
    destruct (is_unsigned m) eqn:Hu.
    + destruct (md_zero_point md) as [z|] eqn:Hz.
      * left. exists md. rewrite Hz. split; [exact Hmd|]. split; [congruence|eauto].
      * right. right. split; [reflexivity|]. split; [reflexivity|]. exists md. auto.
    + left. exists md. split; [exact Hmd|]. split; [congruence|intros; congruence].
  - rewrite bool_decide_false by assumption. auto.
Qed.

Lemma accepts_not_mismatch (m : QuantDtypeMeta) (q : dtype) :
  accepts m q -> mismatch q m = Ok false.
Proof.
  intros (md & Hmd & Hc & _). rewrite mismatch_cases, Hmd.
  rewrite bool_decide_true by (symmetry; exact Hc). reflexivity.
Qed.

Lemma to_quantized_accepted (m : QuantDtypeMeta) (q : dtype) (arr : ndarray) :
  accepts m q ->
  exists codes,
    _convert_to_quantized_dtype (Ndarray arr) q m = Ok (NdInt q (shape_of arr) codes) /\
    length codes = size_of arr.
Proof.
  intros Ha. pose proof (accepts_not_mismatch m q Ha) as Hmis.
  destruct Ha as (md & Hmd & Hc & Hz).
  unfold _convert_to_quantized_dtype. rewrite Hmis. simpl.
  unfold mgb_dtype_of. rewrite Hmd. simpl.
  destruct (is_unsigned m) eqn:Hu.
  - destruct (Hz eq_refl) as [z Hzp]. unfold zero_point_of. rewrite Hzp. simpl.
    eexists. split; [unfold astype; simpl; destruct arr; reflexivity|].
    destruct arr; simpl; now rewrite !length_map.
  - eexists. split; [unfold astype; simpl; destruct arr; reflexivity|].
    destruct arr; simpl; now rewrite !length_map.
Qed.

Lemma from_quantized_accepted (m : QuantDtypeMeta) (arr : ndarray) :
  accepts m (dtype_of arr) ->
  exists values,
    _convert_from_quantized_dtype (Ndarray arr) m =
      Ok (NdFloat (FloatArray float32 (shape_of arr) values)) /\
    length values = size_of arr.
Proof.
  intros Ha. pose proof (accepts_not_mismatch m _ Ha) as Hmis.
  destruct Ha as (md & Hmd & Hc & Hz).
  unfold _convert_from_quantized_dtype. rewrite Hmis. simpl.
  unfold mgb_dtype_of. rewrite Hmd. simpl.
  destruct (is_unsigned m) eqn:Hu.
  - destruct (Hz eq_refl) as [z Hzp]. unfold zero_point_of. rewrite Hzp. simpl.
    eexists. split; [destruct arr; reflexivity|].
    destruct arr; simpl; now rewrite !length_map.
  - eexists. split; [destruct arr; reflexivity|].
    destruct arr; simpl; now rewrite !length_map.
Qed.

Lemma to_quantized_rejected (m : QuantDtypeMeta) (q : dtype) (arr : ndarray) :
  ~ accepts m q ->
  exists e, _convert_to_quantized_dtype (Ndarray arr) q m = Raise e /\
    (e = ValueError "dtype parameter should be a {} dtype" [repr m] \/
     (e = KeyError "zero_point" /\ is_unsigned m = true /\
      exists md, metadata q = Some md /\ md_zero_point md = None)).
Proof.
  intros Hna.
  destruct (checks_cases m q) as [Ha | [Hmis | (Hmis & Hu & md & Hmd & Hz)]].
  - contradiction.
  - eexists. split; [|left; reflexivity].
    unfold _convert_to_quantized_dtype. rewrite Hmis. reflexivity.
  - eexists. split; [|right; eauto].
    unfold _convert_to_quantized_dtype. rewrite Hmis. simpl.
    unfold mgb_dtype_of. rewrite Hmd. simpl. rewrite Hu.
    unfold zero_point_of. rewrite Hz. reflexivity.
Qed.

Lemma from_quantized_rejected (m : QuantDtypeMeta) (arr : ndarray) :
  ~ accepts m (dtype_of arr) ->
  exists e, _convert_from_quantized_dtype (Ndarray arr) m = Raise e /\
    (e = ValueError "arr's dtype should be a {} dtype" [repr m] \/
     (e = KeyError "zero_point" /\ is_unsigned m = true /\
      exists md, metadata (dtype_of arr) = Some md /\ md_zero_point md = None)).
Proof.
  intros Hna.
  destruct (checks_cases m (dtype_of arr))
    as [Ha | [Hmis | (Hmis & Hu & md & Hmd & Hz)]].
  - contradiction.
  - eexists. split; [|left; reflexivity].
    unfold _convert_from_quantized_dtype. rewrite Hmis. reflexivity.
  - eexists. split; [|right; eauto].
    unfold _convert_from_quantized_dtype. rewrite Hmis. simpl.
    unfold mgb_dtype_of. rewrite Hmd. simpl. rewrite Hu.
    unfold zero_point_of. rewrite Hz. reflexivity.
Qed.

Lemma accepts_dec (m : QuantDtypeMeta) (q : dtype) : accepts m q \/ ~ accepts m q.
Proof.
  destruct (checks_cases m q) as [Ha | [Hmis | (Hmis & Hu & md & Hmd & Hz)]].
  - auto.
  - right. intros Ha. apply accepts_not_mismatch in Ha. congruence.
  - right. intros (md' & Hmd' & _ & Hz'). rewrite Hmd in Hmd'. injection Hmd' as <-.
    destruct (Hz' Hu) as [z Hzz]. congruence.
Qed.

Lemma to_quantized_ok_iff (m : QuantDtypeMeta) (q : dtype) (arr : ndarray) :
  is_ok (_convert_to_quantized_dtype (Ndarray arr) q m) = true <-> accepts m q.
Proof.
  split.
  - intros Hok. destruct (accepts_dec m q) as [Ha | Hna]; [exact Ha|].
    destruct (to_quantized_rejected m q arr Hna) as (e & He & _).
    rewrite He in Hok. discriminate.
  - intros Ha. destruct (to_quantized_accepted m q arr Ha) as (codes & -> & _).
    reflexivity.
Qed.

Lemma from_quantized_ok_iff (m : QuantDtypeMeta) (arr : ndarray) :
  is_ok (_convert_from_quantized_dtype (Ndarray arr) m) = true <->
  accepts m (dtype_of arr).
Proof.
  split.
  - intros Hok. destruct (accepts_dec m (dtype_of arr)) as [Ha | Hna]; [exact Ha|].
    destruct (from_quantized_rejected m arr Hna) as (e & He & _).
    rewrite He in Hok. discriminate.
  - intros Ha. destruct (from_quantized_accepted m arr Ha) as (values & -> & _).
    reflexivity.
Qed.


(** [_convert_from_quantized_dtype] on an array succeeds exactly when
    the descriptor accepts the type of the array; the result is then a
    [float32] array of the same shape and with as many elements; an
    array of a float type, which carries no stamp, is always
    rejected. *)
Theorem convert_from_outcome (arr : ndarray) (m : QuantDtypeMeta) :
  (is_ok (_convert_from_quantized_dtype (Ndarray arr) m) = true <->
   accepts m (dtype_of arr)) /\
  (accepts m (dtype_of arr) ->
   exists values,
     _convert_from_quantized_dtype (Ndarray arr) m =
       Ok (NdFloat (FloatArray float32 (shape_of arr) values)) /\
     length values = size_of arr) /\
  (forall e, _convert_from_quantized_dtype (Ndarray arr) m = Raise e ->
     e = ValueError "arr's dtype should be a {} dtype" [repr m] \/
     (e = KeyError "zero_point" /\ is_unsigned m = true /\
      exists md, metadata (dtype_of arr) = Some md /\ md_zero_point md = None)) /\
  (forall a : float_array,
     _convert_from_quantized_dtype (Ndarray (NdFloat a)) m =
     Raise (ValueError "arr's dtype should be a {} dtype" [repr m])) /\
  (forall v : Py.value,
     _convert_from_quantized_dtype (Other v) m =
     Raise (ValueError "arr parameter should be instance of np.ndarray" [])).
Proof.
  split; [apply from_quantized_ok_iff|]. split; [apply from_quantized_accepted|].
  split; [|split; reflexivity].
  intros e He. destruct (accepts_dec m (dtype_of arr)) as [Ha | Hna].
  - destruct (from_quantized_accepted m arr Ha) as (values & Hok & _). congruence.
  - destruct (from_quantized_rejected m arr Hna) as (e' & He' & Hcase).
    rewrite He in He'. injection He' as ->. exact Hcase.
Qed.

Lemma created_stamp (m : QuantDtypeMeta) (scale : spec_float)
    (zp : option number) (q : dtype) :
  create_quantized_dtype m scale zp = Ok q ->
  exists (c : string) (z : option Z),
    cname m = Some c /\
    q = Dtype (np_dtype_str m) (Some (MgbDtype c scale z)) /\
    (is_unsigned m = true ->
     exists n i, zp = Some n /\ int_ n = Ok i /\ z = Some i /\ qmin m <= i <= qmax m) /\
    (is_unsigned m = false -> z = None).
Proof.
  unfold create_quantized_dtype. destruct (cname m) as [c|]; [|discriminate].
  destruct (is_unsigned m).
  - destruct zp as [n|]; [|discriminate].
    destruct (int_ n) as [i|] eqn:Hi; [|discriminate]. simpl.
    destruct (int_ne i n); [discriminate|]. simpl.
    unfold _check_zero_point.
    destruct (i <? qmin m) eqn:H1; [discriminate|].
    destruct (i >? qmax m) eqn:H2; [discriminate|]. simpl.
    intros [= <-]. exists c, (Some i).
    split; [reflexivity|]. split; [reflexivity|]. split; [|discriminate].
    intros _. exists n, i. repeat split; auto; lia.
  - intros [= <-]. exists c, None.
    split; [reflexivity|]. split; [reflexivity|]. split; [discriminate | reflexivity].
Qed.

Lemma created_accepts (m1 m2 : QuantDtypeMeta) (scale : spec_float)
    (zp : option number) (q : dtype) :
  create_quantized_dtype m2 scale zp = Ok q ->
  (accepts m1 q <->
   cname m1 = cname m2 /\ (is_unsigned m1 = true -> is_unsigned m2 = true)).
Proof.
  intros Hq. destruct (created_stamp _ _ _ _ Hq) as (c & z & Hc & -> & Hu & Hs).
  split.
  - intros (md & Hmd & Hcm & Hz). simpl in Hmd. injection Hmd as <-. simpl in *.
    split; [congruence|]. intros Hum. destruct (Hz Hum) as [i ->].
    destruct (is_unsigned m2); [reflexivity|]. now specialize (Hs eq_refl).
  - intros [Hcm Hum]. eexists. split; [reflexivity|]. simpl.
    split; [congruence|]. intros H1. destruct (Hu (Hum H1)) as (n & i & _ & _ & -> & _).
    eauto.
Qed.

(** What a successful [create_quantized_dtype] returns: the storage
    type of the descriptor, stamped with its external-format name and
    the scale, and with a zero-point, which lies in [[qmin, qmax]],
    exactly when the descriptor is unsigned. *)
Theorem created_type_stamped (m : QuantDtypeMeta) (scale : spec_float)
    (zp : option number) (q : dtype) :
  create_quantized_dtype m scale zp = Ok q ->
  exists (c : string) (z : option Z),
    cname m = Some c /\
    q = Dtype (np_dtype_str m) (Some (MgbDtype c scale z)) /\
    (is_unsigned m = true ->
     exists n i, zp = Some n /\ int_ n = Ok i /\ z = Some i /\ qmin m <= i <= qmax m) /\
    (is_unsigned m = false -> z = None).
Proof. apply created_stamp. Qed.

(** A type created for the descriptor [m2] is accepted by the
    conversions under the descriptor [m1] exactly when the two share the
    external-format name and [m1] is not unsigned with [m2] signed; in
    particular under [m2] itself. *)
Theorem created_type_accepted (m1 m2 : QuantDtypeMeta) (scale : spec_float)
    (zp : option number) (q : dtype) :
  create_quantized_dtype m2 scale zp = Ok q ->
  (accepts m1 q <->
   cname m1 = cname m2 /\ (is_unsigned m1 = true -> is_unsigned m2 = true)) /\
  accepts m2 q /\
  (forall arr : ndarray,
     is_ok (_convert_to_quantized_dtype (Ndarray arr) q m1) = true <->
     cname m1 = cname m2 /\ (is_unsigned m1 = true -> is_unsigned m2 = true)) /\
  (forall shape data,
     is_ok (_convert_from_quantized_dtype (Ndarray (NdInt q shape data)) m1) = true <->
     cname m1 = cname m2 /\ (is_unsigned m1 = true -> is_unsigned m2 = true)).
Proof.
  intros Hq. pose proof (created_accepts m1 m2 scale zp q Hq) as Hacc.
  split; [exact Hacc|]. split; [apply (created_accepts m2 m2 scale zp q Hq); auto|].
  split.
  - intros arr. rewrite <- Hacc. apply to_quantized_ok_iff.
  - intros shape data. rewrite <- Hacc.
    apply (from_quantized_ok_iff m1 (NdInt q shape data)).
Qed.







End ConversionFacts.

(* ===================================================================== *)
(** * Properties of the named types, the comparisons and kept dimensions *)
(* ===================================================================== *)

Module NamedFacts.
Import IEEE754 Numpy Dtype ArrayMethod Shapes QuantSpec DispatchSpec.
Import ConversionSpec NamedSpec.




Section Comparisons.
Context {T : Type} `{ArrayMethodMixin T} `{Runtime T}.

(** [a < b], [a <= b] and [a == b] invoke the elementwise primitive of
    their mode on the operands in the order written and cast its
    result to bool: two runtime calls, or one when the primitive
    raises. *)
Theorem comparisons_cast_to_bool (a b : T) :
  forall (f : T -> T -> M T T) (mode : ElwMode),
    In (f, mode) comparisons ->
    run (f a b) =
    match apply1 (Elemwise mode) [a; b] with
    | Ok r => (astype_cpp r "bool",
               [CallApply (Elemwise mode) [a; b]; CallAstype r "bool"])
    | Raise e => (Raise e, [CallApply (Elemwise mode) [a; b]])
    end.
Proof.
  intros f mode Hin. unfold comparisons in Hin. simpl in Hin.
  repeat (destruct Hin as [[= <- <-] | Hin];
          [unfold run, __lt__, __le__, __eq__;
           unfold mbind at 1, M_bind at 1; rewrite ArrayMethodFacts.elwise_run;
           destruct (apply1 _ _) as [r | e]; reflexivity|]).
  contradiction.
Qed.

End Comparisons.

(** ** Reductions that keep the reduced dimensions *)

Lemma unit_axes_from_below (shape : list Z) :
  forall (i : Z) (axes : list Z),
    Forall (fun x => x < i) axes -> unit_axes_from i shape axes = shape.
Proof.
  induction shape as [|d shape IH]; intros i axes Hlt; [reflexivity|]. simpl.
  rewrite bool_decide_false.
  - rewrite IH; [reflexivity|]. eapply Forall_impl; [exact Hlt|]. simpl. lia.
  - intros Hin. rewrite Forall_forall in Hlt. specialize (Hlt i Hin). lia.
Qed.

Lemma unit_axes_from_ext (shape : list Z) :
  forall (i : Z) (axes axes' : list Z),
    (forall x, x ∈ axes <-> x ∈ axes') ->
    unit_axes_from i shape axes = unit_axes_from i shape axes'.
Proof.
  induction shape as [|d shape IH]; intros i axes axes' Hext; [reflexivity|]. simpl.
  rewrite (IH (i + 1) axes axes' Hext).
  destruct (decide (i ∈ axes)) as [Hin | Hin].
  - rewrite (bool_decide_true (i ∈ axes)) by exact Hin.
    rewrite (bool_decide_true (i ∈ axes')) by (apply (proj1 (Hext i)); exact Hin).
    reflexivity.
  - rewrite (bool_decide_false (i ∈ axes)) by exact Hin.
    rewrite (bool_decide_false (i ∈ axes'))
      by (intros Hin'; apply Hin, (proj2 (Hext i)); exact Hin').
    reflexivity.
Qed.

Lemma unit_axes_from_insert (shape : list Z) :
  forall (i a : Z) (axes : list Z),
    i <= a < i + Z.of_nat (length shape) ->
    unit_axes_from i (<[Z.to_nat (a - i) := 1]> shape) axes =
    unit_axes_from i shape (a :: axes).
Proof.
  induction shape as [|d shape IH]; intros i a axes Ha; [simpl in Ha; lia|].
  simpl length in Ha.
  destruct (decide (a = i)) as [-> | Hne].
  - replace (Z.to_nat (i - i)) with 0%nat by lia. simpl.
    rewrite (bool_decide_true (i ∈ i :: axes)) by (apply elem_of_cons; auto).
    assert (Hrest : forall s j, i < j ->
              unit_axes_from j s axes = unit_axes_from j s (i :: axes)).
    { clear. induction s as [|e s IHs]; intros j Hj; [reflexivity|]. simpl.
      rewrite <- IHs by lia.
      destruct (decide (j ∈ axes)) as [Hin | Hin].
      - rewrite (bool_decide_true (j ∈ axes)) by exact Hin.
        rewrite (bool_decide_true (j ∈ i :: axes)) by (apply elem_of_cons; auto).
        reflexivity.
      - rewrite (bool_decide_false (j ∈ axes)) by exact Hin.
        rewrite (bool_decide_false (j ∈ i :: axes)); [reflexivity|].
        intros Hc. apply elem_of_cons in Hc as [Hc | Hc]; [lia | contradiction]. }
    rewrite <- Hrest by lia.
    destruct (bool_decide (i ∈ axes)); reflexivity.
  - replace (Z.to_nat (a - i)) with (S (Z.to_nat (a - (i + 1)))) by lia. simpl.
    rewrite IH by lia. f_equal.
    destruct (decide (i ∈ axes)) as [Hin | Hin].
    + rewrite (bool_decide_true (i ∈ axes)) by exact Hin.
      rewrite (bool_decide_true (i ∈ a :: axes)) by (apply elem_of_cons; auto).
      reflexivity.
    + rewrite (bool_decide_false (i ∈ axes)) by exact Hin.
      rewrite (bool_decide_false (i ∈ a :: axes)); [reflexivity|].
      intros Hc. apply elem_of_cons in Hc as [Hc | Hc]; [lia | contradiction].
Qed.

Lemma length_unit_axes_from (shape : list Z) :
  forall (i : Z) (axes : list Z), length (unit_axes_from i shape axes) = length shape.
Proof.
  induction shape as [|d shape IH]; intros i axes; [reflexivity|]. simpl.
  now rewrite IH.
Qed.

Lemma apply1_reduce_keepdim (mode : string) (dt : Numpy.dtype) (shape : list Z) (a : Z) :
  0 <= a < Z.of_nat (length shape) ->
  apply1 (Reduce mode (Some a) (Some true)) [Tensor dt (Some shape)] =
  Ok (Tensor dt (Some (<[Z.to_nat a := 1]> shape))).
Proof.
  intros Ha. unfold apply1. simpl. unfold reduce_shape.
  destruct (a <? 0) eqn:E0; [lia|].
  destruct (0 <=? a) eqn:E1; [|lia].
  destruct (a <? Z.of_nat (length shape)) eqn:E2; [|lia].
  reflexivity.
Qed.

Lemma for_each_reduce_keepdim (mode : string) (dt : Numpy.dtype) (axes : list Z) :
  forall (shape : list Z) (tr : list (call tensor)),
    Forall (fun a => 0 <= a < Z.of_nat (length shape)) axes ->
    fst (for_each
           (fun data ai =>
              let op := Reduce mode (Some ai) (Some true) in
              rs ← apply_ op [data]; lift (unpack1 rs))
           axes (Tensor dt (Some shape)) tr) =
    Ok (Tensor dt (Some (unit_axes shape axes))).
Proof.
  induction axes as [|a axes IH]; intros shape tr Hrange.
  - simpl. unfold unit_axes. rewrite unit_axes_from_below by constructor. reflexivity.
  - apply Forall_cons in Hrange. destruct Hrange as [Ha Hrange].
    cbn [for_each]. unfold mbind at 1, M_bind at 1. cbv zeta in IH |- *.
    rewrite ArrayMethodFacts.apply_unpack, apply1_reduce_keepdim by exact Ha.
    rewrite IH.
    + unfold unit_axes.
      rewrite <- (unit_axes_from_insert shape 0 a axes) by lia.
      replace (a - 0) with a by lia. reflexivity.
    + rewrite length_insert. exact Hrange.
Qed.

(** With [keepdims], the reduction over an iterable of axes that are in
    range and distinct returns the tensor whose shape is the given
    shape with extent 1 at the normalised axes. *)
Theorem reduce_keepdims_shape (mode : string) (dt : Numpy.dtype) (shape : list Z)
    (axes : list Z) :
  let n := Z.of_nat (length shape) in
  Forall (fun a => - n <= a < n) axes ->
  NoDup (map (normalized n) axes) ->
  fst (run (_reduce mode (Tensor dt (Some shape)) (AxisIterable axes) true)) =
    Ok (Tensor dt (Some (unit_axes shape (map (normalized n) axes)))) /\
  length (unit_axes shape (map (normalized n) axes)) = length shape.
Proof.
  intros n Hrange _. split; [|apply length_unit_axes_from].
  destruct (ArrayMethodFacts.normalize_axis_sorted n axes) as (sorted & Hs & Hsorted & Hperm).
  unfold run.
  rewrite (ArrayMethodFacts.reduce_iterable_eq mode (Tensor dt (Some shape)) axes sorted
             true n [])
    by (reflexivity || exact Hs).
  rewrite for_each_reduce_keepdim.
  - unfold unit_axes. do 3 f_equal. apply unit_axes_from_ext.
    intros x. rewrite Hperm. reflexivity.
  - rewrite Hperm. apply Forall_fmap. eapply Forall_impl; [exact Hrange|].
    simpl. intros a Ha. unfold normalized. fold n. destruct (a <? 0) eqn:E; lia.
Qed.


Lemma comparisons_cast_to_bool_eq :
  In (__eq__ (T := tensor), EQ) comparisons /\
  run (__eq__ (float_tensor [2; 3]) (float_tensor [3])) =
  (Ok (bool_tensor [2; 3]),
   [CallApply (Elemwise EQ) [float_tensor [2; 3]; float_tensor [3]];
    CallAstype (float_tensor [2; 3]) "bool"]).
Proof.
  assert (H1 : In (__eq__ (T := tensor), EQ) comparisons)
    by (unfold comparisons; simpl; tauto).
  split; [exact H1|].
  exact (comparisons_cast_to_bool (float_tensor [2; 3]) (float_tensor [3]) __eq__ EQ H1).
Defined.

Lemma reduce_keepdims_shape_two_axes :
  (Forall (fun a => - 3 <= a < 3) [-1; 0] /\
   NoDup (map (normalized 3) [-1; 0])) /\
  fst (run (_reduce "max" (float_tensor [4; 5; 6]) (AxisIterable [-1; 0]) true)) =
    Ok (float_tensor [1; 5; 1]) /\
  length [1; 5; 1] = length [4; 5; 6].
Proof.
  assert (H1 : Forall (fun a => - 3 <= a < 3) [-1; 0])
    by (repeat constructor; lia).
  assert (H2 : NoDup (map (normalized 3) [-1; 0]))
    by (apply NoDup_cons; split; [|apply NoDup_singleton];
        intros Hin; apply list_elem_of_singleton in Hin; discriminate).
  split; [auto|].
  exact (reduce_keepdims_shape "max" (Dtype "float32" None) [4; 5; 6] [-1; 0] H1 H2).
Defined.

End NamedFacts.

(* ===================================================================== *)
(** * Properties of the operators and methods of [array_method.py] *)
(* ===================================================================== *)

Module MethodFacts.
Import IEEE754 Numpy ArrayMethod DispatchSpec Methods.

Section Effects.
Context {T : Type} `{ArrayMethodMixin T} `{Runtime T} `{Abstract T} `{Indexing T}.

Lemma binary_elwise_run (mode : ElwMode) (rev : bool) (self value : T) :
  run (_binary_elwise mode rev self value) =
  let args := if rev then [value; self] else [self; value] in
  (apply1 (Elemwise mode) args, [CallApply (Elemwise mode) args]).
Proof.
  unfold run, _binary_elwise. destruct rev; simpl; exact (ArrayMethodFacts.elwise_run _ _ []).
Qed.

Lemma unary_elwise_run (mode : ElwMode) (self : T) :
  run (_unary_elwise mode self) =
  (apply1 (Elemwise mode) [self], [CallApply (Elemwise mode) [self]]).
Proof. unfold run, _unary_elwise. exact (ArrayMethodFacts.elwise_run _ _ []). Qed.

(** Every arithmetic operator invokes the elementwise primitive of its
    mode exactly once, on its operands in the order written, or swapped
    for a reflected operator, and returns what the primitive gives or
    its error; the dtypes of the operands are not looked at.  Unary
    plus returns its operand and invokes nothing.  Every operator has a
    reflected form of the same mode, which is the operator with its
    operands exchanged. *)
Theorem arithmetic_operators (self value : T) :
  (forall (f : T -> T -> M T T) (mode : ElwMode) (rev : bool),
     In (f, mode, rev) binary_operators ->
     let args := if rev then [value; self] else [self; value] in
     run (f self value) =
     (apply1 (Elemwise mode) args, [CallApply (Elemwise mode) args])) /\
  (forall (f : T -> M T T) (mode : ElwMode),
     In (f, mode) unary_operators ->
     run (f self) =
     (apply1 (Elemwise mode) [self], [CallApply (Elemwise mode) [self]])) /\
  run (__pos__ self) = (Ok self, []) /\
  (forall (f : T -> T -> M T T) (mode : ElwMode),
     In (f, mode, false) binary_operators ->
     exists g : T -> T -> M T T,
       In (g, mode, true) binary_operators /\ g self value = f value self).
Proof.
  split; [|split; [|split]].
  - intros f mode rev Hin. unfold binary_operators in Hin. simpl in Hin.
    repeat (destruct Hin as [[= <- <- <-] | Hin]; [apply binary_elwise_run|]).
    contradiction.
  - intros f mode Hin. unfold unary_operators in Hin. simpl in Hin.
    repeat (destruct Hin as [[= <- <-] | Hin]; [apply unary_elwise_run|]).
    contradiction.
  - reflexivity.
  - intros f mode Hin. unfold binary_operators in Hin. simpl in Hin.
    repeat (destruct Hin as [Heq | Hin];
            [injection Heq as <- <- |]);
      try contradiction; try discriminate;
      (eexists (_binary_elwise _ true); split;
       [unfold binary_operators; simpl; tauto | reflexivity]).
Qed.

(** [a != b] is [a == b] followed by the elementwise negation of its
    result: three runtime calls in this order, of which the negation is
    made without the dtype check of [__invert__]; the first call that
    fails ends the computation. *)
Theorem not_equal_negates_equal (a b : T) :
  (forall tr : list (call T),
     __ne__ a b tr = (r ← __eq__ a b; _elwise [r] NOT) tr) /\
  run (__ne__ a b) =
    match apply1 (Elemwise EQ) [a; b] with
    | Raise e => (Raise e, [CallApply (Elemwise EQ) [a; b]])
    | Ok r =>
        match astype_cpp r "bool" with
        | Raise e => (Raise e, [CallApply (Elemwise EQ) [a; b]; CallAstype r "bool"])
        | Ok c =>
            (apply1 (Elemwise NOT) [c],
             [CallApply (Elemwise EQ) [a; b]; CallAstype r "bool";
              CallApply (Elemwise NOT) [c]])
        end
    end.
Proof.
  split.
  - intros tr. unfold __ne__, __eq__, mbind, M_bind.
    rewrite ArrayMethodFacts.elwise_run.
    destruct (apply1 _ _) as [r | e]; [|reflexivity].
    destruct (astype r "bool" _) as [[c | e] tr']; reflexivity.
  - unfold run, __ne__. unfold mbind at 1, M_bind at 1.
    rewrite ArrayMethodFacts.elwise_run.
    destruct (apply1 _ _) as [r | e]; [|reflexivity].
    unfold mbind, M_bind, astype, invoke.
    destruct (astype_cpp r "bool") as [c | e]; [|reflexivity].
    rewrite ArrayMethodFacts.elwise_run. reflexivity.
Qed.

Lemma matmul_run (inp1 inp2 : T) (transpose_a transpose_b : bool)
    (compute_mode format : string) (d1 d2 : Z) :
  ndim inp1 = Ok d1 -> ndim inp2 = Ok d2 -> 1 <= d1 -> 1 <= d2 ->
  run (_matmul inp1 inp2 transpose_a transpose_b compute_mode format) =
    match select_path d1 d2 transpose_a with
    | DotPath => (apply1 Dot [inp1; inp2], [CallApply Dot [inp1; inp2]])
    | PlainPath =>
        let a := matmul_call inp1 inp2 d1 d2 transpose_a transpose_b
                   compute_mode format symbolicMatrixMul in
        (matmul_cpp a, [CallMatmul a])
    | BatchedPath =>
        let a := matmul_call inp1 inp2 d1 d2 transpose_a transpose_b
                   compute_mode format symbolicBatchedMatrixMul in
        (batched_matmul_cpp a, [CallBatchedMatmul a])
    end.
Proof.
  intros Hd1 Hd2 Hr1 Hr2.
  rewrite ArrayMethodFacts.select_path_decides. unfold run, _matmul.
  unfold mbind at 1, M_bind at 1, lift at 1; rewrite Hd1.
  unfold mbind at 1, M_bind at 1, lift at 1; rewrite Hd2.
  unfold mbind at 1, M_bind at 1, lift at 1.
  replace ((d1 >? 0) && (d2 >? 0)) with true
    by (symmetry; apply andb_true_iff; split; apply Z.gtb_lt; lia).
  cbn [assert].
  assert (Hs : (if _deterministic_kernel
                then Z.lor (if _benchmark_kernel then Z.lor 0 Strategy_PROFILE
                            else Z.lor 0 Strategy_HEURISTIC) Strategy_REPRODUCIBLE
                else (if _benchmark_kernel then Z.lor 0 Strategy_PROFILE
                      else Z.lor 0 Strategy_HEURISTIC)) = strategy_flags).
  { unfold strategy_flags. rewrite !Z.lor_0_l.
    destruct _deterministic_kernel; [reflexivity|]. now rewrite Z.lor_0_r. }
  destruct ((d1 =? 1) && (d2 =? 1)) eqn:Edot.
  - rewrite ArrayMethodFacts.apply_unpack. reflexivity.
  - destruct (_ || _) eqn:Eplain; unfold matmul_call; rewrite <- Hs; reflexivity.
Qed.

(** [_matmul] makes one runtime call, whose outcome is its own: on the
    dot path the dot-product primitive on the two operands, the
    transposition flags, the compute mode and the format being left
    out; on the other paths the native multiply with the operands, their
    ranks, the flags as given, the resolved compute mode, the format,
    the two configuration flags, the strategy made of them and the
    callback of the path.  [__rmatmul__] is [__matmul__] with the
    operands exchanged. *)
Theorem matmul_call_arguments (inp1 inp2 : T) (transpose_a transpose_b : bool)
    (compute_mode format : string) (d1 d2 : Z) :
  ndim inp1 = Ok d1 -> ndim inp2 = Ok d2 -> 1 <= d1 -> 1 <= d2 ->
  run (_matmul inp1 inp2 transpose_a transpose_b compute_mode format) =
    match select_path d1 d2 transpose_a with
    | DotPath => (apply1 Dot [inp1; inp2], [CallApply Dot [inp1; inp2]])
    | PlainPath =>
        let a := matmul_call inp1 inp2 d1 d2 transpose_a transpose_b
                   compute_mode format symbolicMatrixMul in
        (matmul_cpp a, [CallMatmul a])
    | BatchedPath =>
        let a := matmul_call inp1 inp2 d1 d2 transpose_a transpose_b
                   compute_mode format symbolicBatchedMatrixMul in
        (batched_matmul_cpp a, [CallBatchedMatmul a])
    end /\
  __rmatmul__ inp1 inp2 = __matmul__ inp2 inp1.
Proof.
  intros Hd1 Hd2 Hr1 Hr2. split; [now apply matmul_run | reflexivity].
Qed.

(** [_matmul] invokes nothing when it rejects its operands: an operand
    of rank 0 fails the assertion, and an operand whose shape is not
    known raises the error of [ndim], the first operand being looked at
    first. *)
Theorem matmul_rejects (inp1 inp2 : T) (transpose_a transpose_b : bool)
    (compute_mode format : string) :
  (forall d1 d2 : Z,
     ndim inp1 = Ok d1 -> ndim inp2 = Ok d2 -> d1 <= 0 \/ d2 <= 0 ->
     run (_matmul inp1 inp2 transpose_a transpose_b compute_mode format) =
     (Raise (AssertionError EmptyString), [])) /\
  (_tuple_shape inp1 = None ->
   run (_matmul inp1 inp2 transpose_a transpose_b compute_mode format) =
   (Raise (ValueError "unkown ndim" []), [])) /\
  (forall d1 : Z,
     ndim inp1 = Ok d1 -> _tuple_shape inp2 = None ->
     run (_matmul inp1 inp2 transpose_a transpose_b compute_mode format) =
     (Raise (ValueError "unkown ndim" []), [])) /\
  (forall s1 s2 : list Z,
     _tuple_shape inp1 = Some s1 -> _tuple_shape inp2 = Some s2 ->
     (s1 = [] \/ s2 = [] <->
      run (_matmul inp1 inp2 transpose_a transpose_b compute_mode format) =
      (Raise (AssertionError EmptyString), []))).
Proof.
  assert (Hzero : forall d1 d2 : Z,
     ndim inp1 = Ok d1 -> ndim inp2 = Ok d2 -> d1 <= 0 \/ d2 <= 0 ->
     run (_matmul inp1 inp2 transpose_a transpose_b compute_mode format) =
     (Raise (AssertionError EmptyString), [])).
  { intros d1 d2 Hd1 Hd2 Hz. unfold run, _matmul.
    unfold mbind at 1, M_bind at 1, lift at 1; rewrite Hd1.
    unfold mbind at 1, M_bind at 1, lift at 1; rewrite Hd2.
    unfold mbind at 1, M_bind at 1, lift at 1.
    replace ((d1 >? 0) && (d2 >? 0)) with false; [reflexivity|].
    symmetry. apply andb_false_iff.
    destruct Hz; [left | right]; rewrite Z.gtb_ltb; apply Z.ltb_ge; lia. }
  split; [exact Hzero|]. split; [|split].
  - intros Hs. unfold run, _matmul, ndim. rewrite Hs. reflexivity.
  - intros d1 Hd1 Hs. unfold run, _matmul.
    unfold mbind at 1, M_bind at 1, lift at 1; rewrite Hd1.
    unfold ndim. rewrite Hs. reflexivity.
  - intros s1 s2 Hs1 Hs2.
    assert (Hd1 : ndim inp1 = Ok (Z.of_nat (length s1))) by (unfold ndim; now rewrite Hs1).
    assert (Hd2 : ndim inp2 = Ok (Z.of_nat (length s2))) by (unfold ndim; now rewrite Hs2).
    split.
    + intros Hz. apply (Hzero _ _ Hd1 Hd2).
      destruct Hz as [-> | ->]; simpl; lia.
    + intros Hrun. destruct s1 as [|x1 s1]; [auto|]. destruct s2 as [|x2 s2]; [auto|].
      exfalso.
      pose proof (matmul_run inp1 inp2 transpose_a transpose_b
                    compute_mode format _ _ Hd1 Hd2) as Hcall.
      rewrite Hrun in Hcall.
      specialize (Hcall ltac:(simpl length; lia) ltac:(simpl length; lia)).
      destruct (select_path _ _ _); discriminate.
Qed.

(** ** The effects of the in-place and the container methods *)

Lemma of_M_bind {A B} (c : M T A) (k : A -> E T B) (tr : list (event T)) :
  (x ← of_M c; k x) tr =
  match fst (run c) with
  | Ok a => k a (tr ++ map Call (snd (run c)))%list
  | Raise e => (Raise e, (tr ++ map Call (snd (run c)))%list)
  end.
Proof.
  unfold mbind, E_bind, of_M. destruct (fst (run c)); reflexivity.
Qed.

Lemma inplace_operator_run (f : T -> T -> M T T) (self value : T) :
  exec (_inplace (operator f) self value) =
  match fst (run (f self value)) with
  | Ok r =>
      (and_then (_reset self r) (fun _ => Ok self),
       (map Call (snd (run (f self value))) ++ [CallReset self r])%list)
  | Raise e => (Raise e, map Call (snd (run (f self value))))
  end.
Proof.
  unfold exec, _inplace, operator.
  unfold mbind at 1, E_bind at 1. rewrite of_M_bind.
  destruct (fst (run (f self value))) as [r | e]; [|reflexivity].
  unfold mret, E_ret, mbind, E_bind, reset, emit. simpl.
  destruct (_reset self r) as [[] | e]; reflexivity.
Qed.

(** An in-place operator runs the operator it is made from and then,
    if that gave a result, resets [self] to the result, once, and
    returns [self]; when the operator raises, [self] is not reset.
    [_inplace] raises [NotImplementedError], and resets nothing, when
    the operator returns [NotImplemented], which the operators of the
    dispatch layer never do.  An in-place logical operator on an operand
    that is not boolean invokes nothing and resets nothing. *)
Theorem inplace_resets_self (self value : T) :
  (forall (g : T -> T -> E T T) (f : T -> T -> M T T),
     In (g, f) inplace_operators ->
     exec (g self value) =
     match fst (run (f self value)) with
     | Ok r =>
         (and_then (_reset self r) (fun _ => Ok self),
          (map Call (snd (run (f self value))) ++ [CallReset self r])%list)
     | Raise e => (Raise e, map Call (snd (run (f self value))))
     end) /\
  (forall (f : T -> T -> E T (returned T)) (tr : list (event T)),
     f self value [] = (Ok NotImplemented, tr) ->
     exec (_inplace f self value) = (Raise NotImplementedError, tr)) /\
  (~ is_bool self \/ ~ is_bool value ->
   exec (__iand__ self value) =
   (Raise (TypeError "{} requires 2 bool tensors" [mode_value AND]), [])).
Proof.
  split; [|split].
  - intros g f Hin. unfold inplace_operators in Hin. simpl in Hin.
    repeat (destruct Hin as [[= <- <-] | Hin]; [apply inplace_operator_run|]).
    contradiction.
  - intros f tr Hf. unfold exec, _inplace, mbind, E_bind. rewrite Hf. reflexivity.
  - intros Hb. unfold __iand__. rewrite inplace_operator_run.
    unfold __and__. rewrite ArrayMethodFacts.logical_binary_run.
    replace (not_bool self || not_bool value) with true; [reflexivity|].
    symmetry. apply orb_true_iff.
    destruct Hb as [Hb | Hb]; [left | right]; now apply ArrayMethodFacts.not_bool_true.
Qed.

(** [self[...] = value] resets [self] to [value] and calls nothing
    else; for any other index the native assignment is called first and
    [self] is reset to what it returns, or not at all when it raises. *)
Theorem setitem_resets_self (self value : T) (i : index) :
  exec (__setitem__ self Ellipsis value) =
    (_reset self value, [CallReset self value]) /\
  (i <> Ellipsis ->
   exec (__setitem__ self i value) =
   match setitem_cpp self i value with
   | Ok v => (_reset self v, [CallSetitem self i value; CallReset self v])
   | Raise e => (Raise e, [CallSetitem self i value])
   end).
Proof.
  split; [reflexivity|]. intros Hi. unfold exec, __setitem__.
  destruct i as [| z | args]; [contradiction | |];
    unfold mbind, E_bind, emit, reset; simpl;
    destruct (setitem_cpp self _ value); reflexivity.
Qed.

(** [len] is the first extent of a known shape of rank 1 or more; for
    a tensor of rank 0, and for one whose shape is not known, where
    [ndim] raises a [ValueError], it raises the [TypeError]
    ["ndim is 0"]. *)
Theorem len_first_extent (self : T) :
  (forall (d : Z) (s : list Z), _tuple_shape self = Some (d :: s) -> __len__ self = Ok d) /\
  (is_ok (__len__ self) = true <-> exists n, ndim self = Ok n /\ 1 <= n) /\
  (ndim self = Ok 0 -> __len__ self = Raise (TypeError "ndim is 0" [])) /\
  (_tuple_shape self = None ->
   __len__ self = Raise (TypeError "ndim is 0" []) /\
   ndim self = Raise (ValueError "unkown ndim" [])).
Proof.
  unfold __len__, ndim. split; [|split; [|split]].
  - intros d s ->. reflexivity.
  - destruct (_tuple_shape self) as [[|d s]|]; simpl; split; try discriminate.
    + intros (n & [= <-] & Hn). lia.
    + intros _. eexists. split; [reflexivity|]. lia.
    + reflexivity.
    + intros (n & Hn & _). discriminate.
  - destruct (_tuple_shape self) as [[|d s]|]; [intros _; reflexivity | | discriminate].
    intros Hs. assert (Hz : Z.of_nat (length (d :: s)) = 0) by congruence.
    simpl length in Hz. lia.
  - intros ->. split; reflexivity.
Qed.

Lemma yield_items_cons (self : T) (i : Z) (indices : list Z) (tr : list (event T)) :
  yield_items self (i :: indices) tr =
  match getitem_cpp self (IntIndex i) with
  | Ok x =>
      match yield_items self indices (tr ++ [CallGetitem self (IntIndex i)])%list with
      | (Ok xs, tr') => (Ok (x :: xs), tr')
      | (Raise e, tr') => (Raise e, tr')
      end
  | Raise e => (Raise e, (tr ++ [CallGetitem self (IntIndex i)])%list)
  end.
Proof.
  simpl. unfold mbind, E_bind, __getitem__, emit, mret, E_ret.
  destruct (getitem_cpp self (IntIndex i)); [|reflexivity].
  destruct (yield_items self indices _) as [[xs | e] tr']; reflexivity.
Qed.

Lemma yield_items_run (self : T) (indices : list Z) :
  forall tr : list (event T),
  exists k : nat,
    snd (yield_items self indices tr) =
      (tr ++ map (fun i => CallGetitem self (IntIndex i)) (take k indices))%list /\
    (forall xs, fst (yield_items self indices tr) = Ok xs ->
       k = length indices /\
       Forall2 (fun i x => getitem_cpp self (IntIndex i) = Ok x) indices xs) /\
    (forall e, fst (yield_items self indices tr) = Raise e ->
       exists i, indices !! (k - 1)%nat = Some i /\ (1 <= k)%nat /\
                 getitem_cpp self (IntIndex i) = Raise e /\
                 Forall (fun j => exists x, getitem_cpp self (IntIndex j) = Ok x)
                   (take (k - 1) indices)).
Proof.
  induction indices as [|i indices IH]; intros tr.
  - exists 0%nat. simpl. rewrite app_nil_r. split; [reflexivity|].
    split; [intros xs [= <-]; auto | discriminate].
  - rewrite yield_items_cons.
    destruct (getitem_cpp self (IntIndex i)) as [x | e] eqn:Hx.
    + destruct (IH (tr ++ [CallGetitem self (IntIndex i)])%list)
        as (k & Htr & Hok & Herr).
      exists (S k).
      destruct (yield_items self indices _) as [[xs | e] tr'] eqn:Hy; simpl in *.
      * split; [rewrite Htr, <- app_assoc; reflexivity|].
        split; [|discriminate].
        intros ys [= <-]. destruct (Hok xs eq_refl) as [-> HF]. auto.
      * split; [rewrite Htr, <- app_assoc; reflexivity|].
        split; [discriminate|].
        intros e' [= <-]. destruct (Herr e eq_refl) as (j & Hj & Hk & Hg & Hbefore).
        exists j. destruct k; [lia|]. simpl in *. rewrite Nat.sub_0_r in *.
        split; [exact Hj|]. split; [lia|]. split; [exact Hg|].
        constructor; [exists x; exact Hx | exact Hbefore].
    + exists 1%nat. simpl. split; [reflexivity|]. split; [discriminate|].
      intros e' [= <-]. exists i. auto.
Qed.

Lemma range_lookup (n : Z) (k : nat) (i : Z) :
  range n !! k = Some i -> i = Z.of_nat k /\ 0 <= i < n.
Proof.
  unfold range. rewrite list_lookup_fmap. intros Hk.
  destruct (seq 0 (Z.to_nat n) !! k) as [j|] eqn:Hj; [|discriminate].
  apply lookup_seq in Hj as [-> Hlt]. injection Hk as <-. lia.
Qed.

(** Iterating over a tensor whose first extent is [d] fetches the
    items [0], [1], ... in this order, each once, and stops at the
    first item that cannot be fetched: when the iteration raises after
    [k] fetches, the items [0] to [k - 2] were fetched and item [k - 1]
    raised the exception; when all can be fetched, [d] items are
    yielded and [d] fetches are made.  A tensor of rank 0 cannot be
    iterated over. *)
Theorem iter_fetches_items (self : T) :
  (forall (d : Z) (s : list Z),
     _tuple_shape self = Some (d :: s) -> 0 <= d ->
     exists k : nat,
       snd (exec (__iter__ self)) =
         map (fun i => CallGetitem self (IntIndex i)) (take k (range d)) /\
       (forall xs, fst (exec (__iter__ self)) = Ok xs ->
          Z.of_nat k = d /\ Z.of_nat (length xs) = d /\
          Forall2 (fun i x => getitem_cpp self (IntIndex i) = Ok x) (range d) xs) /\
       (forall e, fst (exec (__iter__ self)) = Raise e ->
          (1 <= k)%nat /\ Z.of_nat k <= d /\
          getitem_cpp self (IntIndex (Z.of_nat k - 1)) = Raise e /\
          forall i, 0 <= i < Z.of_nat k - 1 ->
            exists x, getitem_cpp self (IntIndex i) = Ok x)) /\
  (ndim self = Ok 0 ->
   exec (__iter__ self) = (Raise (TypeError "ndim is 0" []), [])).
Proof.
  split.
  - intros d s Hs Hd.
    assert (Hlen : len self = Ok d).
    { unfold len, __len__. rewrite Hs. simpl.
      destruct (d <? 0) eqn:Hneg; [lia | reflexivity]. }
    unfold exec, __iter__. unfold mbind at 1, E_bind at 1, pure_ at 1.
    rewrite Hlen.
    destruct (yield_items_run self (range d) []) as (k & Htr & Hok & Herr).
    assert (Hrange : length (range d) = Z.to_nat d).
    { unfold range. now rewrite length_map, length_seq. }
    exists k. split; [exact Htr|]. split.
    + intros xs Hxs. destruct (Hok xs Hxs) as [-> HF].
      split; [lia|]. split; [|exact HF].
      apply Forall2_length in HF. lia.
    + intros e He. destruct (Herr e He) as (i & Hi & Hk & Hg & Hbefore).
      apply range_lookup in Hi as [-> Hi]. split; [exact Hk|]. split; [lia|].
      split; [replace (Z.of_nat k - 1) with (Z.of_nat (k - 1)) by lia; exact Hg|].
      intros i Hlt.
      assert (Hl : take (k - 1) (range d) !! Z.to_nat i = Some i).
      { rewrite lookup_take_lt by lia. unfold range.
        rewrite list_lookup_fmap, lookup_seq_lt by lia. simpl. f_equal. lia. }
      exact (proj1 (Forall_lookup _ _) Hbefore _ _ Hl).
  - unfold ndim, exec, __iter__, len, __len__.
    destruct (_tuple_shape self) as [[|d s]|]; [intros _; reflexivity | | discriminate].
    intros Hs. assert (Hz : Z.of_nat (length (d :: s)) = 0) by congruence.
    simpl length in Hz. lia.
Qed.

Lemma size_run (self : T) :
  exec (size self) =
  match shape self with
  | TupleShape s => (Ok (np_prod_item s), [])
  | TensorShape t =>
      match apply1 (Reduce "product" None None) [t] with
      | Ok r => (Ok (SizeTensor r), [Call (CallApply (Reduce "product" None None) [t])])
      | Raise e => (Raise e, [Call (CallApply (Reduce "product" None None) [t])])
      end
  end.
Proof.
  unfold exec, size. destruct (shape self) as [s | t]; [reflexivity|].
  rewrite of_M_bind.
  assert (Hin : In (prod (T := T), "product") reductions)
    by (unfold reductions; simpl; auto).
  destruct (ArrayMethodFacts.reduce_dispatch_generic prod "product" t false Hin)
    as (_ & -> & _). simpl.
  destruct (apply1 _ _); reflexivity.
Qed.

(** The size of a tensor with a tuple shape is computed without a
    call, and is a float for the empty tuple; for a symbolic shape it
    is the product reduction of the shape tensor.  [item] without
    arguments checks the size only when it is an int: a tensor of rank
    1 or more whose number of elements is not 1 fails the assertion
    before its data is fetched; otherwise, and for a tensor of rank 0,
    the data is fetched once.  For a symbolic shape the product is
    computed, not looked at, and the data is fetched. *)
Theorem item_checks_size (self : T) :
  (forall s : list Z, shape self = TupleShape s ->
     exec (size self) = (Ok (np_prod_item s), [])) /\
  (forall (d : Z) (s : list Z),
     shape self = TupleShape (d :: s) -> wrap64 (foldr Z.mul 1 (d :: s)) <> 1 ->
     exec (item self []) = (Raise (AssertionError EmptyString), [])) /\
  (forall s : list Z,
     shape self = TupleShape s -> s = [] \/ wrap64 (foldr Z.mul 1 s) = 1 ->
     exec (item self []) = (and_then (numpy self) ndarray_item, [CallNumpy self])) /\
  (forall t r : T,
     shape self = TensorShape t ->
     apply1 (Reduce "product" None None) [t] = Ok r ->
     exec (item self []) =
     (and_then (numpy self) ndarray_item,
      [Call (CallApply (Reduce "product" None None) [t]); CallNumpy self])).
Proof.
  split; [|split; [|split]].
  - intros s Hs. rewrite size_run, Hs. reflexivity.
  - intros d s Hs Hne. unfold exec, item, item_, size. rewrite Hs. simpl.
    unfold mbind, E_bind, mret, E_ret, pure_. simpl.
    destruct (_ =? 1) eqn:Heq; [apply Z.eqb_eq in Heq; contradiction | reflexivity].
  - intros s Hs Hone. unfold exec, item, item_, size. rewrite Hs.
    destruct s as [|d s].
    + simpl. unfold mbind, E_bind, mret, E_ret, pure_, emit. simpl.
      destruct (numpy self); reflexivity.
    + destruct Hone as [Hone | Hone]; [discriminate|].
      simpl. unfold mbind, E_bind, mret, E_ret, pure_, emit. simpl.
      simpl in Hone. rewrite Hone. simpl.
      destruct (numpy self); reflexivity.
  - intros t r Hs Hr. unfold exec, item, item_.
    unfold mbind at 1, E_bind at 1.
    pose proof (size_run self) as Hsize. unfold exec in Hsize.
    rewrite Hsize, Hs, Hr.
    unfold mbind, E_bind, mret, E_ret, pure_, emit. simpl.
    destruct (numpy self); reflexivity.
Qed.

End Effects.

End MethodFacts.

(* ===================================================================== *)
(** * Properties of the matmul programs *)
(* ===================================================================== *)

Module MatmulGraphFacts.
Import ArrayMethod DispatchSpec MatmulGraph ShapeGraph.

(** ** What the programs are, whatever the primitives do *)

Section AnyPrimitives.
Context {V : Type} (f : Op -> list V -> V) (c : Z -> string -> V).

(** A program asserts that it is given two inputs, and then yields one
    output, marked [True], whatever the ranks are.  For two matrices the
    plain program is the matrix product alone, and for two tensors of
    rank 3 the batched program is the batched product alone, the flags,
    the compute mode, the format and the strategy being handed on
    unchanged; a vector operand is given a unit axis before the product
    ([0] for the first operand, [1] for the second) and the axis is
    taken away from the result. *)
Theorem program_structure (s : symbolic) (device : string) (dim1 dim2 : Z)
    (ta tb : bool) (compute_mode format : string) (strategy : Z) :
  (forall inputs : list V,
     length inputs <> 2%nat ->
     program f c s device dim1 dim2 ta tb compute_mode format strategy inputs =
     Raise (AssertionError EmptyString)) /\
  (forall x y : V,
     exists r : V,
       program f c s device dim1 dim2 ta tb compute_mode format strategy [x; y] =
       Ok ([r], [true])) /\
  (forall x y : V,
     extentedMatrixMulOp f c device 2 2 ta tb compute_mode format strategy [x; y] =
       Ok ([f (MatrixMul ta tb compute_mode format strategy) [x; y]], [true]) /\
     extentedBatchedMatrixMulOp f c device 3 3 ta tb compute_mode format strategy [x; y] =
       Ok ([f (BatchedMatrixMul ta tb compute_mode format strategy) [x; y]], [true]) /\
     extentedMatrixMulOp f c device 1 2 ta tb compute_mode format strategy [x; y] =
       Ok ([f (RemoveAxis [0])
              [f (MatrixMul ta tb compute_mode format strategy)
                 [f (AddAxis [0]) [x]; y]]], [true]) /\
     extentedMatrixMulOp f c device 2 1 ta tb compute_mode format strategy [x; y] =
       Ok ([f (RemoveAxis [1])
              [f (MatrixMul ta tb compute_mode format strategy)
                 [x; f (AddAxis [1]) [y]]]], [true])).
Proof.
  split; [|split].
  - intros inputs Hlen.
    assert (Hne : (Z.of_nat (length inputs) =? 2) = false) by (apply Z.eqb_neq; lia).
    destruct s; simpl; unfold extentedMatrixMulOp, extentedBatchedMatrixMulOp;
      rewrite Hne; reflexivity.
  - intros x y. destruct s; simpl.
    + unfold extentedMatrixMulOp. simpl.
      destruct (dim1 =? 1), (dim2 =? 1); eexists; reflexivity.
    + unfold extentedBatchedMatrixMulOp. simpl.
      destruct (dim1 =? 1) eqn:E1, (dim2 =? 1) eqn:E2; cbv zeta;
        repeat match goal with
               | |- context [if ?b then _ else _] => destruct b eqn:?
               end;
        try (eexists; reflexivity); exfalso; lia.
  - intros x y. repeat split.
Qed.

End AnyPrimitives.

(** ** The shapes that the programs compute *)

Lemma product_app (a b : list Z) : product (a ++ b) = product a * product b.
Proof.
  unfold product. induction a as [|x a IH]; simpl; [lia|]. rewrite IH. lia.
Qed.

Lemma slice_head (l r : list Z) :
  r <> [] ->
  take (slice_point (l ++ r) (- Z.of_nat (length r))) (l ++ r) = l.
Proof.
  intros Hr. unfold slice_point. rewrite length_app.
  destruct (_ <? 0) eqn:Hneg.
  - replace (Z.to_nat _) with (length l) by lia. now rewrite take_app_length.
  - apply Z.ltb_ge in Hneg. destruct r; [contradiction | simpl in Hneg; lia].
Qed.

Lemma slice_tail (l r : list Z) :
  r <> [] ->
  drop (slice_point (l ++ r) (- Z.of_nat (length r))) (l ++ r) = r.
Proof.
  intros Hr. unfold slice_point. rewrite length_app.
  destruct (_ <? 0) eqn:Hneg.
  - replace (Z.to_nat _) with (length l) by lia. now rewrite drop_app_length.
  - apply Z.ltb_ge in Hneg. destruct r; [contradiction | simpl in Hneg; lia].
Qed.

Lemma compatible_prefix (l r : list Z) : compatible l (l ++ r) = true.
Proof.
  induction l as [|d l IH]; simpl; [reflexivity|]. now rewrite Z.eqb_refl, IH.
Qed.

Lemma broadcastable_suffix (pre s : list Z) : broadcastable s (pre ++ s) = true.
Proof. unfold broadcastable. rewrite rev_app_distr. apply compatible_prefix. Qed.

Lemma slice_head_at (l r : list Z) (idx : Z) :
  r <> [] -> idx = - Z.of_nat (length r) ->
  take (slice_point (l ++ r) idx) (l ++ r) = l.
Proof. intros Hr ->. now apply slice_head. Qed.

Lemma slice_tail_at (l r : list Z) (idx : Z) :
  r <> [] -> idx = - Z.of_nat (length r) ->
  drop (slice_point (l ++ r) idx) (l ++ r) = r.
Proof. intros Hr ->. now apply slice_tail. Qed.

Lemma head_1 (l : list Z) (x y : Z) :
  take (slice_point (l ++ [x; y]) (-1)) (l ++ [x; y]) = (l ++ [x])%list.
Proof.
  change (l ++ [x; y])%list with (l ++ ([x] ++ [y]))%list. rewrite app_assoc.
  now apply slice_head_at.
Qed.

Lemma tail_1 (l : list Z) (x y : Z) :
  drop (slice_point (l ++ [x; y]) (-1)) (l ++ [x; y]) = [y].
Proof.
  change (l ++ [x; y])%list with (l ++ ([x] ++ [y]))%list. rewrite app_assoc.
  now apply slice_tail_at.
Qed.

Lemma head_2 (l : list Z) (x y : Z) :
  take (slice_point (l ++ [x; y]) (-2)) (l ++ [x; y]) = l.
Proof. now apply slice_head_at. Qed.

Lemma tail_2 (l : list Z) (x y : Z) :
  drop (slice_point (l ++ [x; y]) (-2)) (l ++ [x; y]) = [x; y].
Proof. now apply slice_tail_at. Qed.

(** The equations of the primitives *)
Lemma eq_shape (s : list Z) : apply_shape GetVarShape [TensorVar s] = ShapeVar s.
Proof. reflexivity. Qed.

Lemma eq_head (v : list Z) (idx : Z) (dt : string) :
  apply_shape (Subtensor [Item 0 false true false false]) [ShapeVar v; constant idx dt] =
  ShapeVar (take (slice_point v idx) v).
Proof. reflexivity. Qed.

Lemma eq_tail (v : list Z) (idx : Z) (dt : string) :
  apply_shape (Subtensor [Item 0 true false false false]) [ShapeVar v; constant idx dt] =
  ShapeVar (drop (slice_point v idx) v).
Proof. reflexivity. Qed.

Lemma eq_prod (v : list Z) :
  apply_shape (Reduce "product" 0) [ShapeVar v] = ShapeVar [product v].
Proof. reflexivity. Qed.

Lemma eq_concat (device : string) (v w : list Z) :
  apply_shape (Concat 0 device) [ShapeVar v; ShapeVar w] = ShapeVar (v ++ w).
Proof. reflexivity. Qed.

Lemma eq_reshape (s t : list Z) :
  product s = product t ->
  apply_shape Reshape [TensorVar s; ShapeVar t] = TensorVar t.
Proof. intros Hp. simpl. now rewrite Hp, Z.eqb_refl. Qed.

Lemma eq_broadcast (pre s : list Z) :
  apply_shape Broadcast [TensorVar s; ShapeVar (pre ++ s)] = TensorVar (pre ++ s).
Proof. simpl. now rewrite broadcastable_suffix. Qed.

Lemma eq_matmul (ta tb : bool) (cm fmt : string) (st a0 a1 b0 b1 m n : Z) :
  matrix_product ta tb a0 a1 b0 b1 = Some (m, n) ->
  apply_shape (MatrixMul ta tb cm fmt st) [TensorVar [a0; a1]; TensorVar [b0; b1]] =
  TensorVar [m; n].
Proof. intros Hmn. simpl. now rewrite Hmn. Qed.

Lemma eq_batched (ta tb : bool) (cm fmt : string) (st b a0 a1 b0 b1 m n : Z) :
  matrix_product ta tb a0 a1 b0 b1 = Some (m, n) ->
  apply_shape (BatchedMatrixMul ta tb cm fmt st)
    [TensorVar [b; a0; a1]; TensorVar [b; b0; b1]] =
  TensorVar [b; m; n].
Proof. intros Hmn. simpl. now rewrite Hmn, Z.eqb_refl. Qed.

Lemma eq_add_axis_0 (s : list Z) :
  apply_shape (AddAxis [0]) [TensorVar s] = TensorVar (1 :: s).
Proof.
  simpl. destruct (0 <=? Z.of_nat (length s)) eqn:Hle; [|apply Z.leb_gt in Hle; lia].
  reflexivity.
Qed.

Lemma eq_add_axis_1 (k : Z) :
  apply_shape (AddAxis [1]) [TensorVar [k]] = TensorVar [k; 1].
Proof. reflexivity. Qed.

Lemma eq_remove_axis (l r : list Z) (k : Z) :
  k = Z.of_nat (length l) ->
  apply_shape (RemoveAxis [k]) [TensorVar (l ++ 1 :: r)] = TensorVar (l ++ r).
Proof.
  intros ->. simpl. rewrite Nat2Z.id.
  destruct (0 <=? Z.of_nat (length l)) eqn:Hle; [|apply Z.leb_gt in Hle; lia].
  rewrite bool_decide_true by (rewrite lookup_app_r, Nat.sub_diag; [reflexivity | lia]).
  simpl. rewrite delete_middle. reflexivity.
Qed.

(** The tests of a program on ranks that are known *)
Ltac decide_tests :=
  repeat match goal with
    | |- context [?a =? ?b] =>
        first [ replace (a =? b) with true by (symmetry; apply Z.eqb_eq; lia)
              | replace (a =? b) with false by (symmetry; apply Z.eqb_neq; lia) ]
    | |- context [?a >? ?b] =>
        first [ replace (a >? b) with true by (symmetry; apply Z.gtb_lt; lia)
              | replace (a >? b) with false
                  by (symmetry; rewrite Z.gtb_ltb; apply Z.ltb_ge; lia) ]
    end.

Ltac run_body :=
  unfold run_program, program, extentedMatrixMulOp, extentedBatchedMatrixMulOp;
  change (Z.of_nat (length [_; _]) =? 2) with true;
  cbn [assert mbind result_bind];
  repeat (decide_tests; cbv beta zeta iota).

Lemma tail_1_pair (x y : Z) : drop (slice_point [x; y] (-1)) [x; y] = [y].
Proof. reflexivity. Qed.

Lemma tail_2_triple (x y z : Z) :
  drop (slice_point [x; y; z] (-2)) [x; y; z] = [y; z].
Proof. reflexivity. Qed.

Lemma matrix_product_rows (tb : bool) (a0 a1 b0 b1 m n : Z) :
  matrix_product false tb a0 a1 b0 b1 = Some (m, n) ->
  m = a0 /\ forall r : Z, matrix_product false tb r a1 b0 b1 = Some (r, n).
Proof.
  unfold matrix_product. simpl. destruct (oriented tb b0 b1) as [k' n'].
  destruct (a1 =? k'); [|discriminate]. intros [= <- <-]. auto.
Qed.

Lemma matrix_product_columns (ta : bool) (a0 a1 b0 b1 m n : Z) :
  matrix_product ta false a0 a1 b0 b1 = Some (m, n) -> n = b1.
Proof.
  unfold matrix_product. simpl. destruct (oriented ta a0 a1) as [m' k].
  destruct (k =? b0); [|discriminate]. now intros [= <- <-].
Qed.

(** The primitives of a program, applied to shapes that are known *)
Ltac primitives :=
  repeat first
    [ rewrite eq_shape | rewrite eq_head | rewrite eq_tail | rewrite eq_prod
    | rewrite eq_concat | rewrite eq_add_axis_0 | rewrite eq_add_axis_1
    | rewrite head_1 | rewrite tail_1 | rewrite head_2 | rewrite tail_2
    | rewrite tail_1_pair | rewrite tail_2_triple
    | progress cbn [app]
    | progress change (Z.opp 2) with (Zneg 2) ].

Ltac products :=
  rewrite ?product_app; unfold product; cbn [foldr]; ring.

Ltac finish :=
  cbn [mbind result_bind fst unpack1]; rewrite <- ?app_assoc; reflexivity.

Lemma plain_matrices (ta tb : bool) (a0 a1 b0 b1 m n : Z) :
  matrix_product ta tb a0 a1 b0 b1 = Some (m, n) ->
  run_program symbolicMatrixMul 2 2 ta tb [a0; a1] [b0; b1] = Ok (TensorVar [m; n]).
Proof.
  intros Hmn. run_body. rewrite (eq_matmul _ _ _ _ _ _ _ _ _ _ _ Hmn). finish.
Qed.

Lemma plain_vector_matrix (ta tb : bool) (k b0 b1 n : Z) :
  matrix_product ta tb 1 k b0 b1 = Some (1, n) ->
  run_program symbolicMatrixMul 1 2 ta tb [k] [b0; b1] = Ok (TensorVar [n]).
Proof.
  intros Hmn. run_body. primitives. rewrite (eq_matmul _ _ _ _ _ _ _ _ _ _ _ Hmn).
  change (apply_shape (RemoveAxis [2 - 2]) [TensorVar [1; n]]) with (TensorVar [n]).
  finish.
Qed.

Lemma plain_matrix_vector (ta tb : bool) (a0 a1 k m : Z) :
  matrix_product ta tb a0 a1 k 1 = Some (m, 1) ->
  run_program symbolicMatrixMul 2 1 ta tb [a0; a1] [k] = Ok (TensorVar [m]).
Proof.
  intros Hmn. run_body. primitives. rewrite (eq_matmul _ _ _ _ _ _ _ _ _ _ _ Hmn).
  change (apply_shape (RemoveAxis [2 - 1]) [TensorVar [m; 1]]) with (TensorVar [m]).
  finish.
Qed.

Lemma plain_batch (batch : list Z) (a0 a1 b0 b1 m n : Z) (tb : bool) (d1 : Z) :
  batch <> [] -> d1 = Z.of_nat (length (batch ++ [a0; a1])) ->
  matrix_product false tb a0 a1 b0 b1 = Some (m, n) ->
  run_program symbolicMatrixMul d1 2 false tb (batch ++ [a0; a1]) [b0; b1] =
  Ok (TensorVar (batch ++ [m; n])).
Proof.
  intros Hb Hd Hmn.
  assert (Hd3 : 3 <= d1).
  { subst d1. rewrite length_app. destruct batch; [contradiction|]. simpl. lia. }
  destruct (matrix_product_rows _ _ _ _ _ _ _ Hmn) as [-> Hrows].
  run_body. primitives.
  rewrite eq_reshape by products.
  rewrite (eq_matmul _ _ _ _ _ _ _ _ _ _ _ (Hrows _)).
  primitives.
  rewrite eq_reshape by products.
  finish.
Qed.

Lemma plain_batch_vector (batch : list Z) (a0 a1 k m : Z) (tb : bool) (d1 : Z) :
  batch <> [] -> d1 = Z.of_nat (length (batch ++ [a0; a1])) ->
  matrix_product false tb a0 a1 k 1 = Some (m, 1) ->
  run_program symbolicMatrixMul d1 1 false tb (batch ++ [a0; a1]) [k] =
  Ok (TensorVar (batch ++ [m])).
Proof.
  intros Hb Hd Hmn.
  assert (Hd3 : 3 <= d1).
  { subst d1. rewrite length_app. destruct batch; [contradiction|]. simpl. lia. }
  destruct (matrix_product_rows _ _ _ _ _ _ _ Hmn) as [-> Hrows].
  run_body. primitives.
  rewrite eq_reshape by products.
  rewrite (eq_matmul _ _ _ _ _ _ _ _ _ _ _ (Hrows _)).
  primitives.
  rewrite eq_reshape by products.
  rewrite (eq_remove_axis (batch ++ [a0]) [] (d1 - 1))
    by (subst d1; rewrite !length_app; simpl; lia).
  cbn [mbind result_bind fst unpack1]. now rewrite app_nil_r.
Qed.

Lemma eq_matmul_invalid (ta tb : bool) (cm fmt : string) (st a0 a1 b0 b1 : Z) :
  matrix_product ta tb a0 a1 b0 b1 = None ->
  apply_shape (MatrixMul ta tb cm fmt st) [TensorVar [a0; a1]; TensorVar [b0; b1]] =
  Invalid.
Proof. intros Hmn. simpl. now rewrite Hmn. Qed.

Lemma plain_batch_transposed (batch : list Z) (a0 a1 b0 b1 : Z) (tb : bool) (d1 : Z) :
  batch <> [] -> d1 = Z.of_nat (length (batch ++ [a0; a1])) ->
  product (batch ++ [a0]) <> fst (oriented tb b0 b1) ->
  run_program symbolicMatrixMul d1 2 true tb (batch ++ [a0; a1]) [b0; b1] = Ok Invalid.
Proof.
  intros Hb Hd Hne.
  assert (Hd3 : 3 <= d1).
  { subst d1. rewrite length_app. destruct batch; [contradiction|]. simpl. lia. }
  run_body. primitives.
  rewrite eq_reshape by products.
  rewrite eq_matmul_invalid; [reflexivity|].
  unfold matrix_product. simpl. destruct (oriented tb b0 b1) as [k' n]. simpl in Hne.
  destruct (_ =? k') eqn:Heq; [apply Z.eqb_eq in Heq; contradiction | reflexivity].
Qed.

(** The batched program on two operands of rank 2 or more, the batch
    extents of the second being the last batch extents of the first *)
Lemma batched_first_longer (pre batch : list Z) (a0 a1 b0 b1 m n : Z) (ta tb : bool)
    (d1 d2 : Z) :
  (pre ++ batch)%list <> [] ->
  d1 = Z.of_nat (length (pre ++ batch ++ [a0; a1])) ->
  d2 = Z.of_nat (length (batch ++ [b0; b1])) ->
  matrix_product ta tb a0 a1 b0 b1 = Some (m, n) ->
  run_program symbolicBatchedMatrixMul d1 d2 ta tb
    (pre ++ batch ++ [a0; a1]) (batch ++ [b0; b1]) =
  Ok (TensorVar (pre ++ batch ++ [m; n])).
Proof.
  intros Hne Hd1 Hd2 Hmn.
  assert (Hr1 : d1 = Z.of_nat (length pre) + Z.of_nat (length batch) + 2)
    by (subst d1; rewrite !length_app; simpl; lia).
  assert (Hr2 : d2 = Z.of_nat (length batch) + 2)
    by (subst d2; rewrite !length_app; simpl; lia).
  clear Hd1 Hd2.
  destruct (decide (pre = [])) as [-> | Hpre].
  - (* equal ranks *)
    cbn [app] in *. simpl length in *.
    destruct (decide (length batch = 1%nat)) as [Hone | Hmore].
    + destruct batch as [|b [|b' batch]]; try discriminate. simpl length in *.
      run_body. primitives.
      rewrite (eq_batched _ _ _ _ _ _ _ _ _ _ _ _ Hmn). finish.
    + assert (Hd4 : 4 <= d1).
      { destruct batch as [|b [|b' batch]]; simpl length in *;
          [contradiction | contradiction | lia]. }
      run_body. primitives.
      rewrite !eq_reshape by products.
      rewrite (eq_batched _ _ _ _ _ _ _ _ _ _ _ _ Hmn).
      primitives. rewrite eq_reshape by products. finish.
  - (* the second operand is broadcast *)
    assert (Hlen : 1 <= Z.of_nat (length pre)).
    { destruct pre; [contradiction | simpl length; lia]. }
    assert (Hhead : take (slice_point (pre ++ batch ++ [a0; a1]) (- d2))
                      (pre ++ batch ++ [a0; a1]) = pre).
    { apply slice_head_at; [destruct batch; discriminate|].
      rewrite length_app. simpl. lia. }
    destruct (decide (length pre = 1%nat /\ batch = [])) as [[Hone ->] | Hbig].
    + destruct pre as [|p [|p' pre]]; try discriminate. simpl length in *.
      run_body. primitives.
      change [p; a0; a1] with ([p] ++ [] ++ [a0; a1])%list. rewrite Hhead.
      primitives.
      rewrite (eq_broadcast [p] [b0; b1]
               : apply_shape Broadcast [TensorVar [b0; b1]; ShapeVar [p; b0; b1]] =
                 TensorVar [p; b0; b1]).
      primitives.
      rewrite (eq_batched _ _ _ _ _ _ _ _ _ _ _ _ Hmn). finish.
    + assert (Hd4 : 4 <= d1).
      { destruct batch; simpl length in *; [|lia].
        destruct pre as [|p [|p' pre]]; simpl length in *; [lia | tauto | lia]. }
      run_body. primitives.
      rewrite Hhead. primitives.
      rewrite eq_broadcast.
      rewrite (app_assoc pre batch [a0; a1]).
      rewrite (app_assoc pre batch [b0; b1]).
      primitives.
      rewrite !eq_reshape by products.
      rewrite (eq_batched _ _ _ _ _ _ _ _ _ _ _ _ Hmn).
      primitives. rewrite eq_reshape by products.
      cbn [mbind result_bind fst unpack1]. rewrite <- !app_assoc. reflexivity.
Qed.

(** The same, the batch extents of the first operand being the last
    batch extents of the second *)
Lemma batched_second_longer (pre batch : list Z) (a0 a1 b0 b1 m n : Z) (ta tb : bool)
    (d1 d2 : Z) :
  pre <> [] ->
  d1 = Z.of_nat (length (batch ++ [a0; a1])) ->
  d2 = Z.of_nat (length (pre ++ batch ++ [b0; b1])) ->
  matrix_product ta tb a0 a1 b0 b1 = Some (m, n) ->
  run_program symbolicBatchedMatrixMul d1 d2 ta tb
    (batch ++ [a0; a1]) (pre ++ batch ++ [b0; b1]) =
  Ok (TensorVar (pre ++ batch ++ [m; n])).
Proof.
  intros Hpre Hd1 Hd2 Hmn.
  assert (Hr1 : d1 = Z.of_nat (length batch) + 2)
    by (subst d1; rewrite !length_app; simpl; lia).
  assert (Hr2 : d2 = Z.of_nat (length pre) + Z.of_nat (length batch) + 2)
    by (subst d2; rewrite !length_app; simpl; lia).
  clear Hd1 Hd2.
  assert (Hlen : 1 <= Z.of_nat (length pre)).
  { destruct pre; [contradiction | simpl length; lia]. }
  assert (Hhead : take (slice_point (pre ++ batch ++ [b0; b1]) (- d1))
                    (pre ++ batch ++ [b0; b1]) = pre).
  { apply slice_head_at; [destruct batch; discriminate|].
    rewrite length_app. simpl. lia. }
  destruct (decide (length pre = 1%nat /\ batch = [])) as [[Hone ->] | Hbig].
  - destruct pre as [|p [|p' pre]]; try discriminate. simpl length in *.
    run_body. primitives.
    change [p; b0; b1] with ([p] ++ [] ++ [b0; b1])%list. rewrite Hhead.
    primitives.
    rewrite (eq_broadcast [p] [a0; a1]
             : apply_shape Broadcast [TensorVar [a0; a1]; ShapeVar [p; a0; a1]] =
               TensorVar [p; a0; a1]).
    primitives.
    rewrite (eq_batched _ _ _ _ _ _ _ _ _ _ _ _ Hmn). finish.
  - assert (Hd4 : 4 <= d2).
    { destruct batch; simpl length in *; [|lia].
      destruct pre as [|p [|p' pre]]; simpl length in *; [lia | tauto | lia]. }
    run_body. primitives.
    rewrite Hhead. primitives.
    rewrite eq_broadcast.
    rewrite (app_assoc pre batch [a0; a1]).
    rewrite (app_assoc pre batch [b0; b1]).
    primitives.
    rewrite !eq_reshape by products.
    rewrite (eq_batched _ _ _ _ _ _ _ _ _ _ _ _ Hmn).
    primitives. rewrite eq_reshape by products.
    cbn [mbind result_bind fst unpack1]. rewrite <- !app_assoc. reflexivity.
Qed.

(** The batched program on a vector and a tensor of rank 3 or more *)
Lemma batched_vector_first (full : list Z) (k b0 b1 n : Z) (ta tb : bool) (d2 : Z) :
  full <> [] ->
  d2 = Z.of_nat (length (full ++ [b0; b1])) ->
  matrix_product ta tb 1 k b0 b1 = Some (1, n) ->
  run_program symbolicBatchedMatrixMul 1 d2 ta tb [k] (full ++ [b0; b1]) =
  Ok (TensorVar (full ++ [n])).
Proof.
  intros Hfull Hd2 Hmn.
  assert (Hr2 : d2 = Z.of_nat (length full) + 2)
    by (subst d2; rewrite !length_app; simpl; lia).
  clear Hd2.
  assert (Hlen : 1 <= Z.of_nat (length full)).
  { destruct full; [contradiction | simpl length; lia]. }
  destruct (decide (length full = 1%nat)) as [Hone | Hbig].
  - destruct full as [|p [|p' full]]; try discriminate. simpl length in *.
    run_body. primitives.
    rewrite (eq_broadcast [p] [1; k]
             : apply_shape Broadcast [TensorVar [1; k]; ShapeVar [p; 1; k]] =
               TensorVar [p; 1; k]).
    rewrite (eq_batched _ _ _ _ _ _ _ _ _ _ _ _ Hmn).
    rewrite (eq_remove_axis [p] [n] (d2 - 2)
             : _ -> apply_shape (RemoveAxis [d2 - 2]) [TensorVar [p; 1; n]] = _)
      by (simpl; lia).
    finish.
  - assert (Hd4 : 4 <= d2).
    { destruct full as [|p [|p' full]]; simpl length in *; [lia | tauto | lia]. }
    run_body. primitives.
    rewrite eq_broadcast. primitives.
    rewrite !eq_reshape by products.
    rewrite (eq_batched _ _ _ _ _ _ _ _ _ _ _ _ Hmn).
    primitives. rewrite eq_reshape by products.
    rewrite (eq_remove_axis full [n] (d2 - 2)) by lia.
    finish.
Qed.

(** The batched program on a tensor of rank 3 or more and a vector *)
Lemma batched_vector_second (full : list Z) (a0 a1 k m : Z) (ta tb : bool) (d1 : Z) :
  full <> [] ->
  d1 = Z.of_nat (length (full ++ [a0; a1])) ->
  matrix_product ta tb a0 a1 k 1 = Some (m, 1) ->
  run_program symbolicBatchedMatrixMul d1 1 ta tb (full ++ [a0; a1]) [k] =
  Ok (TensorVar (full ++ [m])).
Proof.
  intros Hfull Hd1 Hmn.
  assert (Hr1 : d1 = Z.of_nat (length full) + 2)
    by (subst d1; rewrite !length_app; simpl; lia).
  clear Hd1.
  assert (Hlen : 1 <= Z.of_nat (length full)).
  { destruct full; [contradiction | simpl length; lia]. }
  destruct (decide (length full = 1%nat)) as [Hone | Hbig].
  - destruct full as [|p [|p' full]]; try discriminate. simpl length in *.
    run_body. primitives.
    rewrite (eq_broadcast [p] [k; 1]
             : apply_shape Broadcast [TensorVar [k; 1]; ShapeVar [p; k; 1]] =
               TensorVar [p; k; 1]).
    rewrite (eq_batched _ _ _ _ _ _ _ _ _ _ _ _ Hmn).
    rewrite (eq_remove_axis [p; m] [] (d1 - 1)
             : _ -> apply_shape (RemoveAxis [d1 - 1]) [TensorVar [p; m; 1]] = _)
      by (simpl; lia).
    finish.
  - assert (Hd4 : 4 <= d1).
    { destruct full as [|p [|p' full]]; simpl length in *; [lia | tauto | lia]. }
    run_body. primitives.
    rewrite eq_broadcast. primitives.
    rewrite !eq_reshape by products.
    rewrite (eq_batched _ _ _ _ _ _ _ _ _ _ _ _ Hmn).
    primitives. rewrite eq_reshape by products.
    replace (full ++ [m; 1])%list with ((full ++ [m]) ++ [1])%list
      by (rewrite <- app_assoc; reflexivity).
    rewrite (eq_remove_axis (full ++ [m]) [] (d1 - 1))
      by (rewrite length_app; simpl; lia).
    cbn [mbind result_bind fst unpack1]. now rewrite app_nil_r.
Qed.

(** The plain program computes the shape of the matrix product for
    the ranks that [_matmul] dispatches to it: two matrices; a vector
    and a matrix, the vector being a row; a matrix and a vector, the
    vector being a column; a tensor of rank 3 or more that is not
    transposed and a matrix or a vector, the leading extents of the
    tensor being kept.  It does not for a transposed tensor of rank 3 or
    more: the rows of the flattened tensor do not fit the other
    operand. *)
Theorem plain_program_shape (ta tb : bool) (a0 a1 b0 b1 k m n : Z) (batch : list Z) :
  (matrix_product ta tb a0 a1 b0 b1 = Some (m, n) ->
   run_program symbolicMatrixMul 2 2 ta tb [a0; a1] [b0; b1] = Ok (TensorVar [m; n])) /\
  (matrix_product ta tb 1 k b0 b1 = Some (1, n) ->
   run_program symbolicMatrixMul 1 2 ta tb [k] [b0; b1] = Ok (TensorVar [n])) /\
  (matrix_product ta tb a0 a1 k 1 = Some (m, 1) ->
   run_program symbolicMatrixMul 2 1 ta tb [a0; a1] [k] = Ok (TensorVar [m])) /\
  (batch <> [] -> matrix_product false tb a0 a1 b0 b1 = Some (m, n) ->
   run_program symbolicMatrixMul (Z.of_nat (length (batch ++ [a0; a1]))) 2 false tb
     (batch ++ [a0; a1]) [b0; b1] =
   Ok (TensorVar (batch ++ [m; n]))) /\
  (batch <> [] -> matrix_product false tb a0 a1 k 1 = Some (m, 1) ->
   run_program symbolicMatrixMul (Z.of_nat (length (batch ++ [a0; a1]))) 1 false tb
     (batch ++ [a0; a1]) [k] =
   Ok (TensorVar (batch ++ [m]))) /\
  (batch <> [] -> product (batch ++ [a0]) <> fst (oriented tb b0 b1) ->
   run_program symbolicMatrixMul (Z.of_nat (length (batch ++ [a0; a1]))) 2 true tb
     (batch ++ [a0; a1]) [b0; b1] =
   Ok Invalid).
Proof.
  split; [apply plain_matrices|]. split; [apply plain_vector_matrix|].
  split; [apply plain_matrix_vector|].
  split; [intros; now apply plain_batch|].
  split; [intros; now apply plain_batch_vector|].
  intros; now apply plain_batch_transposed.
Qed.

(** The batched program computes the shape of the batched product of
    two tensors of rank 2 or more, of which one has rank 3 or more, when
    the batch extents of the one are the last batch extents of the
    other: the batch extents of the longer, then the extents of the
    matrix product.  A vector operand is taken for a row (first) or a
    column (second), and its unit axis is not in the result. *)
Theorem batched_program_shape (ta tb : bool) (a0 a1 b0 b1 k m n : Z)
    (pre batch : list Z) :
  ((pre ++ batch)%list <> [] -> matrix_product ta tb a0 a1 b0 b1 = Some (m, n) ->
   run_program symbolicBatchedMatrixMul
     (Z.of_nat (length (pre ++ batch ++ [a0; a1])))
     (Z.of_nat (length (batch ++ [b0; b1]))) ta tb
     (pre ++ batch ++ [a0; a1]) (batch ++ [b0; b1]) =
   Ok (TensorVar (pre ++ batch ++ [m; n]))) /\
  (pre <> [] -> matrix_product ta tb a0 a1 b0 b1 = Some (m, n) ->
   run_program symbolicBatchedMatrixMul
     (Z.of_nat (length (batch ++ [a0; a1])))
     (Z.of_nat (length (pre ++ batch ++ [b0; b1]))) ta tb
     (batch ++ [a0; a1]) (pre ++ batch ++ [b0; b1]) =
   Ok (TensorVar (pre ++ batch ++ [m; n]))) /\
  (batch <> [] -> matrix_product ta tb 1 k b0 b1 = Some (1, n) ->
   run_program symbolicBatchedMatrixMul 1 (Z.of_nat (length (batch ++ [b0; b1]))) ta tb
     [k] (batch ++ [b0; b1]) =
   Ok (TensorVar (batch ++ [n]))) /\
  (batch <> [] -> matrix_product ta tb a0 a1 k 1 = Some (m, 1) ->
   run_program symbolicBatchedMatrixMul (Z.of_nat (length (batch ++ [a0; a1]))) 1 ta tb
     (batch ++ [a0; a1]) [k] =
   Ok (TensorVar (batch ++ [m]))).
Proof.
  split; [intros; now apply batched_first_longer|].
  split; [intros; now apply batched_second_longer|].
  split; [intros; now apply batched_vector_first|].
  intros; now apply batched_vector_second.
Qed.

Lemma select_path_ranks (d1 d2 : Z) (ta : bool) :
  1 <= d1 -> 1 <= d2 ->
  select_path d1 d2 ta =
  if decide (d1 = 1 /\ d2 = 1) then DotPath
  else if decide ((d1 <= 2 /\ d2 <= 2) \/ (d2 <= 2 /\ ta = false)) then PlainPath
       else BatchedPath.
Proof.
  intros Hd1 Hd2. unfold select_path.
  destruct (decide (d1 = 1 /\ d2 = 1)); [reflexivity|].
  destruct (decide (Z.max d1 d2 <= 2 \/ _)) as [Hp | Hp];
    destruct (decide ((d1 <= 2 /\ d2 <= 2) \/ _)) as [Hq | Hq];
    try reflexivity; exfalso.
  - apply Hq. destruct Hp as [Hp | Hp]; [left; lia | right; exact Hp].
  - apply Hp. destruct Hq as [Hq | Hq]; [left; lia | right; exact Hq].
Qed.

Ltac not_nil :=
  let Hnil := fresh in
  intros Hnil; apply (f_equal length) in Hnil;
  rewrite ?length_app in Hnil; simpl in Hnil; lia.

Lemma dispatched_path (ta tb : bool) (shape1 shape2 : list Z) :
  shape1 <> [] -> shape2 <> [] ->
  dispatched ta tb shape1 shape2 =
  let d1 := Z.of_nat (length shape1) in
  let d2 := Z.of_nat (length shape2) in
  match select_path d1 d2 ta with
  | DotPath => None
  | PlainPath => Some (run_program symbolicMatrixMul d1 d2 ta tb shape1 shape2)
  | BatchedPath => Some (run_program symbolicBatchedMatrixMul d1 d2 ta tb shape1 shape2)
  end.
Proof.
  intros Hs1 Hs2. unfold dispatched. cbv zeta.
  rewrite (MethodFacts.matmul_run (Shapes.float_tensor shape1) (Shapes.float_tensor shape2)
             ta tb "default" "default"
             (Z.of_nat (length shape1)) (Z.of_nat (length shape2)));
    [ | reflexivity | reflexivity
      | destruct shape1; [contradiction | simpl length; lia]
      | destruct shape2; [contradiction | simpl length; lia] ].
  destruct (select_path _ _ ta); reflexivity.
Qed.

(** Whatever path [_matmul] selects from the ranks and the flag, the
    program of the path computes the shape of the product: for two
    operands of rank 2 or more of which one has the batch extents of the
    other as its last batch extents, the batch extents of the longer and
    then the extents of the matrix product; for a vector and an operand
    of rank 2 or more, the same without the unit axis of the vector.
    Two vectors are not given to a program. *)
Theorem dispatched_shape (ta tb : bool) (a0 a1 b0 b1 k m n : Z) (pre batch : list Z) :
  (matrix_product ta tb a0 a1 b0 b1 = Some (m, n) ->
   dispatched ta tb (pre ++ batch ++ [a0; a1]) (batch ++ [b0; b1]) =
     Some (Ok (TensorVar (pre ++ batch ++ [m; n]))) /\
   dispatched ta tb (batch ++ [a0; a1]) (pre ++ batch ++ [b0; b1]) =
     Some (Ok (TensorVar (pre ++ batch ++ [m; n])))) /\
  (matrix_product ta tb 1 k b0 b1 = Some (1, n) ->
   dispatched ta tb [k] (batch ++ [b0; b1]) = Some (Ok (TensorVar (batch ++ [n])))) /\
  (matrix_product ta tb a0 a1 k 1 = Some (m, 1) ->
   dispatched ta tb (batch ++ [a0; a1]) [k] = Some (Ok (TensorVar (batch ++ [m])))) /\
  dispatched ta tb [a0] [b0] = None.
Proof.
  assert (Hfirst : forall pre batch : list Z,
    matrix_product ta tb a0 a1 b0 b1 = Some (m, n) ->
    dispatched ta tb (pre ++ batch ++ [a0; a1]) (batch ++ [b0; b1]) =
    Some (Ok (TensorVar (pre ++ batch ++ [m; n])))).
  { clear pre batch. intros pre batch Hmn.
    rewrite dispatched_path by not_nil.
    cbv zeta.
    set (d1 := Z.of_nat (length (pre ++ batch ++ [a0; a1]))).
    set (d2 := Z.of_nat (length (batch ++ [b0; b1]))).
    assert (Hr1 : d1 = Z.of_nat (length pre) + Z.of_nat (length batch) + 2)
      by (subst d1; rewrite !length_app; simpl; lia).
    assert (Hr2 : d2 = Z.of_nat (length batch) + 2)
      by (subst d2; rewrite !length_app; simpl; lia).
    rewrite select_path_ranks by lia.
    destruct (decide (d1 = 1 /\ d2 = 1)); [lia|].
    destruct (decide _) as [Hplain | Hbatched].
    - assert (batch = []) as -> by (destruct batch; [reflexivity | simpl in *; lia]).
      destruct (decide (pre = [])) as [-> | Hpre].
      + f_equal. now apply plain_matrices.
      + assert (ta = false) as ->.
        { destruct Hplain as [[Hp _] | [_ Hp]]; [|exact Hp].
          destruct pre; [contradiction | simpl in *; lia]. }
        f_equal. cbn [app]. now apply plain_batch.
    - f_equal. apply batched_first_longer; auto.
      intros Hnil. apply app_eq_nil in Hnil as [-> ->]. simpl in *.
      apply Hbatched. left. lia. }
  split; [|split; [|split]].
  - intros Hmn. split; [now apply Hfirst|].
    destruct (decide (pre = [])) as [-> | Hpre]; [exact (Hfirst [] batch Hmn)|].
    rewrite dispatched_path by not_nil.
    cbv zeta.
    set (d1 := Z.of_nat (length (batch ++ [a0; a1]))).
    set (d2 := Z.of_nat (length (pre ++ batch ++ [b0; b1]))).
    assert (Hr1 : d1 = Z.of_nat (length batch) + 2)
      by (subst d1; rewrite !length_app; simpl; lia).
    assert (Hr2 : d2 = Z.of_nat (length pre) + Z.of_nat (length batch) + 2)
      by (subst d2; rewrite !length_app; simpl; lia).
    assert (Hlen : 1 <= Z.of_nat (length pre))
      by (destruct pre; [contradiction | simpl; lia]).
    rewrite select_path_ranks by lia.
    destruct (decide (d1 = 1 /\ d2 = 1)); [lia|].
    destruct (decide _) as [Hplain | Hbatched]; [lia|].
    f_equal. now apply batched_second_longer.
  - intros Hmn.
    rewrite dispatched_path by not_nil.
    cbv zeta.
    set (d2 := Z.of_nat (length (batch ++ [b0; b1]))).
    assert (Hr2 : d2 = Z.of_nat (length batch) + 2)
      by (subst d2; rewrite !length_app; simpl; lia).
    change (Z.of_nat (length [k])) with 1.
    rewrite select_path_ranks by lia.
    destruct (decide (1 = 1 /\ d2 = 1)); [lia|].
    destruct (decide _) as [Hplain | Hbatched].
    + assert (batch = []) as -> by (destruct batch; [reflexivity | simpl in *; lia]).
      f_equal. now apply plain_vector_matrix.
    + f_equal. apply batched_vector_first; auto.
      intros ->. simpl in *. apply Hbatched. left. lia.
  - intros Hmn.
    rewrite dispatched_path by not_nil.
    cbv zeta.
    set (d1 := Z.of_nat (length (batch ++ [a0; a1]))).
    assert (Hr1 : d1 = Z.of_nat (length batch) + 2)
      by (subst d1; rewrite !length_app; simpl; lia).
    change (Z.of_nat (length [k])) with 1.
    rewrite select_path_ranks by lia.
    destruct (decide (d1 = 1 /\ 1 = 1)); [lia|].
    destruct (decide _) as [Hplain | Hbatched].
    + destruct (decide (batch = [])) as [-> | Hb].
      * f_equal. now apply plain_matrix_vector.
      * assert (ta = false) as ->.
        { destruct Hplain as [[Hp _] | [_ Hp]]; [|exact Hp].
          destruct batch; [contradiction | simpl in *; lia]. }
        f_equal. now apply plain_batch_vector.
    + f_equal. apply batched_vector_second; auto.
      intros ->. simpl in *. apply Hbatched. left. lia.
  - reflexivity.
Qed.

End MatmulGraphFacts.

(* ===================================================================== *)
(** * The properties, on concrete inputs *)
(* ===================================================================== *)

Module ConcreteMore.
Import IEEE754 Numpy Dtype ArrayMethod Shapes QuantSpec DispatchSpec.
Import DtypeBits ConversionSpec Methods MatmulGraph ShapeGraph ShapeMethods.

Lemma get_dtype_bit_failures_int8x4 :
  (digit_free "int" /\ "int" <> "bool") /\
  get_dtype_bit "int" =
    Raise (AssertionError "Unsupport dtype name with more than one number.") /\
  get_dtype_bit "int8x4" =
    Raise (AssertionError "Unsupport dtype name with more than one number.").
Proof.
  assert (H1 : digit_free "int") by reflexivity.
  assert (H2 : "int" <> "bool") by discriminate.
  assert (H3 : digits "8") by (split; [discriminate | reflexivity]).
  assert (H4 : digits "4") by (split; [discriminate | reflexivity]).
  split; [auto|]. split.
  - exact (proj1 (proj2 DtypeBitsFacts.get_dtype_bit_failures) "int" H1 H2).
  - exact (proj2 (proj2 DtypeBitsFacts.get_dtype_bit_failures)
             "int" "8" "x"%char EmptyString "4" EmptyString H1 H3 eq_refl eq_refl H4).
Defined.


Lemma convert_from_outcome_quint8 :
  accepts quint8_meta quint8_0_1_128 /\
  exists values,
    _convert_from_quantized_dtype (Ndarray (NdInt quint8_0_1_128 [2] [1; 2])) quint8_meta =
    Ok (NdFloat (FloatArray float32 [2] values)) /\
    length values = 2%nat.
Proof.
  assert (H1 : accepts quint8_meta quint8_0_1_128).
  { eexists. split; [reflexivity|]. split; [reflexivity|]. intros _. eexists. reflexivity. }
  split; [exact H1|].
  exact (proj1 (proj2 (ConversionFacts.convert_from_outcome
           (NdInt quint8_0_1_128 [2] [1; 2]) quint8_meta)) H1).
Defined.

Lemma created_type_stamped_quint8 :
  create_quantized_dtype quint8_meta float_0_1 (Some (IntN 128)) = Ok quint8_0_1_128 /\
  exists (c : string) (z : option Z),
    cname quint8_meta = Some c /\
    quint8_0_1_128 = Dtype (np_dtype_str quint8_meta) (Some (MgbDtype c float_0_1 z)) /\
    (is_unsigned quint8_meta = true ->
     exists n i, Some (IntN 128) = Some n /\ int_ n = Ok i /\ z = Some i /\
                 qmin quint8_meta <= i <= qmax quint8_meta) /\
    (is_unsigned quint8_meta = false -> z = None).
Proof.
  assert (H1 : create_quantized_dtype quint8_meta float_0_1 (Some (IntN 128)) =
               Ok quint8_0_1_128) by reflexivity.
  split; [exact H1|].
  exact (ConversionFacts.created_type_stamped _ _ _ _ H1).
Defined.

Lemma created_type_accepted_narrow :
  create_quantized_dtype qint8_narrow_meta float_0_1 None =
    Ok (Dtype "int8" (Some (MgbDtype "QuantizedS8" float_0_1 None))) /\
  (accepts qint8_meta (Dtype "int8" (Some (MgbDtype "QuantizedS8" float_0_1 None))) <->
   cname qint8_meta = cname qint8_narrow_meta /\
   (is_unsigned qint8_meta = true -> is_unsigned qint8_narrow_meta = true)).
Proof.
  assert (H1 : create_quantized_dtype qint8_narrow_meta float_0_1 None =
               Ok (Dtype "int8" (Some (MgbDtype "QuantizedS8" float_0_1 None))))
    by reflexivity.
  split; [exact H1|].
  exact (proj1 (ConversionFacts.created_type_accepted qint8_meta _ _ _ _ H1)).
Defined.


Lemma arithmetic_operators_sub :
  In (__rsub__ (T := tensor), SUB, true) binary_operators /\
  run (__rsub__ (float_tensor [2; 3]) (float_tensor [3])) =
  (apply1 (Elemwise SUB) [float_tensor [3]; float_tensor [2; 3]],
   [CallApply (Elemwise SUB) [float_tensor [3]; float_tensor [2; 3]]]).
Proof.
  assert (H1 : In (__rsub__ (T := tensor), SUB, true) binary_operators).
  { unfold binary_operators. simpl. tauto. }
  split; [exact H1|].
  exact (proj1 (MethodFacts.arithmetic_operators (float_tensor [2; 3]) (float_tensor [3]))
           __rsub__ SUB true H1).
Defined.

Lemma matmul_call_arguments_4_2 :
  (ndim (float_tensor [2; 3; 4; 5]) = Ok 4 /\ ndim (float_tensor [5; 6]) = Ok 2 /\
   1 <= 4 /\ 1 <= 2) /\
  run (_matmul (float_tensor [2; 3; 4; 5]) (float_tensor [5; 6]) true false
         "default" "default") =
    (let a := matmul_call (float_tensor [2; 3; 4; 5]) (float_tensor [5; 6]) 4 2
                true false "default" "default" symbolicBatchedMatrixMul in
     (batched_matmul_cpp a, [CallBatchedMatmul a])).
Proof.
  assert (H1 : ndim (float_tensor [2; 3; 4; 5]) = Ok 4) by reflexivity.
  assert (H2 : ndim (float_tensor [5; 6]) = Ok 2) by reflexivity.
  assert (H3 : 1 <= 4) by lia.
  assert (H4 : 1 <= 2) by lia.
  split; [auto|].
  exact (proj1 (MethodFacts.matmul_call_arguments
                  (float_tensor [2; 3; 4; 5]) (float_tensor [5; 6]) true false
                  "default" "default" 4 2 H1 H2 H3 H4)).
Defined.

Lemma matmul_rejects_scalar :
  (ndim (float_tensor []) = Ok 0 /\ ndim (float_tensor [5; 6]) = Ok 2 /\
   (0 <= 0 \/ 2 <= 0)) /\
  run (_matmul (float_tensor []) (float_tensor [5; 6]) false false "default" "default") =
  (Raise (AssertionError EmptyString), []).
Proof.
  assert (H1 : ndim (float_tensor []) = Ok 0) by reflexivity.
  assert (H2 : ndim (float_tensor [5; 6]) = Ok 2) by reflexivity.
  assert (H3 : 0 <= 0 \/ 2 <= 0) by (left; lia).
  split; [auto|].
  exact (proj1 (MethodFacts.matmul_rejects (float_tensor []) (float_tensor [5; 6])
                  false false "default" "default") 0 2 H1 H2 H3).
Defined.

Lemma inplace_resets_self_add :
  In (__iadd__ (T := tensor), __add__ (T := tensor)) inplace_operators /\
  exec (__iadd__ (float_tensor [2; 3]) (float_tensor [3])) =
  (Ok (float_tensor [2; 3]),
   [Call (CallApply (Elemwise ADD) [float_tensor [2; 3]; float_tensor [3]]);
    CallReset (float_tensor [2; 3]) (float_tensor [2; 3])]).
Proof.
  assert (H1 : In (__iadd__ (T := tensor), __add__ (T := tensor)) inplace_operators).
  { unfold inplace_operators. simpl. tauto. }
  split; [exact H1|].
  exact (proj1 (MethodFacts.inplace_resets_self (float_tensor [2; 3]) (float_tensor [3]))
           __iadd__ __add__ H1).
Defined.

Lemma setitem_resets_self_0 :
  IntIndex 0 <> Ellipsis /\
  exec (__setitem__ (float_tensor [2; 3]) (IntIndex 0) (float_tensor [3])) =
  (Ok tt,
   [CallSetitem (float_tensor [2; 3]) (IntIndex 0) (float_tensor [3]);
    CallReset (float_tensor [2; 3]) (float_tensor [2; 3])]).
Proof.
  assert (H1 : IntIndex 0 <> Ellipsis) by discriminate.
  split; [exact H1|].
  exact (proj2 (MethodFacts.setitem_resets_self
                  (float_tensor [2; 3]) (float_tensor [3]) (IntIndex 0)) H1).
Defined.

Lemma len_first_extent_2_3 :
  _tuple_shape (float_tensor [2; 3]) = Some [2; 3] /\
  __len__ (float_tensor [2; 3]) = Ok 2.
Proof.
  assert (H1 : _tuple_shape (float_tensor [2; 3]) = Some [2; 3]) by reflexivity.
  split; [exact H1|].
  exact (proj1 (MethodFacts.len_first_extent (float_tensor [2; 3])) 2 [3] H1).
Defined.

Lemma iter_fetches_items_2_3 :
  (_tuple_shape (float_tensor [2; 3]) = Some [2; 3] /\ 0 <= 2) /\
  exists k : nat,
    snd (exec (__iter__ (float_tensor [2; 3]))) =
      map (fun i => CallGetitem (float_tensor [2; 3]) (IntIndex i)) (take k (range 2)) /\
    (forall xs, fst (exec (__iter__ (float_tensor [2; 3]))) = Ok xs ->
       Z.of_nat k = 2 /\ Z.of_nat (length xs) = 2 /\
       Forall2 (fun i x => getitem_cpp (float_tensor [2; 3]) (IntIndex i) = Ok x)
         (range 2) xs) /\
    (forall e, fst (exec (__iter__ (float_tensor [2; 3]))) = Raise e ->
       (1 <= k)%nat /\ Z.of_nat k <= 2 /\
       getitem_cpp (float_tensor [2; 3]) (IntIndex (Z.of_nat k - 1)) = Raise e /\
       forall i, 0 <= i < Z.of_nat k - 1 ->
         exists x, getitem_cpp (float_tensor [2; 3]) (IntIndex i) = Ok x).
Proof.
  assert (H1 : _tuple_shape (float_tensor [2; 3]) = Some [2; 3]) by reflexivity.
  assert (H2 : 0 <= 2) by lia.
  split; [auto|].
  exact (proj1 (MethodFacts.iter_fetches_items (float_tensor [2; 3])) 2 [3] H1 H2).
Defined.

Lemma item_checks_size_2_3 :
  (shape (float_tensor [2; 3]) = TupleShape [2; 3] /\
   wrap64 (foldr Z.mul 1 [2; 3]) <> 1) /\
  exec (item (float_tensor [2; 3]) []) = (Raise (AssertionError EmptyString), []).
Proof.
  assert (H1 : shape (float_tensor [2; 3]) = TupleShape [2; 3]) by reflexivity.
  assert (H2 : wrap64 (foldr Z.mul 1 [2; 3]) <> 1) by (vm_compute; discriminate).
  split; [auto|].
  exact (proj1 (proj2 (MethodFacts.item_checks_size (float_tensor [2; 3]))) 2 [3] H1 H2).
Defined.

Lemma program_structure_no_input :
  length (@nil var) <> 2%nat /\
  program apply_shape constant symbolicBatchedMatrixMul "cpu0" 3 3 false false
    "default" "default" 0 [] =
  Raise (AssertionError EmptyString).
Proof.
  assert (H1 : length (@nil var) <> 2%nat) by discriminate.
  split; [exact H1|].
  exact (proj1 (MatmulGraphFacts.program_structure apply_shape constant
                  symbolicBatchedMatrixMul "cpu0" 3 3 false false "default" "default" 0)
           [] H1).
Defined.

Lemma plain_program_shape_4_2 :
  ([2; 3] <> @nil Z /\ matrix_product false false 4 5 5 6 = Some (4, 6)) /\
  run_program symbolicMatrixMul 4 2 false false [2; 3; 4; 5] [5; 6] =
  Ok (TensorVar [2; 3; 4; 6]).
Proof.
  assert (H1 : [2; 3] <> @nil Z) by discriminate.
  assert (H2 : matrix_product false false 4 5 5 6 = Some (4, 6)) by reflexivity.
  split; [auto|].
  exact (proj1 (proj2 (proj2 (proj2
           (MatmulGraphFacts.plain_program_shape false false 4 5 5 6 0 4 6 [2; 3]))))
           H1 H2).
Defined.

Lemma batched_program_shape_5_3 :
  (([7; 2] ++ [3])%list <> @nil Z /\ matrix_product true false 5 4 5 6 = Some (4, 6)) /\
  run_program symbolicBatchedMatrixMul 5 3 true false [7; 2; 3; 5; 4] [3; 5; 6] =
  Ok (TensorVar [7; 2; 3; 4; 6]).
Proof.
  assert (H1 : ([7; 2] ++ [3])%list <> @nil Z) by discriminate.
  assert (H2 : matrix_product true false 5 4 5 6 = Some (4, 6)) by reflexivity.
  split; [auto|].
  exact (proj1 (MatmulGraphFacts.batched_program_shape true false 5 4 5 6 0 4 6 [7; 2] [3])
           H1 H2).
Defined.

Lemma dispatched_shape_4_2 :
  matrix_product true false 5 4 5 6 = Some (4, 6) /\
  dispatched true false [2; 3; 5; 4] [5; 6] = Some (Ok (TensorVar [2; 3; 4; 6])) /\
  dispatched true false [5; 4] [2; 3; 5; 6] = Some (Ok (TensorVar [2; 3; 4; 6])).
Proof.
  assert (H1 : matrix_product true false 5 4 5 6 = Some (4, 6)) by reflexivity.
  split; [exact H1|].
  exact (proj1 (MatmulGraphFacts.dispatched_shape true false 5 4 5 6 0 4 6 [2; 3] []) H1).
Defined.

End ConcreteMore.

(* ===================================================================== *)
(** * The conversions, element by element *)
(* ===================================================================== *)

Module ElementFacts.
Import IEEE754 Numpy Dtype QuantSpec ElementSpec.

Lemma nearest_even_fraction (n : Z) (p : positive) :
  nearest_even (n # p) =
  match 2 * (n mod Z.pos p) ?= Z.pos p with
  | Lt => n / Z.pos p
  | Eq => if Z.even (n / Z.pos p) then n / Z.pos p else n / Z.pos p + 1
  | Gt => n / Z.pos p + 1
  end.
Proof.
  unfold nearest_even. cbv zeta.
  change (Qfloor (n # p)) with (n / Z.pos p).
  replace ((n # p) - inject_Z (n / Z.pos p) ?= 1 # 2)%Q
    with (2 * (n mod Z.pos p) ?= Z.pos p); [reflexivity|].
  unfold Qcompare, Qminus, Qplus, Qopp, inject_Z. simpl Qnum. simpl Qden.
  rewrite Pos.mul_1_r, Z.mul_1_r, Z.mul_1_l.
  f_equal. rewrite Z.mod_eq by lia. lia.
Qed.

Lemma power_positive (e : Z) : e < 0 -> Z.pos (Z.to_pos (2 ^ (- e))) = 2 ^ (- e).
Proof.
  intros He. assert (0 < 2 ^ (- e)) by (apply Z.pow_pos_nonneg; lia).
  rewrite Z2Pos.id; lia.
Qed.

Lemma round_half_even_nonneg (m : positive) (e : Z) :
  e < 0 -> 0 <= round_half_even m e.
Proof.
  intros He. unfold round_half_even. cbv zeta.
  assert (Hd : 0 < 2 ^ (- e)) by (apply Z.pow_pos_nonneg; lia).
  assert (Hq : 0 <= Z.pos m / 2 ^ (- e)) by (apply Z.div_pos; lia).
  destruct (2 * (Z.pos m mod 2 ^ (- e)) ?= 2 ^ (- e)); [|lia|lia].
  destruct (Z.even _); lia.
Qed.

(** The rounding of the model is the rounding of the exact value. *)
Lemma nearest_even_magnitude (s : bool) (m : positive) (e : Z) (v : Q) :
  e < 0 ->
  to_Q (S754_finite s m e) = Some v ->
  nearest_even v = if s then - round_half_even m e else round_half_even m e.
Proof.
  intros He. simpl.
  assert (Hnot : (0 <=? e) = false) by (apply Z.leb_gt; lia).
  rewrite Hnot. intros [= <-].
  pose proof (power_positive e He) as Hp.
  assert (Hd : 0 < 2 ^ (- e)) by (apply Z.pow_pos_nonneg; lia).
  unfold round_half_even. cbv zeta.
  destruct s.
  - change (- (Z.pos m # Z.to_pos (2 ^ (- e))))%Q with (Z.neg m # Z.to_pos (2 ^ (- e))).
    rewrite nearest_even_fraction, Hp.
    set (d := 2 ^ (- e)) in *.
    pose proof (Z.div_mod (Z.pos m) d ltac:(lia)) as Hm.
    pose proof (Z.mod_pos_bound (Z.pos m) d Hd) as Hr.
    pose proof (Z.div_mod (Z.neg m) d ltac:(lia)) as Hm'.
    pose proof (Z.mod_pos_bound (Z.neg m) d Hd) as Hr'.
    set (q := Z.pos m / d) in *. set (r := Z.pos m mod d) in *.
    set (q' := Z.neg m / d) in *. set (r' := Z.neg m mod d) in *.
    assert (Hneg : Z.neg m = - Z.pos m) by reflexivity.
    assert (Hcase : (r = 0 /\ r' = 0 /\ q' = - q) \/
                    (0 < r /\ r' = d - r /\ q' = - q - 1)).
    { clearbody q r q' r'. destruct (Z.eq_dec r 0) as [Hz | Hz].
      - left.
        destruct (Z.div_mod_unique d q' (- q) r' 0) as [Hq Hr0]; [lia | lia | lia |].
        lia.
      - right.
        destruct (Z.div_mod_unique d q' (- q - 1) r' (d - r)) as [Hq Hr0];
          [lia | lia | lia |].
        lia. }
    destruct Hcase as [(Hr0 & Hr0' & ->) | (Hrp & -> & ->)].
    + rewrite Hr0, Hr0'. destruct (Z.compare_spec (2 * 0) d); lia.
    + destruct (Z.compare_spec (2 * (d - r)) d), (Z.compare_spec (2 * r) d); try lia.
      replace (- q - 1) with (- (q + 1)) by lia.
      rewrite Z.even_opp, Z.even_add. change (Z.even 1) with false.
      destruct (Z.even q); simpl; lia.
  - rewrite nearest_even_fraction, Hp. reflexivity.
Qed.

Lemma rint_rounded (t : float_type) (x : spec_float) :
  rint (format_of t) x = rounded t x.
Proof.
  destruct x as [s | s | | s m e]; try reflexivity.
  unfold rint, rounded.
  destruct (Z.leb_spec 0 e) as [He | He].
  - assert (Hlt : (e <? 0) = false) by (apply Z.ltb_ge; lia). now rewrite Hlt.
  - assert (Hlt : (e <? 0) = true) by (apply Z.ltb_lt; lia). rewrite Hlt.
    destruct (to_Q (S754_finite s m e)) as [v|] eqn:Hv; [|discriminate].
    cbv zeta. rewrite (nearest_even_magnitude s m e v He Hv).
    pose proof (round_half_even_nonneg m e He) as Hk.
    destruct (round_half_even m e) as [|k|k]; [destruct s; reflexivity | | lia].
    destruct s, t; reflexivity.
Qed.

(** The truncation of the model is the exact value without its
    fraction. *)
Lemma trunc_toward_zero (x : spec_float) (v : Q) :
  to_Q x = Some v -> trunc x = Some (toward_zero v).
Proof.
  destruct x as [s | s | | s m e]; simpl; try discriminate.
  - intros [= <-]. reflexivity.
  - intros [= <-]. f_equal. unfold toward_zero.
    destruct (Z.leb_spec 0 e) as [He | He].
    + assert (Ha : 0 < Z.pos m * 2 ^ e)
        by (apply Z.mul_pos_pos; [lia | apply Z.pow_pos_nonneg; lia]).
      set (a := Z.pos m * 2 ^ e) in *. clearbody a.
      destruct s.
      * unfold Qle_bool, Qceiling, Qfloor, Qopp, inject_Z. simpl Qnum. simpl Qden.
        rewrite ?Z.opp_involutive, ?Z.div_1_r.
        destruct (_ <=? _) eqn:E; [apply Z.leb_le in E; lia | reflexivity].
      * unfold Qle_bool, Qceiling, Qfloor, Qopp, inject_Z. simpl Qnum. simpl Qden.
        rewrite ?Z.opp_involutive, ?Z.div_1_r.
        destruct (_ <=? _) eqn:E; [reflexivity | apply Z.leb_gt in E; lia].
    + pose proof (power_positive e He) as Hp.
      set (p := Z.to_pos (2 ^ (- e))) in *. rewrite <- Hp.
      destruct s.
      * unfold Qle_bool, Qceiling, Qfloor, Qopp. simpl Qnum. simpl Qden.
        rewrite ?Z.opp_involutive.
        destruct (_ <=? _) eqn:E; [apply Z.leb_le in E; lia | reflexivity].
      * unfold Qle_bool, Qceiling, Qfloor, Qopp. simpl Qnum. simpl Qden.
        destruct (_ <=? _) eqn:E; [reflexivity | apply Z.leb_gt in E; lia].
Qed.

Lemma clip_clipped (lo hi x : spec_float) :
  ordered lo hi = true ->
  minimum (maximum x lo) hi = clipped lo hi x.
Proof.
  intros Hord.
  assert (Hhi : is_nan hi = false) by (destruct hi; [reflexivity.. | discriminate | reflexivity]).
  assert (Hlo : is_nan lo = false).
  { destruct lo; try reflexivity. destruct hi; discriminate. }
  assert (Hrev : SFltb hi lo = false).
  { unfold ordered in Hord. unfold SFltb.
    destruct (SFcompare hi lo) as [[| |]|]; try discriminate; reflexivity. }
  unfold minimum, maximum, clipped. rewrite Hlo.
  destruct (is_nan x) eqn:Hx.
  - destruct x; try discriminate. simpl. destruct hi; reflexivity.
  - destruct (SFltb x lo) eqn:Hxl.
    + rewrite Hlo, Hhi, Hrev. reflexivity.
    + rewrite Hx, Hhi. reflexivity.
Qed.

Lemma bounds_of_int_range (name : string) (least greatest : Z) :
  bounds_of name = Some (least, greatest) ->
  int_range name = Some (least, greatest - least + 1) /\
  least <= greatest /\
  (String.eqb name "uint64" = false ->
   - 2 ^ (register_bits name - 1) <= least /\ greatest < 2 ^ (register_bits name - 1)) /\
  (String.eqb name "uint64" = true -> least = 0 /\ greatest = 2 ^ 64 - 1).
Proof.
  unfold bounds_of, integer_types, int_range, register_bits.
  cbn [find fst snd].
  destruct (String.eqb_spec "int8" name) as [<- | H1];
    [intros [= <- <-]; vm_compute; intuition congruence|].
  destruct (String.eqb_spec "uint8" name) as [<- | H2];
    [intros [= <- <-]; vm_compute; intuition congruence|].
  destruct (String.eqb_spec "int16" name) as [<- | H3];
    [intros [= <- <-]; vm_compute; intuition congruence|].
  destruct (String.eqb_spec "uint16" name) as [<- | H4];
    [intros [= <- <-]; vm_compute; intuition congruence|].
  destruct (String.eqb_spec "int32" name) as [<- | H5];
    [intros [= <- <-]; vm_compute; intuition congruence|].
  destruct (String.eqb_spec "uint32" name) as [<- | H6];
    [intros [= <- <-]; vm_compute; intuition congruence|].
  destruct (String.eqb_spec "int64" name) as [<- | H7];
    [intros [= <- <-]; vm_compute; intuition congruence|].
  destruct (String.eqb_spec "uint64" name) as [<- | H8];
    [intros [= <- <-]; vm_compute; intuition congruence|].
  discriminate.
Qed.

(** The cast of the model gives a value of the integer type as it is. *)
Lemma float_to_int_cast_of (q : dtype) (x : spec_float) :
  cast_of (type_name q) x (float_to_int q x).
Proof.
  intros v least greatest Hv Hb Hin.
  destruct (bounds_of_int_range _ _ _ Hb) as (Hr & Hle & Hreg & Hu64).
  unfold float_to_int. rewrite Hr.
  pose proof (trunc_toward_zero x v Hv) as Ht.
  set (z := toward_zero v) in *. cbv zeta.
  assert (Hz : forall r, r = z -> least + (r - least) mod (greatest - least + 1) = z).
  { intros r ->. rewrite Z.mod_small by lia. lia. }
  apply Hz.
  destruct (String.eqb (type_name q) "uint64") eqn:Hname.
  - destruct (Hu64 eq_refl) as [-> ->].
    unfold cvtt_uint64, cvtt. rewrite Ht.
    destruct (Z.ltb_spec z (2 ^ 63)) as [Hlt | Hge].
    + assert (Hfit : (- 2 ^ (64 - 1) <=? z) && (z <? 2 ^ (64 - 1)) = true).
      { apply andb_true_iff. split; [apply Z.leb_le | apply Z.ltb_lt]; simpl; lia. }
      now rewrite Hfit.
    + assert (Hlt : (z <? 2 ^ 64) = true) by (apply Z.ltb_lt; lia).
      now rewrite Hlt.
  - destruct (Hreg eq_refl) as [Hlo Hhi].
    unfold cvtt. rewrite Ht.
    assert (Hfit : (- 2 ^ (register_bits (type_name q) - 1) <=? z) &&
                   (z <? 2 ^ (register_bits (type_name q) - 1)) = true).
    { apply andb_true_iff. split; [apply Z.leb_le | apply Z.ltb_lt]; lia. }
    now rewrite Hfit.
Qed.

Lemma quantize_quantized_float (t : float_type) (m : QuantDtypeMeta) (q : dtype)
    (scale : spec_float) (zp : Z) (value : spec_float) :
  bounds_ordered t m = true ->
  quantize t m q scale zp value =
  float_to_int q (quantized_float t m scale zp value).
Proof.
  intros Hord. unfold quantize, quantized_float. cbv zeta.
  rewrite rint_rounded.
  replace (minimum _ _) with
    (clipped (of_int t (qmin m)) (of_int t (qmax m))
       (if is_unsigned m
        then add (format_of t)
               (rounded t (div (format_of t) value (convert (format_of t) scale)))
               (of_Z (format_of t) zp)
        else rounded t (div (format_of t) value (convert (format_of t) scale)))).
  - destruct t; reflexivity.
  - rewrite <- clip_clipped by exact Hord. destruct t; reflexivity.
Qed.

Lemma dequantize_dequantized (m : QuantDtypeMeta) (scale : spec_float) (zp code : Z) :
  dequantize m scale zp code = dequantized m scale zp code.
Proof. unfold dequantize, dequantized. destruct (is_unsigned m); reflexivity. Qed.

Lemma float_to_int_in_type (q : dtype) (x : spec_float) (least greatest : Z) :
  bounds_of (type_name q) = Some (least, greatest) ->
  least <= float_to_int q x <= greatest.
Proof.
  intros Hb. destruct (bounds_of_int_range _ _ _ Hb) as (Hr & Hle & Hreg & Hu64).
  unfold float_to_int. rewrite Hr. cbv zeta.
  assert (Hn : 0 < greatest - least + 1) by lia.
  match goal with |- _ <= _ + ?r mod _ <= _ =>
    pose proof (Z.mod_pos_bound r _ Hn) end.
  lia.
Qed.

Lemma builtin_bounds_ordered (key : string) (m : QuantDtypeMeta) (t : float_type) :
  _builtin_quant_dtypes !! key = Some m -> bounds_ordered t m = true.
Proof.
  intros Hk. apply elem_of_list_to_map_2 in Hk.
  repeat (apply elem_of_cons in Hk; destruct Hk as [Hk | Hk];
          [inversion Hk; subst; destruct t; vm_compute; reflexivity |]).
  inversion Hk.
Qed.

(** For every float array and every matching quantized type whose
    bounds are in order as floats of the array's type, as those of
    every built-in descriptor are, quantization gives, element by
    element, the cast of the clipped float [round(value/scale) +
    zero_point] (unsigned) or [round(value/scale)] (signed): the
    division and the addition are those of the array's float type, the
    rounding is to the nearest integer on the exact value, ties to
    even, the clip is by the order of the floats, and the cast drops
    the fraction of the exact value and always gives a value of the
    storage type.  Dequantization gives [(value - zero_point) * scale]
    (unsigned) or [value * scale] (signed) in [float32]. *)
Theorem conversion_on_exact_values (m : QuantDtypeMeta) (q : dtype)
    (scale : spec_float) (zp : Z) :
  matches q m scale zp ->
  (forall a : float_array,
     bounds_ordered (f_type a) m = true ->
     exists codes : list Z,
       _convert_to_quantized_dtype (Ndarray (NdFloat a)) q m =
         Ok (NdInt q (f_shape a) codes) /\
       Forall2 (quantized (f_type a) m q scale zp) (f_data a) codes /\
       forall least greatest : Z,
         bounds_of (type_name q) = Some (least, greatest) ->
         Forall (fun code => least <= code <= greatest) codes) /\
  (forall (shape : list Z) (data : list Z),
     _convert_from_quantized_dtype (Ndarray (NdInt q shape data)) m =
     Ok (NdFloat (FloatArray float32 shape (map (dequantized m scale zp) data)))) /\
  (forall (key : string) (t : float_type),
     _builtin_quant_dtypes !! key = Some m -> bounds_ordered t m = true).
Proof.
  intros Hm. split; [|split].
  - intros a Hord.
    exists (map (quantize (f_type a) m q scale zp) (f_data a)). split; [|split].
    + apply DtypeFacts.to_quantized_per_element. exact Hm.
    + apply Forall2_fmap_r, Forall_Forall2_diag, Forall_forall. intros x _.
      unfold quantized, compose. cbv beta.
      rewrite (quantize_quantized_float _ _ _ _ _ _ Hord).
      apply float_to_int_cast_of.
    + intros least greatest Hb. apply Forall_fmap, Forall_forall. intros x _.
      unfold compose. rewrite (quantize_quantized_float _ _ _ _ _ _ Hord).
      apply float_to_int_in_type. exact Hb.
  - intros shape data.
    rewrite (DtypeFacts.from_quantized_per_element m q scale zp shape data Hm).
    do 3 f_equal. apply map_ext. intros code. apply dequantize_dequantized.
  - intros key t. apply builtin_bounds_ordered.
Qed.

(** [quint8(0.1, 128)] on the [float32] array that holds [30.0] (above
    the range), [-20.0] (below it) and [0.25] (whose quotient by the
    scale is [2.5], a tie) *)
Lemma conversion_on_exact_values_quint8 :
  matches quint8_0_1_128 quint8_meta float_0_1 128 /\
  bounds_ordered float32 quint8_meta = true /\
  (exists codes : list Z,
     _convert_to_quantized_dtype
       (Ndarray (NdFloat (FloatArray float32 [3]
          [of_int float32 30; of_int float32 (-20);
           SFdiv 24 128 (of_int float32 1) (of_int float32 4)])))
       quint8_0_1_128 quint8_meta =
       Ok (NdInt quint8_0_1_128 [3] codes) /\
     Forall2 (quantized float32 quint8_meta quint8_0_1_128 float_0_1 128)
       [of_int float32 30; of_int float32 (-20);
        SFdiv 24 128 (of_int float32 1) (of_int float32 4)] codes /\
     forall least greatest : Z,
       bounds_of "uint8" = Some (least, greatest) ->
       Forall (fun code => least <= code <= greatest) codes) /\
  _convert_from_quantized_dtype (Ndarray (NdInt quint8_0_1_128 [1] [131])) quint8_meta =
    Ok (NdFloat (FloatArray float32 [1]
          [dequantized quint8_meta float_0_1 128 131])).
Proof.
  assert (Hm : matches quint8_0_1_128 quint8_meta float_0_1 128).
  { exists (MgbDtype "Quantized8Asymm" float_0_1 (Some 128)).
    split; [reflexivity |]. split; [reflexivity |]. split; [reflexivity |].
    intros _. reflexivity. }
  assert (Hord : bounds_ordered float32 quint8_meta = true) by reflexivity.
  split; [exact Hm|]. split; [exact Hord|].
  split.
  - exact (proj1 (conversion_on_exact_values quint8_meta quint8_0_1_128 float_0_1 128 Hm)
             (FloatArray float32 [3]
                [of_int float32 30; of_int float32 (-20);
                 SFdiv 24 128 (of_int float32 1) (of_int float32 4)]) Hord).
  - exact (proj1 (proj2 (conversion_on_exact_values quint8_meta quint8_0_1_128
                           float_0_1 128 Hm)) [1] [131]).
Defined.

(** The elements of that array are quantized to [255], [0] and [130]:
    the clipped floats are [255.0], [0.0] and [130.0]. *)
Example quantized_float_quint8 :
  map (quantized_float float32 quint8_meta float_0_1 128)
    [of_int float32 30; of_int float32 (-20);
     SFdiv 24 128 (of_int float32 1) (of_int float32 4)] =
  map (of_int float32) [255; 0; 130] /\
  _convert_to_quantized_dtype
    (Ndarray (NdFloat (FloatArray float32 [3]
       [of_int float32 30; of_int float32 (-20);
        SFdiv 24 128 (of_int float32 1) (of_int float32 4)])))
    quint8_0_1_128 quint8_meta =
  Ok (NdInt quint8_0_1_128 [3] [255; 0; 130]).
Proof. split; vm_compute; reflexivity. Qed.


End ElementFacts.
